(** * CPL player auction: the auction workflow of [app.py] and the
    team-aggregate recompute of [import_players.py]

    The route handlers of the Flask application are embedded as functions
    from the request (URL argument, form fields) and the current state to
    a new state, the flashed messages and the HTTP response.  The state is
    the two tables the handlers touch (Player and Team, keyed by their
    primary key) and the Flask session of the acting administrator.

    Conventions of the embedding:
    - every handler is the body that runs once [login_required] and
      [role_required] have let the request through;
    - [db.session.commit()] is taken to succeed;
    - Python integers are [Z], SQL rows are records, a table is a finite
      map from the primary key to the row. *)

From stdpp Require Import gmap strings list fin_maps pretty sorting.
From Stdlib Require Import ZArith.
From Stdlib Require Import Floats.PrimFloat.

Open Scope Z_scope.

(** ** Data model *)

(** A value held by a statistics column or a spreadsheet cell.  The column
    declarations live in [models.py]; the handlers only copy these values. *)
Inductive Cell :=
| CNone
| CInt (z : Z)
| CReal (x : float)
| CText (s : string).

(** Team row.  [id] is the key of the table. *)
Record Team := mkTeam {
  team_name : string;
  captain_name : string;
  purse : Z;
  purse_spent : Z;
  slots_remaining : Z;
  players_taken_count : Z
}.

(** Player row, with the columns the handlers of [app.py] read or write. *)
Record Player := mkPlayer {
  player_name : string;
  is_retained : bool;
  status : string;
  sold_price : option Z;
  team_id : option Z;
  overall_matches : Cell;
  overall_runs : Cell;
  overall_wickets : Cell;
  overall_sr : Cell;
  overall_hs : Cell;
  cpl_2024_team : Cell;
  cpl_2024_innings : Cell;
  cpl_2024_runs : Cell;
  cpl_2024_wickets : Cell;
  cpl_2024_sr : Cell;
  cpl_2024_hs : Cell
}.

(** Assignment to the three columns the auction mutates:
    [player.status], [player.sold_price], [player.team_id]. *)
Definition update_player (p : Player) (st : string) (price : option Z)
    (tid : option Z) : Player :=
  {| player_name := player_name p;
     is_retained := is_retained p;
     status := st;
     sold_price := price;
     team_id := tid;
     overall_matches := overall_matches p;
     overall_runs := overall_runs p;
     overall_wickets := overall_wickets p;
     overall_sr := overall_sr p;
     overall_hs := overall_hs p;
     cpl_2024_team := cpl_2024_team p;
     cpl_2024_innings := cpl_2024_innings p;
     cpl_2024_runs := cpl_2024_runs p;
     cpl_2024_wickets := cpl_2024_wickets p;
     cpl_2024_sr := cpl_2024_sr p;
     cpl_2024_hs := cpl_2024_hs p |}.

(** The Flask session: each key is absent ([None]) or bound to a value.
    [session.pop(k, None)] sets the field to [None]. *)
Record Session := mkSession {
  auction_started : option bool;
  current_player_id : option Z;
  auction_round : option Z;
  round_complete : option bool;
  auction_complete : option bool;
  auction_paused : option bool
}.

Definition empty_session : Session :=
  mkSession None None None None None None.

Record State := mkState {
  players : gmap Z Player;
  teams : gmap Z Team;
  session : Session
}.

(** Python truthiness of [session.get(k)] for a flag and for an id. *)
Definition truthy (o : option bool) : bool := default false o.

Definition truthy_id (o : option Z) : bool :=
  match o with
  | Some z => negb (z =? 0)
  | None => false
  end.

(** [session.get('auction_round', 1)] *)
Definition get_round (s : Session) : Z := default 1 (auction_round s).

(** [f'Round {auction_round} Unsold'] *)
Definition round_unsold (auction_round : Z) : string :=
  "Round " +:+ pretty auction_round +:+ " Unsold".

(** ** Routes, flashed messages, responses *)

Inductive Route :=
| R_auctions
| R_next_player
| R_teams
| R_home.

Inductive Flash :=
| F_paused_proceed
| F_round_done (auction_round : Z)
| F_auction_done (auction_round : Z)
| F_round_not_complete
| F_no_players_next_round
| F_starting_round (next_round_number : Z)
| F_paused_sold
| F_paused_unsold
| F_not_current
| F_invalid_team_or_price
| F_no_slots (team : string)
| F_not_enough_purse (team : string) (remaining : Z)
| F_sold (player team : string) (sold_price : Z)
| F_marked_unsold (player : string) (auction_round : Z)
| F_bad_reset_password
| F_reset_done
| F_not_running
| F_paused
| F_not_paused
| F_bad_resume_password
| F_resumed
| F_nothing_to_export (team : string)
| F_logged_out.

(** The message and category passed to [flash]. *)
Definition flash_text (f : Flash) : string * string :=
  match f with
  | F_paused_proceed =>
      ("Auction is paused. Resume before proceeding.", "warning")
  | F_round_done r =>
      ("Round " +:+ pretty r +:+ " complete. Ready for Round "
         +:+ pretty (r + 1) +:+ ".", "info")
  | F_auction_done r =>
      ("Auction complete after Round " +:+ pretty r
         +:+ "! All non-retained players processed.", "success")
  | F_round_not_complete =>
      ("Cannot start next round until the current one is complete.",
       "warning")
  | F_no_players_next_round =>
      ("No players available for the next round.", "info")
  | F_starting_round n =>
      ("Starting Round " +:+ pretty n +:+ "!", "success")
  | F_paused_sold =>
      ("Auction is paused. Resume before marking player sold.", "warning")
  | F_paused_unsold =>
      ("Auction is paused. Resume before marking player unsold.", "warning")
  | F_not_current =>
      ("This player is not currently up for auction or action already taken.",
       "error")
  | F_invalid_team_or_price => ("Invalid team or price.", "error")
  | F_no_slots t => (t +:+ " has no remaining slots!", "error")
  | F_not_enough_purse t rem =>
      (t +:+ " does not have enough purse (Remaining: " +:+ pretty rem
         +:+ ")!", "error")
  | F_sold p t price =>
      (p +:+ " sold to " +:+ t +:+ " for " +:+ pretty price +:+ " points!",
       "success")
  | F_marked_unsold p r =>
      (p +:+ " marked as unsold for Round " +:+ pretty r
         +:+ ". Available in next round.", "info")
  | F_bad_reset_password =>
      ("Invalid admin password. Auction not reset.", "error")
  | F_reset_done =>
      ("Auction has been reset! (Retained players kept)", "success")
  | F_not_running =>
      ("Auction is not currently running or is already complete.", "warning")
  | F_paused => ("Auction paused.", "info")
  | F_not_paused => ("Auction is not paused.", "warning")
  | F_bad_resume_password =>
      ("Invalid admin credentials. Auction not resumed.", "error")
  | F_resumed => ("Auction resumed.", "success")
  | F_nothing_to_export t => (t +:+ " has no players to export.", "info")
  | F_logged_out => ("You have been logged out.", "success")
  end.

(** One spreadsheet row: the dict appended to [players_data], as the
    ordered list of its (column header, value) items. *)
Definition Row : Type := list (string * Cell).

Inductive Response :=
| Redirect (target : Route)
| Render (template : string)
| NotFound
| SendFile (download_name sheet_name : string) (rows : list Row).

(** What a request leaves behind. *)
Record Outcome := mkOutcome {
  new_state : State;
  flashes : list Flash;
  response : Response
}.

Definition with_session (st : State) (s : Session) : State :=
  mkState (players st) (teams st) s.

(** ** Queries *)

(** [Player.query.filter_by(status=s, is_retained=False)] *)
Definition in_pool (s : string) (kv : Z * Player) : Prop :=
  status kv.2 = s ∧ is_retained kv.2 = false.

Global Instance in_pool_dec s kv : Decision (in_pool s kv).
Proof. unfold in_pool. apply _. Defined.

Definition pool (s : string) (ps : gmap Z Player) : gmap Z Player :=
  filter (in_pool s) ps.

(** [random.choice(seq)] on a non-empty sequence [first :: rest], with
    [rnd] the draw of the generator: the element at index
    [rnd mod len(seq)]. *)
Definition random_choice {A} (rnd : nat) (first : A) (rest : list A) : A :=
  nth (rnd `mod` S (length rest))%nat (first :: rest) first.

(** [Player.query.filter_by(team_id=tid, is_retained=True)] *)
Definition retained_of (tid : Z) (kv : Z * Player) : Prop :=
  team_id kv.2 = Some tid ∧ is_retained kv.2 = true.

Global Instance retained_of_dec tid kv : Decision (retained_of tid kv).
Proof. unfold retained_of. apply _. Defined.

(** Modelled from the spec: the relationship [Team.players] is declared in
    [models.py], which is not among the sources; a team's roster is taken
    to be the Player rows whose [team_id] is the team's id ("optional
    owning Team reference"). *)
Definition on_roster (tid : Z) (kv : Z * Player) : Prop :=
  team_id kv.2 = Some tid.

Global Instance on_roster_dec tid kv : Decision (on_roster tid kv).
Proof. unfold on_roster. apply _. Defined.

Definition team_players (tid : Z) (ps : gmap Z Player) : gmap Z Player :=
  filter (on_roster tid) ps.

Definition retained_flag (kv : Z * Player) : Prop := is_retained kv.2 = true.

Global Instance retained_flag_dec kv : Decision (retained_flag kv).
Proof. unfold retained_flag. apply _. Defined.

(** [sum(p.sold_price for p in retained_players if p.sold_price is not None)] *)
Definition retained_cost (retained_players : list (Z * Player)) : Z :=
  foldr (λ kv acc,
           match sold_price kv.2 with
           | Some c => c + acc
           | None => acc
           end) 0 retained_players.

(** The four assignments both recompute loops make to a team, from the
    list of its retained players. *)
Definition recompute_team (retained_players : list (Z * Player))
    (t : Team) : Team :=
  let max_slots := 15 in
  let retained_count := Z.of_nat (length retained_players) in
  let cost := retained_cost retained_players in
  {| team_name := team_name t;
     captain_name := captain_name t;
     purse := 10000 - cost;
     purse_spent := cost;
     slots_remaining := max_slots - retained_count;
     players_taken_count := retained_count |}.

(** ** Handlers *)

Record SoldForm := mkSoldForm {
  form_team_id : option string;
  form_sold_price : option string
}.

Section Handlers.

(** Python's [int] on a string: [None] where it raises [ValueError]. *)
Variable py_int : string → option Z.

(** [current_user.check_password] of the acting administrator. *)
Variable check_password : string → bool.

(** [int(request.form.get(k))]: a missing field is [None], on which
    [int] raises [TypeError]. *)
Definition form_int (field : option string) : option Z :=
  field ≫= py_int.

(** [not password or not current_user.check_password(password)] *)
Definition password_rejected (password : option string) : bool :=
  match password with
  | None => true
  | Some pw => if decide (pw = "") then true else negb (check_password pw)
  end.

(** [/next_player] *)
Definition next_player (rnd : nat) (st : State) : Outcome :=
  let s := session st in
  if truthy (auction_paused s) then
    mkOutcome st [F_paused_proceed] (Redirect R_auctions)
  else
    let r := get_round s in
    let current_round_status := "Unsold" in
    let next_round_status_check := round_unsold r in
    let unsold_players :=
      map_to_list (pool current_round_status (players st)) in
    match unsold_players with
    | [] =>
        let players_for_next_round_count :=
          size (pool next_round_status_check (players st)) in
        if decide (0 < players_for_next_round_count)%nat then
          mkOutcome
            (with_session st
               (mkSession (Some false) None (auction_round s)
                  (Some true) (auction_complete s) (auction_paused s)))
            [F_round_done r] (Redirect R_auctions)
        else
          mkOutcome
            (with_session st
               (mkSession (Some false) None (auction_round s)
                  (round_complete s) (Some true) (auction_paused s)))
            [F_auction_done r] (Redirect R_auctions)
    | first :: rest =>
        let random_player := random_choice rnd first rest in
        mkOutcome
          (with_session st
             (mkSession (Some true) (Some random_player.1)
                (auction_round s) (Some false) (Some false)
                (auction_paused s)))
          [] (Redirect R_auctions)
    end.

(** The loop [for player in players_for_next_round: player.status =
    'Unsold'] over the rows selected by
    [filter_by(status=completed_round_status, is_retained=False)]. *)
Definition relabel (completed_round_status : string) (p : Player) : Player :=
  if decide (status p = completed_round_status ∧ is_retained p = false)
  then update_player p "Unsold" (sold_price p) (team_id p)
  else p.

(** [/start_next_round] *)
Definition start_next_round (st : State) : Outcome :=
  let s := session st in
  let r := get_round s in
  if negb (truthy (round_complete s)) then
    mkOutcome st [F_round_not_complete] (Redirect R_auctions)
  else
    let completed_round_status := round_unsold r in
    let players_for_next_round :=
      map_to_list (pool completed_round_status (players st)) in
    match players_for_next_round with
    | [] =>
        mkOutcome
          (with_session st
             (mkSession (Some false) (current_player_id s)
                (auction_round s) (Some false) (Some true)
                (auction_paused s)))
          [F_no_players_next_round] (Redirect R_auctions)
    | _ :: _ =>
        let next_round_number := r + 1 in
        mkOutcome
          (mkState (relabel completed_round_status <$> players st)
             (teams st)
             (mkSession (Some true) (current_player_id s)
                (Some next_round_number) (Some false)
                (auction_complete s) (Some false)))
          [F_starting_round next_round_number] (Redirect R_next_player)
    end.

(** The guard shared by [mark_sold] and [mark_unsold]:
    [player.is_retained or player.status != 'Unsold' or
     not session.get('auction_started') or
     session.get('current_player_id') != player_id] *)
Definition not_up_for_auction (s : Session) (player_id : Z)
    (player : Player) : Prop :=
  is_retained player = true ∨ status player ≠ "Unsold" ∨
  truthy (auction_started s) = false ∨
  current_player_id s ≠ Some player_id.

Global Instance not_up_for_auction_dec s player_id player :
  Decision (not_up_for_auction s player_id player).
Proof. unfold not_up_for_auction. apply _. Defined.

(** The assignments of a sale to the team row. *)
Definition debit (sold_price : Z) (team : Team) : Team :=
  {| team_name := team_name team;
     captain_name := captain_name team;
     purse := purse team - sold_price;
     purse_spent := purse_spent team + sold_price;
     slots_remaining := slots_remaining team - 1;
     players_taken_count := players_taken_count team + 1 |}.

Definition pop_current_player (s : Session) : Session :=
  mkSession (auction_started s) None (auction_round s) (round_complete s)
    (auction_complete s) (auction_paused s).

(** [/sold/<int:player_id>], POST *)
Definition mark_sold (player_id : Z) (form : SoldForm) (st : State)
    : Outcome :=
  let s := session st in
  if truthy (auction_paused s) then
    mkOutcome st [F_paused_sold] (Redirect R_auctions)
  else
    match players st !! player_id with
    | None => mkOutcome st [] NotFound
    | Some player =>
        if decide (not_up_for_auction s player_id player) then
          mkOutcome st [F_not_current] (Redirect R_auctions)
        else
          match form_int (form_team_id form),
                form_int (form_sold_price form) with
          | Some tid, Some price =>
              match teams st !! tid with
              | None => mkOutcome st [] NotFound
              | Some team =>
                  if decide (slots_remaining team ≤ 0) then
                    mkOutcome st [F_no_slots (team_name team)]
                      (Redirect R_auctions)
                  else if decide (purse team < price) then
                    mkOutcome st
                      [F_not_enough_purse (team_name team) (purse team)]
                      (Redirect R_auctions)
                  else
                    mkOutcome
                      (mkState
                         (<[player_id :=
                              update_player player "Sold" (Some price)
                                (Some tid)]> (players st))
                         (<[tid := debit price team]> (teams st))
                         (pop_current_player s))
                      [F_sold (player_name player) (team_name team) price]
                      (Redirect R_next_player)
              end
          | _, _ =>
              mkOutcome st [F_invalid_team_or_price] (Redirect R_auctions)
          end
    end.

(** [/unsold/<int:player_id>], POST *)
Definition mark_unsold (player_id : Z) (st : State) : Outcome :=
  let s := session st in
  if truthy (auction_paused s) then
    mkOutcome st [F_paused_unsold] (Redirect R_auctions)
  else
    match players st !! player_id with
    | None => mkOutcome st [] NotFound
    | Some player =>
        if decide (not_up_for_auction s player_id player) then
          mkOutcome st [F_not_current] (Redirect R_auctions)
        else
          let r := get_round s in
          mkOutcome
            (mkState
               (<[player_id :=
                    update_player player (round_unsold r)
                      (sold_price player) (team_id player)]> (players st))
               (teams st)
               (pop_current_player s))
            [F_marked_unsold (player_name player) r]
            (Redirect R_next_player)
    end.

(** The loop [for player in players_to_reset: player.status = 'Unsold';
    player.sold_price = 0; player.team_id = None] over the rows selected
    by [filter_by(is_retained=False)]. *)
Definition reset_player (p : Player) : Player :=
  if is_retained p then p else update_player p "Unsold" (Some 0) None.

(** The loop over [teams_to_reset] in [restart_auction]; the retained
    players of a team are queried on the Player table after the loop
    above. *)
Definition reset_teams (ps : gmap Z Player) (ts : gmap Z Team)
    : gmap Z Team :=
  map_imap (λ tid team,
              Some (recompute_team (map_to_list (filter (retained_of tid) ps))
                      team)) ts.

(** [/restart_auction]; [post] tells a POST from a GET. *)
Definition restart_auction (post : bool) (password : option string)
    (st : State) : Outcome :=
  if post then
    if password_rejected password then
      mkOutcome st [F_bad_reset_password] (Render "restart_confirm.html")
    else
      let players' := reset_player <$> players st in
      mkOutcome
        (mkState players' (reset_teams players' (teams st)) empty_session)
        [F_reset_done] (Redirect R_auctions)
  else
    mkOutcome st [] (Render "restart_confirm.html").

(** [/pause_auction], POST *)
Definition pause_auction (st : State) : Outcome :=
  let s := session st in
  if negb (truthy (auction_started s)) || truthy (auction_complete s) then
    mkOutcome st [F_not_running] (Redirect R_auctions)
  else
    mkOutcome
      (with_session st
         (mkSession (auction_started s) (current_player_id s)
            (auction_round s) (round_complete s) (auction_complete s)
            (Some true)))
      [F_paused] (Redirect R_auctions).

(** [/resume_auction] *)
Definition resume_auction (post : bool) (password : option string)
    (st : State) : Outcome :=
  let s := session st in
  if negb (truthy (auction_paused s)) then
    mkOutcome st [F_not_paused] (Redirect R_auctions)
  else if post then
    if password_rejected password then
      mkOutcome st [F_bad_resume_password] (Render "resume_confirm.html")
    else
      mkOutcome
        (with_session st
           (mkSession (auction_started s) (current_player_id s)
              (auction_round s) (round_complete s) (auction_complete s)
              (Some false)))
        [F_resumed]
        (if truthy_id (current_player_id s) then Redirect R_auctions
         else Redirect R_next_player)
  else
    mkOutcome st [] (Render "resume_confirm.html").

(** [/logout]: the six auction keys are popped from the session. *)
Definition logout (st : State) : Outcome :=
  mkOutcome (with_session st empty_session) [F_logged_out] (Redirect R_home).

(** [/auctions]; [is_admin] is [current_user.is_authenticated and
    current_user.role in ['Admin', 'Super Admin']].  Only the session
    effects and the kind of response are kept; the counts handed to the
    template are not. *)
Definition auctions (is_admin : bool) (st : State) : Outcome :=
  let s := session st in
  let started := truthy (auction_started s) in
  let r := get_round s in
  let round_done := truthy (round_complete s) in
  let complete := truthy (auction_complete s) in
  let paused := truthy (auction_paused s) in
  let stale_pointer :=
    if started && negb round_done && negb complete && negb paused then
      if truthy_id (current_player_id s) then
        match current_player_id s ≫= (λ pid, players st !! pid) with
        | Some current_player =>
            bool_decide (status current_player ≠ "Unsold")
        | None => false
        end
      else false
    else false in
  if stale_pointer && is_admin then
    mkOutcome (with_session st (pop_current_player s)) []
      (Redirect R_next_player)
  else
    let s1 := if stale_pointer then pop_current_player s else s in
    let s2 :=
      if round_done then
        let next_round_players_count :=
          size (pool (round_unsold r) (players st)) in
        if decide (next_round_players_count = 0%nat) then
          let still_unsold := size (pool "Unsold" (players st)) in
          if decide (still_unsold = 0%nat) then
            mkSession (Some false) (current_player_id s1)
              (auction_round s1) (round_complete s1) (Some true)
              (auction_paused s1)
          else s1
        else s1
      else s1 in
    mkOutcome (with_session st s2) [] (Render "auctions.html").

(** *** Export *)

(** [player.sold_price if player.sold_price is not None else 0] *)
Definition price_label (p : Player) : Z := default 0 (sold_price p).

Definition status_label (p : Player) : string :=
  if is_retained p then "Retained"
  else if decide (status p = "Sold") then "Sold"
  else "Unsold/Other".

Definition export_row (p : Player) : Row :=
  [ ("Player Name", CText (player_name p));
    ("Status", CText (status_label p));
    ("Price (Points)", CInt (price_label p));
    ("Overall Matches", overall_matches p);
    ("Overall Runs", overall_runs p);
    ("Overall Wickets", overall_wickets p);
    ("Overall SR", overall_sr p);
    ("Overall HS", overall_hs p);
    ("CPL 2024 Team", cpl_2024_team p);
    ("CPL 2024 Innings", cpl_2024_innings p);
    ("CPL 2024 Runs", cpl_2024_runs p);
    ("CPL 2024 Wickets", cpl_2024_wickets p);
    ("CPL 2024 SR", cpl_2024_sr p);
    ("CPL 2024 HS", cpl_2024_hs p) ].

(** [order_by(Player.is_retained.desc(), Player.player_name)]: retained
    rows first, then by name (compared byte-wise). *)
Definition roster_order (a b : Z * Player) : Prop :=
  (is_retained a.2 = true ∧ is_retained b.2 = false) ∨
  (is_retained a.2 = is_retained b.2 ∧
   String.leb (player_name a.2) (player_name b.2) = true).

Global Instance roster_order_dec a b : Decision (roster_order a b).
Proof. unfold roster_order. apply _. Defined.

(** [/export_team_excel/<int:team_id>]; the workbook is represented by
    the rows of the data frame written to it. *)
Definition export_team_excel (tid : Z) (st : State) : Outcome :=
  match teams st !! tid with
  | None => mkOutcome st [] NotFound
  | Some team =>
      let roster :=
        merge_sort roster_order (map_to_list (team_players tid (players st)))
      in
      let players_data := (λ kv : Z * Player, export_row kv.2) <$> roster in
      match players_data with
      | [] =>
          mkOutcome st [F_nothing_to_export (team_name team)]
            (Redirect R_teams)
      | _ :: _ =>
          mkOutcome st []
            (SendFile (team_name team +:+ "_players.xlsx") (team_name team)
               players_data)
      end
  end.

(** *** Import-time recompute ([import_players.py]) *)

(** [recalculate_initial_team_stats]: for each team,
    [team.players.filter_by(is_retained=True).all()] and the four
    assignments. *)
Definition recalculate_initial_team_stats (st : State) : State :=
  mkState (players st)
    (map_imap (λ tid team,
                 Some (recompute_team
                         (map_to_list
                            (filter retained_flag
                               (team_players tid (players st))))
                         team)) (teams st))
    (session st).

(** [import_players_from_csv] writes Player rows only and then calls
    [recalculate_initial_team_stats]; [imported] is the Player table the
    row loop leaves behind. *)
Definition import_then_recalculate (imported : gmap Z Player) (st : State)
    : State :=
  recalculate_initial_team_stats (mkState imported (teams st) (session st)).

(** ** Requests and runs *)

Inductive Op :=
| OpNextPlayer (rnd : nat)
| OpStartNextRound
| OpMarkSold (player_id : Z) (form : SoldForm)
| OpMarkUnsold (player_id : Z)
| OpRestartAuction (post : bool) (password : option string)
| OpPauseAuction
| OpResumeAuction (post : bool) (password : option string)
| OpAuctions (is_admin : bool)
| OpExport (tid : Z)
| OpLogout
| OpImport (imported : gmap Z Player).

Definition step (op : Op) (st : State) : State :=
  match op with
  | OpNextPlayer rnd => new_state (next_player rnd st)
  | OpStartNextRound => new_state (start_next_round st)
  | OpMarkSold player_id form => new_state (mark_sold player_id form st)
  | OpMarkUnsold player_id => new_state (mark_unsold player_id st)
  | OpRestartAuction post password =>
      new_state (restart_auction post password st)
  | OpPauseAuction => new_state (pause_auction st)
  | OpResumeAuction post password =>
      new_state (resume_auction post password st)
  | OpAuctions is_admin => new_state (auctions is_admin st)
  | OpExport tid => new_state (export_team_excel tid st)
  | OpLogout => new_state (logout st)
  | OpImport imported => import_then_recalculate imported st
  end.

(** The state after a sequence of requests, oldest first. *)
Definition run (ops : list Op) (st : State) : State :=
  foldl (λ st op, step op st) st ops.

(** The browser following a redirect to [/next_player]: the handler runs
    on the state the redirecting request left, and its messages are added
    to those already flashed. *)
Definition follow_redirect (rnd : nat) (o : Outcome) : Outcome :=
  match response o with
  | Redirect R_next_player =>
      let o' := next_player rnd (new_state o) in
      mkOutcome (new_state o') (flashes o ++ flashes o') (response o')
  | _ => o
  end.

End Handlers.

(** ** Concrete instances used to run the handlers on examples *)

Definition digit_value (a : Ascii.ascii) : option Z :=
  let n := Ascii.nat_of_ascii a in
  if decide (48 ≤ n ≤ 57)%nat then Some (Z.of_nat (n - 48)) else None.

Fixpoint digits_value (acc : Z) (s : string) : option Z :=
  match s with
  | EmptyString => Some acc
  | String a rest =>
      match digit_value a with
      | Some d => digits_value (10 * acc + d) rest
      | None => None
      end
  end.

(** [int] restricted to plain ASCII decimal literals with an optional
    sign (no surrounding blanks, no underscores). *)
Definition decimal_int (s : string) : option Z :=
  match s with
  | EmptyString => None
  | String a rest =>
      if decide (String a "" = "-") then
        (if decide (rest = "") then None else Z.opp <$> digits_value 0 rest)
      else if decide (String a "" = "+") then
        (if decide (rest = "") then None else digits_value 0 rest)
      else digits_value 0 s
  end.

(** The password the seeded Super Admin is created with. *)
Definition seeded_admin_password (pw : string) : bool :=
  bool_decide (pw = "admin123").

(** Modelled from the spec: the column defaults of Team are declared in
    [models.py], which is not among the sources; a seeded team starts with
    the fixed budget as purse, the slot cap as free slots, nothing spent
    and no player taken. *)
Definition seed_team (name captain : string) : Team :=
  mkTeam name captain 10000 0 15 0.

(** The teams seeded by [create_tables], with ids in insertion order. *)
Definition seeded_teams : gmap Z Team :=
  list_to_map
    [ (1, seed_team "Puthiya Sirakukal" "Govindaraj");
      (2, seed_team "APJ Tamizhan Youngstars" "Silambu R");
      (3, seed_team "Mighty Cricket Club" "Barathi K");
      (4, seed_team "SPARTAN ROCKERZ" "Barathi K");
      (5, seed_team "Crazy-11" "Nithyaraj");
      (6, seed_team "Jolly Players" "Vinoth");
      (7, seed_team "Dada Warriors" "Praveen prabhakaran");
      (8, seed_team "Thunder Strikers" "Gurunathan S") ].

(** A Player row as the import creates it from a CSV row without
    statistics: retained rows carry status ['Retained'], the retaining
    team and last year's price; the others ['Unsold'], no team and
    price 0. *)
Definition imported_player (name : string) (retained : bool)
    (tid : option Z) (last_year_price : Z) : Player :=
  {| player_name := name;
     is_retained := retained;
     status := if retained then "Retained" else "Unsold";
     sold_price := Some (if retained then last_year_price else 0);
     team_id := if retained then tid else None;
     overall_matches := CInt 0;
     overall_runs := CInt 0;
     overall_wickets := CInt 0;
     overall_sr := CNone;
     overall_hs := CNone;
     cpl_2024_team := CNone;
     cpl_2024_innings := CInt 0;
     cpl_2024_runs := CInt 0;
     cpl_2024_wickets := CNone;
     cpl_2024_sr := CReal 0%float;
     cpl_2024_hs := CInt 0 |}.

(** ** The team ledger *)

Definition ledger_ok (t : Team) : Prop :=
  purse t + purse_spent t = 10000 ∧
  slots_remaining t + players_taken_count t = 15.

Definition ledger_invariant (st : State) : Prop :=
  map_Forall (λ _ t, ledger_ok t) (teams st).

(** The checks a sale has to pass before the purse is looked at, with the
    rows and parsed form values they are made on. *)
Definition sale_presented (py_int : string → option Z) (st : State)
    (player_id : Z) (form : SoldForm) (player : Player) (tid : Z)
    (team : Team) (price : Z) : Prop :=
  truthy (auction_paused (session st)) = false ∧
  players st !! player_id = Some player ∧
  is_retained player = false ∧
  status player = "Unsold" ∧
  truthy (auction_started (session st)) = true ∧
  current_player_id (session st) = Some player_id ∧
  form_int py_int (form_team_id form) = Some tid ∧
  form_int py_int (form_sold_price form) = Some price ∧
  teams st !! tid = Some team ∧
  0 < slots_remaining team.

(** All the checks of a sale. *)
Definition sale_accepted (py_int : string → option Z) (st : State)
    (player_id : Z) (form : SoldForm) (player : Player) (tid : Z)
    (team : Team) (price : Z) : Prop :=
  sale_presented py_int st player_id form player tid team price ∧
  price ≤ purse team.

(** The state a sale leaves. *)
Definition sold_state (st : State) (player_id : Z) (player : Player)
    (tid : Z) (team : Team) (price : Z) : State :=
  mkState
    (<[player_id := update_player player "Sold" (Some price) (Some tid)]>
       (players st))
    (<[tid := debit price team]> (teams st))
    (pop_current_player (session st)).

(** The conditions under which a sale is to be refused: a form
    value [int] does not accept, a price above the purse, or no slot left. *)
Definition sale_must_fail (py_int : string → option Z) (st : State)
    (form : SoldForm) : Prop :=
  form_int py_int (form_team_id form) = None ∨
  form_int py_int (form_sold_price form) = None ∨
  ∃ tid price team,
    form_int py_int (form_team_id form) = Some tid ∧
    form_int py_int (form_sold_price form) = Some price ∧
    teams st !! tid = Some team ∧
    (purse team < price ∨ slots_remaining team = 0).

(** The three messages that report a failed validation of the form. *)
Definition validation_flash (py_int : string → option Z) (st : State)
    (form : SoldForm) (f : Flash) : Prop :=
  f = F_invalid_team_or_price ∨
  ∃ tid team,
    form_int py_int (form_team_id form) = Some tid ∧
    teams st !! tid = Some team ∧
    (f = F_no_slots (team_name team) ∨
     f = F_not_enough_purse (team_name team) (purse team)).

(** The request names the player currently presented, and the auction is
    not paused: the checks [mark_sold] and [mark_unsold] share. *)
Definition presented (st : State) (player_id : Z) (player : Player) : Prop :=
  truthy (auction_paused (session st)) = false ∧
  players st !! player_id = Some player ∧
  ¬ not_up_for_auction (session st) player_id player.

(** No non-retained player holds status [s]; some non-retained player
    does. *)
Definition none_holds (s : string) (ps : gmap Z Player) : Prop :=
  ∀ pid p, ps !! pid = Some p → is_retained p = false → status p ≠ s.

Definition some_holds (s : string) (ps : gmap Z Player) : Prop :=
  ∃ pid p, ps !! pid = Some p ∧ is_retained p = false ∧ status p = s.

(** The session [next_player] leaves when it finds the round finished, and
    when it finds the auction finished. *)
Definition round_complete_session (s : Session) : Session :=
  mkSession (Some false) None (auction_round s) (Some true)
    (auction_complete s) (auction_paused s).

Definition auction_complete_session (s : Session) : Session :=
  mkSession (Some false) None (auction_round s) (round_complete s)
    (Some true) (auction_paused s).

(** The session [next_player] leaves when it presents player [pid]. *)
Definition presenting_session (s : Session) (pid : Z) : Session :=
  mkSession (Some true) (Some pid) (auction_round s) (Some false)
    (Some false) (auction_paused s).

(** [next_player] enters round completion: it announces the end of the
    round and sets the session flags of that state. *)
Definition enters_round_complete (st : State) (o : Outcome) : Prop :=
  flashes o = [F_round_done (get_round (session st))] ∧
  new_state o = with_session st (round_complete_session (session st)).

(** [next_player] enters auction completion. *)
Definition enters_auction_complete (st : State) (o : Outcome) : Prop :=
  flashes o = [F_auction_done (get_round (session st))] ∧
  new_state o = with_session st (auction_complete_session (session st)).

(** [Player.status.like('Round % Unsold')]: the status starts with
    ["Round "], ends with [" Unsold"], and the two do not overlap. *)
Definition like_round_unsold (s : string) : bool :=
  String.prefix "Round " s &&
  bool_decide (13 ≤ String.length s)%nat &&
  String.eqb (String.substring (String.length s - 7) 7 s) " Unsold".

(** The statuses counted by [marked_unsold_count] in [auctions]:
    "marked unsold in ANY round". *)
Definition round_marked_unsold (s : string) : bool :=
  like_round_unsold s || bool_decide (s = "Unsold Final").

(** Round completion as the specification words it: no non-retained player holds
    plain 'Unsold' and at least one player holds a round-marked-unsold
    status. *)
Definition claimed_round_complete (st : State) : Prop :=
  none_holds "Unsold" (players st) ∧
  ∃ pid p, players st !! pid = Some p ∧ round_marked_unsold (status p) = true.

(** Auction completion as the specification words it: no player holds plain
    'Unsold' and no player holds any round-marked-unsold status. *)
Definition claimed_auction_complete (st : State) : Prop :=
  (∀ pid p, players st !! pid = Some p → status p ≠ "Unsold") ∧
  (∀ pid p, players st !! pid = Some p →
            round_marked_unsold (status p) = false).

(** The player a request to [next_player] with draw [rnd] presents. *)
Definition presented_by (rnd : nat) (st : State) : option Z :=
  current_player_id (session (new_state (next_player rnd st))).

(** ** Example tables and requests *)

(** The sale of the specification's example: team T (id 2) with purse 5000
    and 3 free slots, player P (id 7) presented. *)
Definition team_T : Team := mkTeam "T" "Captain T" 5000 5000 3 12.

Definition player_P : Player := imported_player "P" false None 0.

Definition sale_state : State :=
  mkState {[ 7 := player_P ]} {[ 2 := team_T ]}
    (mkSession (Some true) (Some 7) (Some 1) (Some false) (Some false) None).

Definition sale_form (price : string) : SoldForm :=
  mkSoldForm (Some "2") (Some price).

(** A first import: one player retained by team 1 for 1000 and one player
    for the auction; then the auction player is presented and sold to
    team 3 for 700, and the auction completes. *)
Definition small_import : gmap Z Player :=
  {[ 1 := imported_player "Keeper" true (Some 1) 1000;
     2 := imported_player "Bidder" false None 0 ]}.

Definition small_auction : list Op :=
  [ OpImport small_import;
    OpNextPlayer 0;
    OpMarkSold 2 (mkSoldForm (Some "3") (Some "700"));
    OpNextPlayer 0 ].

(** The reset of the specification's example: team 1 holds two retained
    players costing 1000 and 1500 and has bought a third player for 3000
    in the auction. *)
Definition mid_auction_state : State :=
  mkState
    {[ 1 := imported_player "Keeper" true (Some 1) 1000;
       2 := imported_player "Anchor" true (Some 1) 1500;
       3 := update_player (imported_player "Bidder" false None 0) "Sold"
              (Some 3000) (Some 1);
       4 := update_player (imported_player "Passed" false None 0)
              "Round 1 Unsold" (Some 0) None ]}
    {[ 1 := mkTeam "Puthiya Sirakukal" "Govindaraj" 4500 5500 12 3 ]}
    (mkSession (Some true) None (Some 2) (Some false) (Some false) None).

(** One player for the auction, passed in round 1 and again in round 2,
    after which the administrator logs out. *)
Definition lone_player_state : State :=
  mkState {[ 1 := imported_player "Solo" false None 0 ]} seeded_teams
    empty_session.

Definition two_passes_then_logout : list Op :=
  [ OpNextPlayer 0; OpMarkUnsold 1; OpNextPlayer 0;
    OpStartNextRound; OpNextPlayer 0; OpMarkUnsold 1;
    OpLogout ].

(** ** Further views of the tables and predicates on them *)

(** The requests served by the web application; the import is a script
    run beside it. *)
Definition web_request (op : Op) : Prop :=
  match op with
  | OpImport _ => False
  | _ => True
  end.

(** The columns of a Player row no route handler assigns. *)
Definition same_profile (p q : Player) : Prop :=
  player_name q = player_name p ∧
  is_retained q = is_retained p ∧
  overall_matches q = overall_matches p ∧
  overall_runs q = overall_runs p ∧
  overall_wickets q = overall_wickets p ∧
  overall_sr q = overall_sr p ∧
  overall_hs q = overall_hs p ∧
  cpl_2024_team q = cpl_2024_team p ∧
  cpl_2024_innings q = cpl_2024_innings p ∧
  cpl_2024_runs q = cpl_2024_runs p ∧
  cpl_2024_wickets q = cpl_2024_wickets p ∧
  cpl_2024_sr q = cpl_2024_sr p ∧
  cpl_2024_hs q = cpl_2024_hs p.

(** The four assignments the route handlers make to a Player row: the
    sale in [mark_sold], the pass in [mark_unsold], the re-labelling in
    [start_next_round] and the reset in [restart_auction]. *)
Inductive row_change (ts : gmap Z Team) : Player → Player → Prop :=
| row_sold p price tid :
    is_retained p = false → status p = "Unsold" → is_Some (ts !! tid) →
    row_change ts p (update_player p "Sold" (Some price) (Some tid))
| row_passed p r :
    is_retained p = false → status p = "Unsold" →
    row_change ts p
      (update_player p (round_unsold r) (sold_price p) (team_id p))
| row_relabelled p r :
    is_retained p = false → status p = round_unsold r →
    row_change ts p (update_player p "Unsold" (sold_price p) (team_id p))
| row_reset p :
    is_retained p = false →
    row_change ts p (update_player p "Unsold" (Some 0) None).

(** A row after a request: as before, or changed by one assignment. *)
Definition row_kept (ts : gmap Z Team) (p q : Player) : Prop :=
  q = p ∨ row_change ts p q.

(** The statuses the handlers write for a player in the auction. *)
Definition status_known (p : Player) : Prop :=
  is_retained p = false →
  status p = "Unsold" ∨ status p = "Sold" ∨ ∃ r, status p = round_unsold r.

(** A sold player carries a price and the id of an existing team. *)
Definition sold_has_team (ts : gmap Z Team) (p : Player) : Prop :=
  is_retained p = false → status p = "Sold" →
  ∃ tid price,
    team_id p = Some tid ∧ sold_price p = Some price ∧ is_Some (ts !! tid).

(** A player in the auction who is not sold is on no roster. *)
Definition unsold_has_no_team (p : Player) : Prop :=
  is_retained p = false → status p ≠ "Sold" → team_id p = None.

(** The summed price of a team's roster. *)
Definition roster_cost (tid : Z) (ps : gmap Z Player) : Z :=
  retained_cost (map_to_list (team_players tid ps)).

(** The aggregates of a team row agree with its roster. *)
Definition books_match (ps : gmap Z Player) (tid : Z) (t : Team) : Prop :=
  players_taken_count t = Z.of_nat (size (team_players tid ps)) ∧
  slots_remaining t = 15 - Z.of_nat (size (team_players tid ps)) ∧
  purse_spent t = roster_cost tid ps ∧
  purse t = 10000 - roster_cost tid ps.

(** A team that has not overdrawn its purse or its slots. *)
Definition solvent (t : Team) : Prop :=
  0 ≤ purse t ∧ 0 ≤ slots_remaining t.

(** The requests that do not recompute the team aggregates. *)
Definition keeps_aggregates (op : Op) : Prop :=
  match op with
  | OpRestartAuction _ _ | OpImport _ => False
  | _ => True
  end.

(** The requests a paused auction does not react to: advancing, selling,
    passing, pausing again, exporting, and a resume that is only
    displayed or whose password is turned down. *)
Definition ignored_while_paused (check_password : string → bool) (op : Op)
    : Prop :=
  match op with
  | OpNextPlayer _ | OpMarkSold _ _ | OpMarkUnsold _ | OpPauseAuction
  | OpExport _ => True
  | OpResumeAuction post password =>
      post = false ∨ password_rejected check_password password = true
  | _ => False
  end.

(** The session flags agree with each other: in round completion the
    auction is not running and nobody is presented, and a player is only
    presented while the auction is running. *)
Definition session_coherent (s : Session) : Prop :=
  (truthy (round_complete s) = true →
   truthy (auction_started s) = false ∧ current_player_id s = None) ∧
  (is_Some (current_player_id s) → truthy (auction_started s) = true).

(** [Player.query.filter_by(is_retained=False)] *)
Definition not_retained (kv : Z * Player) : Prop := is_retained kv.2 = false.

Global Instance not_retained_dec kv : Decision (not_retained kv).
Proof. unfold not_retained. apply _. Defined.

(** The filter of [marked_unsold_count] in [auctions]. *)
Definition marked_unsold (kv : Z * Player) : Prop :=
  is_retained kv.2 = false ∧ round_marked_unsold (status kv.2) = true.

Global Instance marked_unsold_dec kv : Decision (marked_unsold kv).
Proof. unfold marked_unsold. apply _. Defined.

(** The counts [auctions] hands to its template. *)
Record AuctionCounts := mkAuctionCounts {
  total_auction_players : nat;
  sold_players_count : nat;
  currently_unsold_count : nat;
  marked_unsold_count : nat;
  remaining_players_count : nat
}.

Definition auctions_counts (st : State) : AuctionCounts :=
  let total_auction_players := size (filter not_retained (players st)) in
  let sold_players_count := size (pool "Sold" (players st)) in
  let currently_unsold_count := size (pool "Unsold" (players st)) in
  let marked_unsold_count := size (filter marked_unsold (players st)) in
  let total_remaining_count :=
    (currently_unsold_count + marked_unsold_count)%nat in
  mkAuctionCounts total_auction_players sold_players_count
    currently_unsold_count marked_unsold_count total_remaining_count.

(** The figures [home] hands to its template.  [today] is the proleptic
    Gregorian ordinal of [datetime.date.today()]; 739557 is the ordinal of
    the auction date 2025-11-02, so that [739557 - today] is
    [(auction_date - today).days]. *)
Record HomeView := mkHomeView {
  home_player_count : Z;
  home_team_count : Z;
  home_slots_remaining : Z;
  home_days_to_go : Z
}.

Definition home (today : Z) (st : State) : HomeView :=
  let total_players := Z.of_nat (size (players st)) in
  let retained_players_count :=
    Z.of_nat (size (filter retained_flag (players st))) in
  let auction_pool_count := total_players - retained_players_count in
  let team_count := Z.of_nat (size (teams st)) in
  let max_total_slots := team_count * 15 in
  let total_auction_slots_available :=
    max_total_slots - retained_players_count in
  let days_to_go := 739557 - today in
  let days_to_go := if decide (days_to_go < 0) then 0 else days_to_go in
  mkHomeView auction_pool_count team_count total_auction_slots_available
    days_to_go.

(** The coarse order behind [Player.is_retained.desc()]: a retained row
    is never placed after a row that is not retained. *)
Definition retained_first (a b : Z * Player) : Prop :=
  is_retained b.2 = true → is_retained a.2 = true.

(** ** Users and access control *)

(** User row.  [user_team_id] is the column [team_id] of User;
    [password_hash] is what [set_password] stores. *)
Record User := mkUser {
  full_name : option string;
  username : option string;
  role : option string;
  user_team_id : option Z;
  password_hash : option string
}.

(** What the decorators decide: [login_manager.unauthorized()], the
    permission error of [role_required], or the call of the view. *)
Inductive Access :=
| Unauthorized
| Forbidden
| Granted.

(** [role_required(role_names)]; [current_user] is [None] for a visitor
    who is not logged in. *)
Definition role_required (role_names : list string)
    (current_user : option (Z * User)) : Access :=
  match current_user with
  | None => Unauthorized
  | Some (_, u) =>
      if decide (role u ≠ Some "Super Admin" ∧ role u ∉ Some <$> role_names)
      then Forbidden
      else Granted
  end.

(** [login_required] *)
Definition login_required (current_user : option (Z * User)) : Access :=
  match current_user with
  | None => Unauthorized
  | Some _ => Granted
  end.

(** The decorators of each route of the auction. *)
Definition route_access (op : Op) (current_user : option (Z * User))
    : Access :=
  match op with
  | OpAuctions _ | OpImport _ => Granted
  | OpExport _ | OpLogout => login_required current_user
  | _ => role_required ["Admin"] current_user
  end.

(** [current_user.is_authenticated and current_user.role in
    ['Admin', 'Super Admin']], as [auctions] tests it. *)
Definition is_admin_user (current_user : option (Z * User)) : bool :=
  match current_user with
  | Some (_, u) =>
      bool_decide (role u = Some "Admin" ∨ role u = Some "Super Admin")
  | None => false
  end.

(** A request as the application serves it for [current_user]: the view
    runs when the decorators grant it, and the state is left alone
    otherwise.  [verify u] is [u.check_password].  The import is not a
    route. *)
Definition serve (py_int : string → option Z)
    (verify : User → string → bool) (current_user : option (Z * User))
    (op : Op) (st : State) : State :=
  let check_password :=
    match current_user with
    | Some (_, u) => verify u
    | None => λ _, false
    end in
  match op with
  | OpImport _ => st
  | OpAuctions _ =>
      step py_int check_password (OpAuctions (is_admin_user current_user)) st
  | _ =>
      match route_access op current_user with
      | Granted => step py_int check_password op st
      | _ => st
      end
  end.

Definition serve_all (py_int : string → option Z)
    (verify : User → string → bool)
    (requests : list (option (Z * User) * Op)) (st : State) : State :=
  foldl (λ st r, serve py_int verify r.1 r.2 st) st requests.

(** *** User management *)

Record UserForm := mkUserForm {
  form_full_name : option string;
  form_username : option string;
  form_password : option string;
  form_role : option string;
  form_user_team_id : option string
}.

Inductive UsersFlash :=
| UF_admins_create_captains
| UF_username_exists (username : option string)
| UF_login_created (full_name : option string)
| UF_username_taken (username : option string)
| UF_password_updated
| UF_user_updated (full_name : option string)
| UF_cannot_delete_self
| UF_user_deleted (username : option string).

Inductive UsersResponse :=
| U_dashboard
| U_create_user
| U_render (template : string)
| U_not_found
| U_server_error.

Record UsersOutcome := mkUsersOutcome {
  new_users : gmap Z User;
  users_flashes : list UsersFlash;
  users_response : UsersResponse
}.

(** The key a new row gets: one more than the largest key in use. *)
Definition next_id {A} (m : gmap Z A) : Z :=
  1 + map_fold (λ k _ acc, Z.max k acc) 0 m.

(** [User.query.filter_by(username=username).first()] *)
Definition named (name : option string) (kv : Z * User) : Prop :=
  username kv.2 = name.

Global Instance named_dec name kv : Decision (named name kv).
Proof. unfold named. apply _. Defined.

Definition find_by_username (name : option string) (users : gmap Z User)
    : option (Z * User) :=
  head (map_to_list (filter (named name) users)).

(** [User.query.filter(User.username == new_username,
    User.id != user_id).first()] *)
Definition named_other (name : option string) (user_id : Z)
    (kv : Z * User) : Prop :=
  username kv.2 = name ∧ kv.1 ≠ user_id.

Global Instance named_other_dec name user_id kv :
  Decision (named_other name user_id kv).
Proof. unfold named_other. apply _. Defined.

Definition find_other_by_username (name : option string) (user_id : Z)
    (users : gmap Z User) : option (Z * User) :=
  head (map_to_list (filter (named_other name user_id) users)).

(** Truthiness of a form value: present and not empty. *)
Definition filled (field : option string) : bool :=
  match field with
  | Some s => negb (bool_decide (s = ""))
  | None => false
  end.

Section UserManagement.

Variable py_int : string → option Z.

(** [User.set_password], declared in [models.py]: the hash it stores for
    a password, [None] where it raises. *)
Variable set_password : option string → option string.

(** [int(team_id) if team_id and role == 'Captain' else None]; the outer
    [None] is the [ValueError] of [int]. *)
Definition captain_team (team_id role : option string)
    : option (option Z) :=
  if filled team_id && bool_decide (role = Some "Captain") then
    match form_int py_int team_id with
    | Some tid => Some (Some tid)
    | None => None
    end
  else Some None.

(** [/create_user] *)
Definition create_user (current_user : Z * User) (post : bool)
    (form : UserForm) (users : gmap Z User) : UsersOutcome :=
  if post then
    if decide (role current_user.2 = Some "Admin" ∧
               (form_role form = Some "Super Admin" ∨
                form_role form = Some "Admin")) then
      mkUsersOutcome users [UF_admins_create_captains] U_create_user
    else
      match find_by_username (form_username form) users with
      | Some existing_user =>
          mkUsersOutcome users [UF_username_exists (form_username form)]
            U_create_user
      | None =>
          match captain_team (form_user_team_id form) (form_role form),
                set_password (form_password form) with
          | Some team, Some hash =>
              mkUsersOutcome
                (<[next_id users :=
                     mkUser (form_full_name form) (form_username form)
                       (form_role form) team (Some hash)]> users)
                [UF_login_created (form_full_name form)] U_dashboard
          | _, _ => mkUsersOutcome users [] U_server_error
          end
      end
  else mkUsersOutcome users [] (U_render "create_user.html").

(** [/edit_user/<int:user_id>] *)
Definition edit_user (user_id : Z) (post : bool) (form : UserForm)
    (users : gmap Z User) : UsersOutcome :=
  match users !! user_id with
  | None => mkUsersOutcome users [] U_not_found
  | Some user_to_edit =>
      if post then
        if decide (form_username form ≠ username user_to_edit ∧
                   is_Some (find_other_by_username (form_username form)
                              user_id users)) then
          mkUsersOutcome users [UF_username_taken (form_username form)]
            (U_render "edit_user.html")
        else
          match captain_team (form_user_team_id form) (form_role form) with
          | None => mkUsersOutcome users [] U_server_error
          | Some team =>
              if filled (form_password form) then
                match set_password (form_password form) with
                | None => mkUsersOutcome users [] U_server_error
                | Some hash =>
                    mkUsersOutcome
                      (<[user_id :=
                           mkUser (form_full_name form) (form_username form)
                             (form_role form) team (Some hash)]> users)
                      [UF_password_updated;
                       UF_user_updated (form_full_name form)]
                      U_dashboard
                end
              else
                mkUsersOutcome
                  (<[user_id :=
                       mkUser (form_full_name form) (form_username form)
                         (form_role form) team
                         (password_hash user_to_edit)]> users)
                  [UF_user_updated (form_full_name form)] U_dashboard
          end
      else mkUsersOutcome users [] (U_render "edit_user.html")
  end.

(** [/delete_user/<int:user_id>], POST *)
Definition delete_user (current_user : Z * User) (user_id : Z)
    (users : gmap Z User) : UsersOutcome :=
  if decide (user_id = current_user.1) then
    mkUsersOutcome users [UF_cannot_delete_self] U_dashboard
  else
    match users !! user_id with
    | None => mkUsersOutcome users [] U_not_found
    | Some user_to_delete =>
        mkUsersOutcome (delete user_id users)
          [UF_user_deleted (username user_to_delete)] U_dashboard
    end.

Inductive UserOp :=
| UCreate (post : bool) (form : UserForm)
| UEdit (user_id : Z) (post : bool) (form : UserForm)
| UDelete (user_id : Z).

(** The decorators of the three routes. *)
Definition user_route_access (op : UserOp)
    (current_user : option (Z * User)) : Access :=
  match op with
  | UCreate _ _ => role_required ["Admin"] current_user
  | UEdit _ _ _ | UDelete _ => role_required ["Super Admin"] current_user
  end.

(** [load_user]: the row of the id kept in the login session, looked up
    for each request. *)
Definition load_user (user_id : option Z) (users : gmap Z User)
    : option (Z * User) :=
  user_id ≫= λ uid, (λ u, (uid, u)) <$> users !! uid.

(** A user-management request of the visitor logged in as [actor]. *)
Definition serve_user_op (actor : option Z) (op : UserOp)
    (users : gmap Z User) : gmap Z User :=
  match load_user actor users with
  | None => users
  | Some current_user =>
      match user_route_access op (Some current_user) with
      | Granted =>
          match op with
          | UCreate post form => new_users (create_user current_user post form users)
          | UEdit user_id post form => new_users (edit_user user_id post form users)
          | UDelete user_id => new_users (delete_user current_user user_id users)
          end
      | _ => users
      end
  end.

Definition serve_user_ops (requests : list (option Z * UserOp))
    (users : gmap Z User) : gmap Z User :=
  foldl (λ users r, serve_user_op r.1 r.2 users) users requests.

End UserManagement.

(** No two User rows carry the same username. *)
Definition usernames_unique (users : gmap Z User) : Prop :=
  ∀ i j u v,
    users !! i = Some u → users !! j = Some v → username u = username v →
    i = j.

(** The roles that pass [role_required(['Admin'])]. *)
Definition privileged (u : User) : Prop :=
  role u = Some "Admin" ∨ role u = Some "Super Admin".

(** ** The import of players ([import_players.py]) *)

(** One row of the data frame, as the first lines of the loop body read
    it: the stripped name ([None] when the cell is NA), the retention
    flag, the stripped name of the retaining team (empty when NA), last
    year's price ([None] when [int(float(...))] raises), and the
    statistics as [safe_int], [safe_float] and [str] deliver them.  The
    columns of Player that the record [Player] does not carry
    (image_filename, cpl_2024_average, overall_bat_avg, overall_bowl_avg)
    are left out. *)
Record CsvRow := mkCsvRow {
  csv_player_name : option string;
  csv_is_retained : bool;
  csv_retaining_team_name : string;
  csv_last_year_price : option Z;
  csv_cpl_2024_team : Cell;
  csv_cpl_2024_innings : Cell;
  csv_cpl_2024_runs : Cell;
  csv_cpl_2024_sr : Cell;
  csv_cpl_2024_hs : Cell;
  csv_overall_matches : Cell;
  csv_overall_runs : Cell;
  csv_overall_wickets : Cell
}.

(** What the body of the loop does with a row: [continue], an exception
    caught by the [except] clause, a new Player, or an updated one. *)
Inductive RowResult :=
| RowSkipped
| RowRaised
| RowAdded (ps : gmap Z Player)
| RowUpdated (ps : gmap Z Player).

(** The players pending in the session and the two counters. *)
Record ImportRun := mkImportRun {
  run_players : gmap Z Player;
  new_players_count : nat;
  updated_players_count : nat
}.

(** [Player.query.filter_by(player_name=player_name).first()] *)
Definition has_name (name : string) (kv : Z * Player) : Prop :=
  player_name kv.2 = name.

Global Instance has_name_dec name kv : Decision (has_name name kv).
Proof. unfold has_name. apply _. Defined.

Definition find_by_player_name (name : string) (ps : gmap Z Player)
    : option (Z * Player) :=
  head (map_to_list (filter (has_name name) ps)).

Section CsvImport.

(** Python's [str.strip]. *)
Variable strip : string → string.

(** The value of a column the constructor call does not pass, as
    [models.py] declares its default. *)
Variable column_default : string → Cell.

(** [{team.team_name.strip(): team.id for team in Team.query.all()}]: a
    later team of the same stripped name replaces an earlier one. *)
Definition teams_map (ts : gmap Z Team) (name : string) : option Z :=
  fst <$> last (filter (λ kv : Z * Team, strip (team_name kv.2) = name)
                  (map_to_list ts)).

(** The team and the retention flag a row ends up with. *)
Definition retention (ts : gmap Z Team) (row : CsvRow) : option Z * bool :=
  if csv_is_retained row &&
     negb (bool_decide (csv_retaining_team_name row = "")) then
    match teams_map ts (csv_retaining_team_name row) with
    | Some tid => (Some tid, true)
    | None => (None, false)
    end
  else (None, csv_is_retained row).

(** The Player the [if not player] branch creates. *)
Definition created_player (name : string) (row : CsvRow)
    (team_id : option Z) (is_retained : bool) (last_year_price : Z)
    : Player :=
  {| player_name := name;
     is_retained := is_retained;
     status := if is_retained then "Retained" else "Unsold";
     sold_price := Some (if is_retained then last_year_price else 0);
     team_id := team_id;
     overall_matches := csv_overall_matches row;
     overall_runs := csv_overall_runs row;
     overall_wickets := csv_overall_wickets row;
     overall_sr := column_default "overall_sr";
     overall_hs := column_default "overall_hs";
     cpl_2024_team := csv_cpl_2024_team row;
     cpl_2024_innings := csv_cpl_2024_innings row;
     cpl_2024_runs := csv_cpl_2024_runs row;
     cpl_2024_wickets := column_default "cpl_2024_wickets";
     cpl_2024_sr := csv_cpl_2024_sr row;
     cpl_2024_hs := csv_cpl_2024_hs row |}.

(** The assignments of the [else] branch to an existing Player. *)
Definition updated_player (player : Player) (team_id : option Z)
    (is_retained : bool) (last_year_price : Z) : Player :=
  {| player_name := player_name player;
     is_retained := is_retained;
     status :=
       if is_retained && negb (bool_decide (status player = "Sold"))
       then "Retained"
       else if negb is_retained && bool_decide (status player = "Retained")
       then "Unsold"
       else status player;
     sold_price := Some (if is_retained then last_year_price else 0);
     team_id := team_id;
     overall_matches := overall_matches player;
     overall_runs := overall_runs player;
     overall_wickets := overall_wickets player;
     overall_sr := overall_sr player;
     overall_hs := overall_hs player;
     cpl_2024_team := cpl_2024_team player;
     cpl_2024_innings := cpl_2024_innings player;
     cpl_2024_runs := cpl_2024_runs player;
     cpl_2024_wickets := cpl_2024_wickets player;
     cpl_2024_sr := cpl_2024_sr player;
     cpl_2024_hs := cpl_2024_hs player |}.

(** The body of the loop on one row. *)
Definition import_row (ts : gmap Z Team) (row : CsvRow)
    (ps : gmap Z Player) : RowResult :=
  match csv_player_name row with
  | None => RowSkipped
  | Some name =>
      if decide (name = "") then RowSkipped
      else
        let player := find_by_player_name name ps in
        match csv_last_year_price row with
        | None => RowRaised
        | Some last_year_price =>
            let '(team_id, is_retained) := retention ts row in
            match player with
            | None =>
                RowAdded
                  (<[next_id ps :=
                       created_player name row team_id is_retained
                         last_year_price]> ps)
            | Some (pid, player) =>
                RowUpdated
                  (<[pid :=
                       updated_player player team_id is_retained
                         last_year_price]> ps)
            end
        end
  end.

(** One turn of the loop: [db.session.rollback()] in the [except] clause
    drops everything pending, which is every row written since the
    import started; the counters are not touched by it. *)
Definition import_turn (ts : gmap Z Team) (committed : gmap Z Player)
    (acc : ImportRun) (row : CsvRow) : ImportRun :=
  match import_row ts row (run_players acc) with
  | RowSkipped => acc
  | RowRaised =>
      mkImportRun committed (new_players_count acc)
        (updated_players_count acc)
  | RowAdded ps =>
      mkImportRun ps (S (new_players_count acc)) (updated_players_count acc)
  | RowUpdated ps =>
      mkImportRun ps (new_players_count acc) (S (updated_players_count acc))
  end.

Definition import_rows (ts : gmap Z Team) (committed : gmap Z Player)
    (rows : list CsvRow) (acc : ImportRun) : ImportRun :=
  foldl (import_turn ts committed) acc rows.

(** [import_players_from_csv]; [file] is [None] when the CSV file cannot
    be read.  The result is the state after the final commit and the
    recalculation, with the two counts printed. *)
Definition import_players_from_csv (file : option (list CsvRow))
    (st : State) : State * option (nat * nat) :=
  match file with
  | None => (st, None)
  | Some rows =>
      let result :=
        import_rows (teams st) (players st) rows
          (mkImportRun (players st) 0 0) in
      (import_then_recalculate (run_players result) st,
       Some (new_players_count result, updated_players_count result))
  end.

End CsvImport.

(** Every team id a Player row carries is the id of a Team row. *)
Definition team_references_valid (ps : gmap Z Player) (ts : gmap Z Team)
    : Prop :=
  ∀ pid p tid, ps !! pid = Some p → team_id p = Some tid → is_Some (ts !! tid).

(** No row of the file names this player. *)
Definition not_named_in (rows : list CsvRow) (p : Player) : Prop :=
  ∀ row, row ∈ rows → csv_player_name row ≠ Some (player_name p).

(** A row the loop body raises on: it has a name and a price that does
    not convert. *)
Definition raising_row (row : CsvRow) : Prop :=
  (∃ name, csv_player_name row = Some name ∧ name ≠ "") ∧
  csv_last_year_price row = None.

(** What the pending players keep of the committed ones. *)
Definition kept_from (committed : gmap Z Player) (rows : list CsvRow)
    (ps : gmap Z Player) : Prop :=
  ∀ pid p, committed !! pid = Some p →
    ∃ q, ps !! pid = Some q ∧ player_name q = player_name p ∧
         (not_named_in rows p → q = p).

(** ** Further example tables and requests *)

(** [str.strip] on ASCII text: blanks are dropped at both ends. *)
Fixpoint strip_left (s : string) : string :=
  match s with
  | EmptyString => EmptyString
  | String a rest => if Ascii.is_space a then strip_left rest else s
  end.

Definition ascii_strip (s : string) : string :=
  String.rev (strip_left (String.rev (strip_left s))).

(** Columns without a declared default hold NULL. *)
Definition null_default (column : string) : Cell := CNone.

(** A stand-in for the password hashing of [models.py]. *)
Definition tagged_hash (password : option string) : option string :=
  (λ pw, "hash:" +:+ pw) <$> password.

Definition tagged_verify (u : User) (password : string) : bool :=
  bool_decide (password_hash u = Some ("hash:" +:+ password)).

(** The sale of the example with the auction paused. *)
Definition paused_sale_state : State :=
  with_session sale_state
    (mkSession (Some true) (Some 7) (Some 1) (Some false) (Some false)
       (Some true)).

(** Three users: the seeded Super Admin, an Admin and a Captain. *)
Definition super_admin_user : User :=
  mkUser (Some "Super Admin") (Some "superadmin") (Some "Super Admin") None
    (Some "hash:admin123").

Definition admin_user : User :=
  mkUser (Some "Auctioneer") (Some "auctioneer") (Some "Admin") None
    (Some "hash:gavel").

Definition captain_user : User :=
  mkUser (Some "Govindaraj") (Some "govind") (Some "Captain") (Some 1)
    (Some "hash:bat").

Definition example_users : gmap Z User :=
  {[ 1 := super_admin_user; 2 := admin_user; 3 := captain_user ]}.

(** The Admin tries to create a second Admin, then creates a Captain; the
    Captain tries to delete the Super Admin and to rename itself to the
    Admin's username. *)
Definition example_user_requests : list (option Z * UserOp) :=
  [ (Some 2,
     UCreate true
       (mkUserForm (Some "Second") (Some "second") (Some "pw")
          (Some "Admin") None));
    (Some 2,
     UCreate true
       (mkUserForm (Some "Vinoth") (Some "vinoth") (Some "pw")
          (Some "Captain") (Some "6")));
    (Some 3, UDelete 1);
    (Some 3,
     UEdit 3 true
       (mkUserForm (Some "Govindaraj") (Some "auctioneer") None
          (Some "Super Admin") None)) ].

(** Rows of a players file: a player retained by an existing team, a
    player for the auction, a row whose price does not convert, and a
    row marked retained without a team name. *)
Definition plain_row (name : string) (retained : bool) (team : string)
    (price : option Z) : CsvRow :=
  mkCsvRow (Some name) retained team price CNone (CInt 0) (CInt 0)
    (CReal 0%float) (CInt 0) (CInt 0) (CInt 0) (CInt 0).

Definition keeper_row : CsvRow :=
  plain_row "Keeper" true "Puthiya Sirakukal" (Some 1000).

Definition bidder_row : CsvRow := plain_row "Bidder" false "" (Some 0).

Definition broken_row : CsvRow := plain_row "Broken" false "" None.

Definition teamless_row : CsvRow := plain_row "Loner" true "" (Some 400).

(** A state in the middle of the auction, with the seeded teams. *)
Definition seeded_mid_auction : State :=
  mkState (players mid_auction_state)
    (<[1 := mkTeam "Puthiya Sirakukal" "Govindaraj" 4500 5500 12 3]>
       seeded_teams)
    (session mid_auction_state).

(** ** Properties *)

Section Properties.

Variable py_int : string → option Z.
Variable check_password : string → bool.

Lemma recompute_team_ledger l t : ledger_ok (recompute_team l t).
Proof. unfold ledger_ok, recompute_team; simpl; lia. Qed.

Lemma debit_ledger price t : ledger_ok t → ledger_ok (debit price t).
Proof. unfold ledger_ok, debit; simpl; lia. Qed.

Lemma not_up_for_auction_current s player_id player :
  is_retained player = false → status player = "Unsold" →
  truthy (auction_started s) = true →
  current_player_id s = Some player_id →
  ¬ not_up_for_auction s player_id player.
Proof.
  intros Hr Hs Ha Hc [H | [H | [H | H]]]; congruence.
Qed.

Lemma mark_sold_accepted st player_id form player tid team price :
  sale_accepted py_int st player_id form player tid team price →
  mark_sold py_int player_id form st =
  mkOutcome (sold_state st player_id player tid team price)
    [F_sold (player_name player) (team_name team) price]
    (Redirect R_next_player).
Proof.
  intros [(Hp & Hl & Hr & Hs & Ha & Hc & Ht & Hpr & Htm & Hsl) Hpu].
  unfold mark_sold. rewrite Hp, Hl.
  destruct (decide (not_up_for_auction _ _ _)) as [Hn | _].
  { by destruct (not_up_for_auction_current _ _ _ Hr Hs Ha Hc). }
  rewrite Ht, Hpr, Htm.
  destruct (decide (slots_remaining team ≤ 0)); [lia |].
  destruct (decide (purse team < price)); [lia |].
  reflexivity.
Qed.

(** The eight ways a request to [mark_sold] can end, in the order of the
    checks. *)
Lemma mark_sold_cases st player_id form :
  let o := mark_sold py_int player_id form st in
  (truthy (auction_paused (session st)) = true ∧
   o = mkOutcome st [F_paused_sold] (Redirect R_auctions)) ∨
  (truthy (auction_paused (session st)) = false ∧
   players st !! player_id = None ∧ o = mkOutcome st [] NotFound) ∨
  (∃ player,
     truthy (auction_paused (session st)) = false ∧
     players st !! player_id = Some player ∧
     not_up_for_auction (session st) player_id player ∧
     o = mkOutcome st [F_not_current] (Redirect R_auctions)) ∨
  (∃ player,
     presented st player_id player ∧
     (form_int py_int (form_team_id form) = None ∨
      form_int py_int (form_sold_price form) = None) ∧
     o = mkOutcome st [F_invalid_team_or_price] (Redirect R_auctions)) ∨
  (∃ player tid price,
     presented st player_id player ∧
     form_int py_int (form_team_id form) = Some tid ∧
     form_int py_int (form_sold_price form) = Some price ∧
     teams st !! tid = None ∧ o = mkOutcome st [] NotFound) ∨
  (∃ player tid price team,
     presented st player_id player ∧
     form_int py_int (form_team_id form) = Some tid ∧
     form_int py_int (form_sold_price form) = Some price ∧
     teams st !! tid = Some team ∧ slots_remaining team ≤ 0 ∧
     o = mkOutcome st [F_no_slots (team_name team)] (Redirect R_auctions)) ∨
  (∃ player tid price team,
     presented st player_id player ∧
     form_int py_int (form_team_id form) = Some tid ∧
     form_int py_int (form_sold_price form) = Some price ∧
     teams st !! tid = Some team ∧ 0 < slots_remaining team ∧
     purse team < price ∧
     o = mkOutcome st [F_not_enough_purse (team_name team) (purse team)]
           (Redirect R_auctions)) ∨
  (∃ player tid team price,
     sale_accepted py_int st player_id form player tid team price ∧
     o = mkOutcome (sold_state st player_id player tid team price)
           [F_sold (player_name player) (team_name team) price]
           (Redirect R_next_player)).
Proof.
  unfold mark_sold; cbv zeta.
  destruct (truthy (auction_paused (session st))) eqn:Hp; [by left |].
  right.
  destruct (players st !! player_id) as [player |] eqn:Hl; [| by left].
  right.
  destruct (decide (not_up_for_auction _ _ _)) as [Hn | Hn].
  { left. by exists player. }
  right.
  assert (Hpres : presented st player_id player) by done.
  destruct (form_int py_int (form_team_id form)) as [tid |] eqn:Ht.
  2: { left. exists player. repeat split; try done. by left. }
  destruct (form_int py_int (form_sold_price form)) as [price |] eqn:Hpr.
  2: { left. exists player. repeat split; try done. by right. }
  right.
  destruct (teams st !! tid) as [team |] eqn:Htm.
  2: { left. by exists player, tid, price. }
  right.
  destruct (decide (slots_remaining team ≤ 0)).
  { left. by exists player, tid, price, team. }
  right.
  destruct (decide (purse team < price)).
  { left. exists player, tid, price, team. repeat split; try done; lia. }
  right. exists player, tid, team, price.
  split; [| done].
  unfold sale_accepted, sale_presented. rewrite Hp, Hl, Ht, Hpr, Htm.
  unfold not_up_for_auction in Hn.
  repeat split; try done; try lia.
  - destruct (is_retained player); [| done]. destruct Hn; by left.
  - destruct (decide (status player = "Unsold")); [done |].
    destruct Hn; right; by left.
  - destruct (truthy (auction_started (session st))); [done |].
    destruct Hn; right; right; by left.
  - destruct (decide (current_player_id (session st) = Some player_id));
      [done |]. destruct Hn; right; right; by right.
Qed.

(** A request to [mark_sold] either changes nothing or applies the whole
    sale. *)
Lemma mark_sold_all_or_nothing st player_id form :
  (new_state (mark_sold py_int player_id form st) = st ∧
   response (mark_sold py_int player_id form st) ≠ Redirect R_next_player) ∨
  ∃ player tid team price,
    sale_accepted py_int st player_id form player tid team price.
Proof.
  destruct (mark_sold_cases st player_id form)
    as [[_ ->] | [(_ & _ & ->) | [(? & _ & _ & _ & ->) | [(? & _ & _ & ->) |
        [(? & ? & ? & _ & _ & _ & _ & ->) |
         [(? & ? & ? & ? & _ & _ & _ & _ & _ & ->) |
          [(? & ? & ? & ? & _ & _ & _ & _ & _ & _ & ->) |
           (p & tid & t & price & Hacc & _)]]]]]]];
    try (by left).
  right. by exists p, tid, t, price.
Qed.

Lemma ledger_insert st tid t :
  ledger_invariant st → ledger_ok t →
  map_Forall (λ _ t, ledger_ok t) (<[tid := t]> (teams st)).
Proof. intros Hinv Ht. by apply map_Forall_insert_2. Qed.

Lemma ledger_imap (f : Z → list (Z * Player)) (ts : gmap Z Team) :
  map_Forall (λ _ t, ledger_ok t)
    (map_imap (λ tid team, Some (recompute_team (f tid) team)) ts).
Proof.
  intros tid t. rewrite map_lookup_imap.
  destruct (ts !! tid) as [t0 |]; simpl; [| done].
  intros [= <-]. apply recompute_team_ledger.
Qed.

Lemma next_player_teams rnd st :
  teams (new_state (next_player rnd st)) = teams st.
Proof.
  unfold next_player.
  destruct (truthy _); [done |].
  destruct (map_to_list _); [| done].
  by destruct (decide _).
Qed.

Lemma start_next_round_teams st :
  teams (new_state (start_next_round st)) = teams st.
Proof.
  unfold start_next_round.
  destruct (negb _); [done |].
  by destruct (map_to_list _).
Qed.

Lemma mark_unsold_teams player_id st :
  teams (new_state (mark_unsold player_id st)) = teams st.
Proof.
  unfold mark_unsold.
  destruct (truthy _); [done |].
  destruct (players st !! player_id); [| done].
  by destruct (decide _).
Qed.

Lemma auctions_teams is_admin st :
  teams (new_state (auctions is_admin st)) = teams st.
Proof. unfold auctions. by destruct (_ && is_admin). Qed.

Lemma export_unchanged tid st :
  new_state (export_team_excel tid st) = st.
Proof.
  unfold export_team_excel.
  destruct (teams st !! tid); [| done].
  by destruct (_ <$> _).
Qed.

Lemma mark_sold_ledger player_id form st :
  ledger_invariant st →
  ledger_invariant (new_state (mark_sold py_int player_id form st)).
Proof.
  intros Hinv.
  destruct (mark_sold_all_or_nothing st player_id form)
    as [[-> _] | (player & tid & team & price & Hacc)]; [done |].
  rewrite (mark_sold_accepted _ _ _ _ _ _ _ Hacc). simpl.
  apply ledger_insert; [done |].
  apply debit_ledger.
  destruct Hacc as [(_ & _ & _ & _ & _ & _ & _ & _ & Htm & _) _].
  exact (Hinv _ _ Htm).
Qed.

Lemma restart_auction_ledger post password st :
  ledger_invariant st →
  ledger_invariant
    (new_state (restart_auction check_password post password st)).
Proof.
  intros Hinv. unfold restart_auction.
  destruct post; [| done].
  destruct (password_rejected _ _); [done |].
  apply ledger_imap.
Qed.

(** A reset that passes the password check leaves every team with a
    balanced ledger, whatever the tables held before. *)
Lemma restart_auction_establishes_ledger pw st :
  password_rejected check_password (Some pw) = false →
  ledger_invariant
    (new_state (restart_auction check_password true (Some pw) st)).
Proof.
  intros Hpw. unfold restart_auction. rewrite Hpw. apply ledger_imap.
Qed.

(** So does the recompute the import ends with. *)
Lemma recalculate_establishes_ledger st :
  ledger_invariant (recalculate_initial_team_stats st).
Proof. unfold recalculate_initial_team_stats. apply ledger_imap. Qed.

Lemma step_ledger op st :
  ledger_invariant st → ledger_invariant (step py_int check_password op st).
Proof.
  intros Hinv. unfold ledger_invariant in *.
  destruct op; simpl.
  - by rewrite next_player_teams.
  - by rewrite start_next_round_teams.
  - by apply mark_sold_ledger.
  - by rewrite mark_unsold_teams.
  - by apply restart_auction_ledger.
  - unfold pause_auction. by destruct (_ || _).
  - unfold resume_auction. destruct (negb _); [done |].
    destruct post; [| done]. by destruct (password_rejected _ _).
  - by rewrite auctions_teams.
  - by rewrite export_unchanged.
  - done.
  - apply ledger_imap.
Qed.

Lemma run_app ops1 ops2 st :
  run py_int check_password (ops1 ++ ops2) st =
  run py_int check_password ops2 (run py_int check_password ops1 st).
Proof. unfold run. apply foldl_app. Qed.

Lemma seeded_teams_ledger ps s : ledger_invariant (mkState ps seeded_teams s).
Proof.
  unfold ledger_invariant, seeded_teams; simpl.
  repeat (apply map_Forall_insert_2; [by vm_compute |]).
  apply map_Forall_empty.
Qed.

Lemma run_ledger ops st :
  ledger_invariant st → ledger_invariant (run py_int check_password ops st).
Proof.
  revert st. induction ops as [| op ops IH]; intros st Hinv; [done |].
  simpl. apply IH. by apply step_ledger.
Qed.

(** C2. A sale that passes every check (the player is the current,
    non-retained, 'Unsold' player; the team has a free slot and a purse of
    at least the price) debits the team's purse by the price and its slots
    by one, credits purse_spent by the price and players_taken_count by
    one, and leaves the player 'Sold' at that price with a reference to
    that team; no other team or player row changes. *)
Theorem mark_sold_effect st player_id form player tid team price :
  sale_accepted py_int st player_id form player tid team price →
  let o := mark_sold py_int player_id form st in
  response o = Redirect R_next_player ∧
  (∃ team', teams (new_state o) !! tid = Some team' ∧
     purse team' = purse team - price ∧
     slots_remaining team' = slots_remaining team - 1 ∧
     purse_spent team' = purse_spent team + price ∧
     players_taken_count team' = players_taken_count team + 1) ∧
  (∃ player', players (new_state o) !! player_id = Some player' ∧
     status player' = "Sold" ∧
     sold_price player' = Some price ∧
     team_id player' = Some tid ∧
     is_retained player' = false) ∧
  (∀ tid', tid' ≠ tid → teams (new_state o) !! tid' = teams st !! tid') ∧
  (∀ pid', pid' ≠ player_id →
     players (new_state o) !! pid' = players st !! pid').
Proof.
  intros Hacc o. subst o.
  rewrite (mark_sold_accepted _ _ _ _ _ _ _ Hacc). simpl.
  destruct Hacc as [(_ & _ & Hr & _) _].
  split; [done |]. split.
  { exists (debit price team). by rewrite lookup_insert_eq. }
  split.
  { eexists. rewrite lookup_insert_eq. by repeat split. }
  split; intros k Hk; by rewrite lookup_insert_ne.
Qed.

(** C3. A sell request whose form values are malformed, whose price
    exceeds the team's purse, or whose team has no slot left changes no
    field of the state; the response is an error page or a redirect with
    exactly one flashed warning or error, and when the request is for the
    player currently presented that message is the validation failure. *)
Theorem mark_sold_rejected st player_id form :
  sale_must_fail py_int st form →
  let o := mark_sold py_int player_id form st in
  new_state o = st ∧
  response o ≠ Redirect R_next_player ∧
  ((response o = NotFound ∧ players st !! player_id = None) ∨
   (response o = Redirect R_auctions ∧
    ∃ f, flashes o = [f] ∧
         ((flash_text f).2 = "error" ∨ (flash_text f).2 = "warning"))) ∧
  (∀ player,
     truthy (auction_paused (session st)) = false →
     players st !! player_id = Some player →
     ¬ not_up_for_auction (session st) player_id player →
     ∃ f, flashes o = [f] ∧ validation_flash py_int st form f).
Proof.
  intros Hfail o. subst o.
  assert (Hcat : ∀ f,
    (flash_text f).2 = "error" ∨ (flash_text f).2 = "warning" →
    new_state (mkOutcome st [f] (Redirect R_auctions)) = st ∧
    response (mkOutcome st [f] (Redirect R_auctions))
      ≠ Redirect R_next_player ∧
    ((response (mkOutcome st [f] (Redirect R_auctions)) = NotFound ∧
      players st !! player_id = None) ∨
     (response (mkOutcome st [f] (Redirect R_auctions)) = Redirect R_auctions ∧
      ∃ f', flashes (mkOutcome st [f] (Redirect R_auctions)) = [f'] ∧
            ((flash_text f').2 = "error" ∨ (flash_text f').2 = "warning")))).
  { intros f Hf. simpl. repeat split; try done.
    right. split; [done |]. by exists f. }
  destruct (mark_sold_cases st player_id form)
    as [[Hp ->] | [(Hp & Hl & ->) | [(p & Hp & Hl & Hn & ->) |
        [(p & (Hp & Hl & Hn) & Hbad & ->) |
         [(p & tid & price & _ & Ht & Hpr & Htm & ->) |
          [(p & tid & price & t & (Hp & Hl & Hn) & Ht & Hpr & Htm & Hsl & ->) |
           [(p & tid & price & t & (Hp & Hl & Hn) & Ht & Hpr & Htm & Hsl
               & Hpu & ->) |
            (p & tid & t & price & Hacc & ->)]]]]]]].
  - destruct (Hcat F_paused_sold) as (? & ? & ?); [by right |].
    repeat split; try done. intros; congruence.
  - simpl. repeat split; try done; [by left | intros; congruence].
  - destruct (Hcat F_not_current) as (? & ? & ?); [by left |].
    repeat split; try done. intros p' _ Hl' Hn'.
    rewrite Hl in Hl'. by injection Hl' as <-.
  - destruct (Hcat F_invalid_team_or_price) as (? & ? & ?);
      [by left |].
    repeat split; try done. intros. eexists. split; [done |]. by left.
  - destruct Hfail as [? | [? | (tid' & price' & t' & Ht' & _ & Htm' & _)]];
      congruence.
  - destruct (Hcat (F_no_slots (team_name t))) as (? & ? & ?);
      [by left |].
    repeat split; try done. intros. eexists. split; [done |].
    right. exists tid, t. repeat split; try done. by left.
  - destruct (Hcat (F_not_enough_purse (team_name t) (purse t)))
      as (? & ? & ?); [by left |].
    repeat split; try done. intros. eexists. split; [done |].
    right. exists tid, t. repeat split; try done. by right.
  - destruct Hacc as [(_ & _ & _ & _ & _ & _ & Ht & Hpr & Htm & Hsl) Hpu].
    destruct Hfail as [? | [? | (tid' & price' & t' & Ht' & Hpr' & Htm'
                                   & Hbad)]]; try congruence.
    assert (tid' = tid) as -> by congruence.
    assert (price' = price) as -> by congruence.
    assert (t' = t) as -> by congruence.
    lia.
Qed.

(** C10. The price is never checked for sign: once the other checks have
    passed, the sale goes through exactly when the price is at most the
    purse, for any integer price; a price of 0 leaves purse and
    purse_spent as they were, and a negative price raises the purse and
    lowers purse_spent. *)
Theorem mark_sold_any_price st player_id form player tid team price :
  sale_presented py_int st player_id form player tid team price →
  let o := mark_sold py_int player_id form st in
  (response o = Redirect R_next_player ↔ price ≤ purse team) ∧
  (price ≤ purse team →
   new_state o = sold_state st player_id player tid team price ∧
   ∃ team',
     teams (new_state o) !! tid = Some team' ∧
     purse team' = purse team - price ∧
     purse_spent team' = purse_spent team + price ∧
     (price = 0 →
      purse team' = purse team ∧ purse_spent team' = purse_spent team) ∧
     (price < 0 →
      purse team < purse team' ∧ purse_spent team' < purse_spent team)).
Proof.
  intros Hpres o. subst o. split.
  - split.
    + intros Hresp.
      destruct (mark_sold_all_or_nothing st player_id form)
        as [[_ Hno] | (p' & tid' & t' & price' & [Hp' Hle])]; [done |].
      destruct Hpres as (_ & Hl & _ & _ & _ & _ & Ht & Hpr & Htm & _).
      destruct Hp' as (_ & Hl' & _ & _ & _ & _ & Ht' & Hpr' & Htm' & _).
      congruence.
    + intros Hle.
      by rewrite (mark_sold_accepted st player_id form player tid team price).
  - intros Hle.
    rewrite (mark_sold_accepted st player_id form player tid team price);
      [| done].
    simpl. split; [done |].
    exists (debit price team). rewrite lookup_insert_eq. simpl.
    repeat split; try done; lia.
Qed.

(** *** The pool of a status *)

Lemma pool_lookup s (ps : gmap Z Player) pid p :
  pool s ps !! pid = Some p ↔
  ps !! pid = Some p ∧ status p = s ∧ is_retained p = false.
Proof. unfold pool. rewrite map_lookup_filter_Some. by unfold in_pool. Qed.

Lemma pool_empty_none_holds s (ps : gmap Z Player) :
  pool s ps = ∅ ↔ none_holds s ps.
Proof.
  unfold none_holds. split.
  - intros He pid p Hl Hr Hs.
    assert (pool s ps !! pid = Some p) as Hin by by apply pool_lookup.
    rewrite He in Hin. by rewrite lookup_empty in Hin.
  - intros Hnone. apply map_eq. intros pid. rewrite lookup_empty.
    destruct (pool s ps !! pid) as [p |] eqn:Hl; [| done].
    apply pool_lookup in Hl as (Hl & Hs & Hr).
    by destruct (Hnone pid p Hl Hr).
Qed.

Lemma pool_nonempty_some_holds s (ps : gmap Z Player) :
  pool s ps ≠ ∅ ↔ some_holds s ps.
Proof.
  unfold some_holds. split.
  - intros Hne. apply map_choose in Hne as (pid & p & Hl).
    apply pool_lookup in Hl as (? & ? & ?). by exists pid, p.
  - intros (pid & p & Hl & Hr & Hs) He.
    assert (pool s ps !! pid = Some p) as Hin by by apply pool_lookup.
    rewrite He in Hin. by rewrite lookup_empty in Hin.
Qed.

Lemma none_holds_not_some s ps : none_holds s ps → ¬ some_holds s ps.
Proof. intros Hn (pid & p & Hl & Hr & Hs). by destruct (Hn pid p Hl Hr). Qed.

Lemma pool_list_nil s (ps : gmap Z Player) :
  map_to_list (pool s ps) = [] ↔ none_holds s ps.
Proof. rewrite map_to_list_empty_iff. apply pool_empty_none_holds. Qed.

Lemma pool_size_pos s (ps : gmap Z Player) :
  (0 < size (pool s ps))%nat ↔ some_holds s ps.
Proof.
  rewrite <- pool_nonempty_some_holds, <- map_size_non_empty_iff. lia.
Qed.

Lemma random_choice_elem {A} rnd (first : A) rest :
  random_choice rnd first rest ∈ first :: rest.
Proof.
  unfold random_choice.
  assert (rnd `mod` S (length rest) < length (first :: rest))%nat as Hlt.
  { apply (Nat.mod_upper_bound rnd (S (length rest))). lia. }
  rewrite nth_lookup.
  destruct (lookup_lt_is_Some_2 _ _ Hlt) as [x Hx].
  rewrite Hx. simpl. by eapply list_elem_of_lookup_2.
Qed.

(** The four ways a request to [next_player] can end. *)
Lemma next_player_cases rnd st :
  let o := next_player rnd st in
  let s := session st in
  let r := get_round s in
  (truthy (auction_paused s) = true ∧
   o = mkOutcome st [F_paused_proceed] (Redirect R_auctions)) ∨
  (truthy (auction_paused s) = false ∧
   none_holds "Unsold" (players st) ∧ some_holds (round_unsold r) (players st) ∧
   o = mkOutcome (with_session st (round_complete_session s))
         [F_round_done r] (Redirect R_auctions)) ∨
  (truthy (auction_paused s) = false ∧
   none_holds "Unsold" (players st) ∧ none_holds (round_unsold r) (players st) ∧
   o = mkOutcome (with_session st (auction_complete_session s))
         [F_auction_done r] (Redirect R_auctions)) ∨
  (truthy (auction_paused s) = false ∧
   ∃ pid p,
     players st !! pid = Some p ∧ status p = "Unsold" ∧
     is_retained p = false ∧
     o = mkOutcome (with_session st (presenting_session s pid)) []
           (Redirect R_auctions)).
Proof.
  unfold next_player; cbv zeta.
  destruct (truthy (auction_paused (session st))) eqn:Hp; [by left |].
  right.
  destruct (map_to_list (pool "Unsold" (players st)))
    as [| first rest] eqn:Hlist.
  - apply pool_list_nil in Hlist.
    destruct (decide (0 < size _)%nat) as [Hpos | Hpos].
    + left. by apply pool_size_pos in Hpos.
    + right. left. repeat split; try done.
      apply pool_empty_none_holds. apply map_size_empty_iff. lia.
  - right. right. split; [done |].
    pose proof (random_choice_elem rnd first rest) as Hin.
    rewrite <- Hlist in Hin.
    destruct (random_choice rnd first rest) as [pid p] eqn:Hch.
    apply elem_of_map_to_list in Hin.
    apply pool_lookup in Hin as (Hl & Hs & Hr).
    by exists pid, p.
Qed.

Lemma next_player_paused rnd st :
  truthy (auction_paused (session st)) = true →
  next_player rnd st = mkOutcome st [F_paused_proceed] (Redirect R_auctions).
Proof. intros Hp. unfold next_player. by rewrite Hp. Qed.

Lemma next_player_tables rnd st :
  players (new_state (next_player rnd st)) = players st ∧
  teams (new_state (next_player rnd st)) = teams st ∧
  auction_paused (session (new_state (next_player rnd st)))
    = auction_paused (session st).
Proof.
  destruct (next_player_cases rnd st)
    as [[_ ->] | [(_ & _ & _ & ->) | [(_ & _ & _ & ->) |
        (_ & pid & p & _ & _ & _ & ->)]]]; done.
Qed.

(** The test [next_player] makes.  A request enters round completion
    exactly when the auction is not paused, no non-retained player holds
    plain 'Unsold' and some non-retained player holds the marker of the
    round the session counts; it enters auction completion exactly when
    the auction is not paused and no non-retained player holds plain
    'Unsold' or that one marker.  Markers of other rounds are not looked
    at, although the auction page counts them as remaining. *)
Lemma next_player_completion rnd st :
  let o := next_player rnd st in
  let r := get_round (session st) in
  (enters_round_complete st o ↔
     truthy (auction_paused (session st)) = false ∧
     none_holds "Unsold" (players st) ∧
     some_holds (round_unsold r) (players st)) ∧
  (enters_auction_complete st o ↔
     truthy (auction_paused (session st)) = false ∧
     none_holds "Unsold" (players st) ∧
     none_holds (round_unsold r) (players st)).
Proof.
  cbv zeta. unfold enters_round_complete, enters_auction_complete.
  destruct (next_player_cases rnd st)
    as [[Hp ->] | [(Hp & Hn & Hs & ->) | [(Hp & Hn & Hm & ->) |
        (Hp & pid & p & Hl & Hst & Hr & ->)]]]; simpl.
  - split; split; try (by intros [[=] _]); intros (? & _); congruence.
  - split; split; try done.
    + by intros [[=] _].
    + intros (_ & _ & Hm). by destruct (none_holds_not_some _ _ Hm).
  - split; split; try done.
    + by intros [[=] _].
    + intros (_ & _ & Hs). by destruct (none_holds_not_some _ _ Hm).
  - split; split; try (by intros [[=] _]);
      intros (_ & Hn & _); by destruct (Hn pid p Hl Hr).
Qed.

(** The auction page applies the same test when it is viewed in round
    completion: it marks the auction complete when no non-retained player
    holds the current round's marker or plain 'Unsold', and changes
    nothing otherwise. *)
Lemma auctions_completion is_admin st :
  truthy (round_complete (session st)) = true →
  let o := auctions is_admin st in
  let s := session st in
  let r := get_round s in
  (none_holds (round_unsold r) (players st) →
   none_holds "Unsold" (players st) →
   new_state o = with_session st
                   (mkSession (Some false) (current_player_id s)
                      (auction_round s) (round_complete s) (Some true)
                      (auction_paused s))) ∧
  (some_holds (round_unsold r) (players st) ∨
   some_holds "Unsold" (players st) →
   new_state o = with_session st s).
Proof.
  intros Hrc. cbv zeta. unfold auctions. rewrite Hrc.
  destruct (truthy (auction_started (session st))); simpl.
  all: split.
  all: try (intros Hm Hu;
            apply pool_empty_none_holds, map_size_empty_iff in Hm;
            apply pool_empty_none_holds, map_size_empty_iff in Hu;
            destruct (decide _) as [_ |]; [| done];
            by destruct (decide _) as [_ |]).
  all: intros [Hs | Hs]; apply pool_size_pos in Hs;
    destruct (decide _) as [? |]; try done; try lia;
    destruct (decide _) as [? |]; try done; lia.
Qed.

(** C5. [next_player] changes nothing while the auction is paused;
    otherwise, when some non-retained player holds the literal status
    'Unsold', it leaves the tables alone and points the session at a
    non-retained player whose status is 'Unsold'.  Every such player is
    presented by some draw, and two different draws below the size of the
    pool present different players. *)
Theorem next_player_selects rnd st :
  let o := next_player rnd st in
  (truthy (auction_paused (session st)) = true →
   o = mkOutcome st [F_paused_proceed] (Redirect R_auctions) ∧
   current_player_id (session (new_state o))
     = current_player_id (session st)) ∧
  (truthy (auction_paused (session st)) = false →
   some_holds "Unsold" (players st) →
   players (new_state o) = players st ∧
   teams (new_state o) = teams st ∧
   ∃ pid p,
     current_player_id (session (new_state o)) = Some pid ∧
     players st !! pid = Some p ∧
     status p = "Unsold" ∧ is_retained p = false) ∧
  (truthy (auction_paused (session st)) = false →
   ∀ pid p,
     players st !! pid = Some p → status p = "Unsold" →
     is_retained p = false →
     ∃ draw, (draw < size (pool "Unsold" (players st)))%nat ∧
             presented_by draw st = Some pid) ∧
  (truthy (auction_paused (session st)) = false →
   ∀ i j,
     (i < size (pool "Unsold" (players st)))%nat →
     (j < size (pool "Unsold" (players st)))%nat →
     presented_by i st = presented_by j st → i = j).
Proof.
  cbv zeta. split; [| split; [| split]].
  - intros Hp. by rewrite (next_player_paused _ _ Hp).
  - intros Hp Hsome.
    destruct (next_player_tables rnd st) as (Hps & Hts & _).
    split; [done |]. split; [done |].
    destruct (next_player_cases rnd st)
      as [[Hp' _] | [(_ & Hn & _) | [(_ & Hn & _) |
          (_ & pid & p & Hl & Hst & Hr & ->)]]].
    + congruence.
    + by destruct (none_holds_not_some _ _ Hn).
    + by destruct (none_holds_not_some _ _ Hn).
    + by exists pid, p.
  - intros Hp pid p Hl Hst Hr.
    assert ((pid, p) ∈ map_to_list (pool "Unsold" (players st))) as Hin.
    { apply elem_of_map_to_list. by apply pool_lookup. }
    apply list_elem_of_lookup in Hin as [i Hi].
    exists i. split.
    { rewrite <- length_map_to_list. by eapply lookup_lt_Some. }
    unfold presented_by, next_player. rewrite Hp.
    destruct (map_to_list (pool "Unsold" (players st)))
      as [| first rest] eqn:Hlist; [done |].
    simpl. unfold random_choice.
    rewrite Nat.mod_small by (by eapply (lookup_lt_Some (first :: rest))).
    by rewrite nth_lookup, Hi.
  - intros Hp i j Hi Hj.
    unfold presented_by, next_player. rewrite Hp.
    pose proof (NoDup_fst_map_to_list (pool "Unsold" (players st))) as Hnd.
    rewrite <- length_map_to_list in Hi, Hj.
    destruct (map_to_list (pool "Unsold" (players st)))
      as [| first rest] eqn:Hlist; [simpl in Hi; lia |].
    simpl. unfold random_choice.
    rewrite !Nat.mod_small by done.
    rewrite !nth_lookup.
    destruct (lookup_lt_is_Some_2 _ _ Hi) as [x Hx].
    destruct (lookup_lt_is_Some_2 _ _ Hj) as [y Hy].
    rewrite Hx, Hy. simpl. intros [= Heq].
    eapply (NoDup_lookup _ i j x.1 Hnd).
    + by rewrite list_lookup_fmap, Hx.
    + by rewrite list_lookup_fmap, Hy, Heq.
Qed.

(** *** Stale requests *)

Lemma round_unsold_not_plain r : round_unsold r ≠ "Unsold".
Proof. unfold round_unsold. simpl. discriminate. Qed.

(** The four ways a request to [mark_unsold] can end. *)
Lemma mark_unsold_cases st player_id :
  let o := mark_unsold player_id st in
  let s := session st in
  (truthy (auction_paused s) = true ∧
   o = mkOutcome st [F_paused_unsold] (Redirect R_auctions)) ∨
  (truthy (auction_paused s) = false ∧
   players st !! player_id = None ∧ o = mkOutcome st [] NotFound) ∨
  (∃ player,
     truthy (auction_paused s) = false ∧
     players st !! player_id = Some player ∧
     not_up_for_auction s player_id player ∧
     o = mkOutcome st [F_not_current] (Redirect R_auctions)) ∨
  (∃ player,
     presented st player_id player ∧
     o = mkOutcome
           (mkState
              (<[player_id :=
                   update_player player (round_unsold (get_round s))
                     (sold_price player) (team_id player)]> (players st))
              (teams st) (pop_current_player s))
           [F_marked_unsold (player_name player) (get_round s)]
           (Redirect R_next_player)).
Proof.
  unfold mark_unsold; cbv zeta.
  destruct (truthy (auction_paused (session st))) eqn:Hp; [by left |].
  right.
  destruct (players st !! player_id) as [player |] eqn:Hl; [| by left].
  right.
  destruct (decide (not_up_for_auction _ _ _)) as [Hn | Hn].
  - left. by exists player.
  - right. by exists player.
Qed.

(** A request for a player whose status is not 'Unsold' is turned away as
    stale by both handlers, with the state untouched. *)
Lemma stale_requests st player_id player form :
  truthy (auction_paused (session st)) = false →
  players st !! player_id = Some player →
  status player ≠ "Unsold" →
  mark_sold py_int player_id form st
    = mkOutcome st [F_not_current] (Redirect R_auctions) ∧
  mark_unsold player_id st
    = mkOutcome st [F_not_current] (Redirect R_auctions).
Proof.
  intros Hp Hl Hs.
  assert (not_up_for_auction (session st) player_id player) as Hn
    by (right; by left).
  unfold mark_sold, mark_unsold. rewrite Hp, Hl.
  by destruct (decide (not_up_for_auction _ _ _)).
Qed.

(** What a successful sell or pass leaves behind: the pointer cleared, the
    pause flag still off, the player under a status other than 'Unsold'. *)
Lemma success_leaves_stale st player_id o1 :
  (∃ form, o1 = mark_sold py_int player_id form st) ∨
  o1 = mark_unsold player_id st →
  response o1 = Redirect R_next_player →
  current_player_id (session (new_state o1)) = None ∧
  truthy (auction_paused (session (new_state o1))) = false ∧
  ∃ p, players (new_state o1) !! player_id = Some p ∧ status p ≠ "Unsold".
Proof.
  intros [[form ->] | ->] Hresp.
  - destruct (mark_sold_cases st player_id form)
      as [[_ Ho] | [(_ & _ & Ho) | [(? & _ & _ & _ & Ho) | [(? & _ & _ & Ho) |
          [(? & ? & ? & _ & _ & _ & _ & Ho) |
           [(? & ? & ? & ? & _ & _ & _ & _ & _ & Ho) |
            [(? & ? & ? & ? & _ & _ & _ & _ & _ & _ & Ho) |
             (p & tid & t & price & [(Hp & _) _] & Ho)]]]]]]];
      rewrite Ho in Hresp |- *; try done.
    simpl. repeat split; try done.
    eexists. rewrite lookup_insert_eq. split; [done |]. simpl. discriminate.
  - destruct (mark_unsold_cases st player_id)
      as [[_ Ho] | [(_ & _ & Ho) | [(? & _ & _ & _ & Ho) |
          (p & (Hp & _) & Ho)]]];
      rewrite Ho in Hresp |- *; try done.
    simpl. repeat split; try done.
    eexists. rewrite lookup_insert_eq. split; [done |]. simpl.
    apply round_unsold_not_plain.
Qed.

(** C6. Once a sell or a pass of a player has succeeded, the pointer is
    cleared and the player's status is no longer 'Unsold'; sending a sell
    or a pass for the same player again, straight away or after the
    redirect to [next_player] has been followed, is turned away as stale
    and changes nothing. *)
Theorem sell_or_pass_at_most_once st player_id o1 :
  (∃ form, o1 = mark_sold py_int player_id form st) ∨
  o1 = mark_unsold player_id st →
  response o1 = Redirect R_next_player →
  current_player_id (session (new_state o1)) = None ∧
  (∃ p, players (new_state o1) !! player_id = Some p ∧
        status p ≠ "Unsold") ∧
  ∀ st',
    st' = new_state o1 ∨
    (∃ rnd, st' = new_state (next_player rnd (new_state o1))) →
    ∀ form',
      mark_sold py_int player_id form' st'
        = mkOutcome st' [F_not_current] (Redirect R_auctions) ∧
      mark_unsold player_id st'
        = mkOutcome st' [F_not_current] (Redirect R_auctions).
Proof.
  intros Hreq Hresp.
  destruct (success_leaves_stale st player_id o1 Hreq Hresp)
    as (Hcur & Hp & p & Hl & Hs).
  split; [done |]. split; [by exists p |].
  intros st' [-> | [rnd ->]] form'.
  - by apply (stale_requests _ _ p).
  - destruct (next_player_tables rnd (new_state o1)) as (Hps & _ & Hpa).
    apply (stale_requests _ _ p).
    + by rewrite Hpa.
    + by rewrite Hps.
    + done.
Qed.

(** *** Starting the next round *)

Lemma relabel_lookup marker (ps : gmap Z Player) pid :
  (relabel marker <$> ps) !! pid = relabel marker <$> ps !! pid.
Proof. apply lookup_fmap. Qed.

(** C7. [start_next_round] is refused, with the state untouched, unless
    the session is in round completion.  When it succeeds the session was
    in round completion; every non-retained player under the marker of the
    finished round is back to plain 'Unsold' with nothing else changed,
    every other row is as before, the round counter is one higher, the
    paused flag is cleared, the auction is running, and the response sends
    the browser to [next_player], which then presents one of the players
    of the new round.  From round completion it does succeed whenever some
    non-retained player is under that marker. *)
Theorem start_next_round_spec st :
  let o := start_next_round st in
  let s := session st in
  let r := get_round s in
  (truthy (round_complete s) = false →
   o = mkOutcome st [F_round_not_complete] (Redirect R_auctions)) ∧
  (response o = Redirect R_next_player →
   truthy (round_complete s) = true ∧
   (∀ pid p, players st !! pid = Some p →
      is_retained p = false → status p = round_unsold r →
      players (new_state o) !! pid
        = Some (update_player p "Unsold" (sold_price p) (team_id p))) ∧
   (∀ pid p, players st !! pid = Some p →
      ¬ (is_retained p = false ∧ status p = round_unsold r) →
      players (new_state o) !! pid = Some p) ∧
   (∀ pid, players st !! pid = None →
      players (new_state o) !! pid = None) ∧
   teams (new_state o) = teams st ∧
   auction_round (session (new_state o)) = Some (r + 1) ∧
   auction_paused (session (new_state o)) = Some false ∧
   auction_started (session (new_state o)) = Some true ∧
   round_complete (session (new_state o)) = Some false ∧
   ∀ rnd,
     new_state (follow_redirect rnd o)
       = new_state (next_player rnd (new_state o)) ∧
     ∃ pid p,
       current_player_id (session (new_state (follow_redirect rnd o)))
         = Some pid ∧
       players (new_state o) !! pid = Some p ∧
       status p = "Unsold" ∧ is_retained p = false) ∧
  (truthy (round_complete s) = true →
   some_holds (round_unsold r) (players st) →
   response o = Redirect R_next_player).
Proof.
  cbv zeta. unfold start_next_round.
  destruct (truthy (round_complete (session st))) eqn:Hrc; simpl.
  2: { repeat split; try done. }
  destruct (map_to_list (pool (round_unsold (get_round (session st)))
                           (players st))) as [| first rest] eqn:Hlist.
  { apply pool_list_nil in Hlist. simpl. repeat split; try done.
    intros _ Hs. by destruct (none_holds_not_some _ _ Hlist). }
  simpl. split; [done |]. split; [| done]. intros _.
  assert ((first.1, first.2) ∈
            map_to_list (pool (round_unsold (get_round (session st)))
                           (players st))) as Hin.
  { rewrite Hlist. destruct first. simpl. apply list_elem_of_here. }
  apply elem_of_map_to_list, pool_lookup in Hin as (Hfl & Hfs & Hfr).
  repeat split; try done.
  - intros pid p Hl Hr Hs. rewrite relabel_lookup, Hl. simpl.
    unfold relabel. by destruct (decide _) as [_ | []].
  - intros pid p Hl Hno. rewrite relabel_lookup, Hl. simpl.
    unfold relabel. destruct (decide _) as [[] |]; [| done].
    by destruct Hno.
  - intros pid Hl. by rewrite relabel_lookup, Hl.
  - set (st1 := mkState _ _ _).
    assert (some_holds "Unsold" (players st1)) as Hsome.
    { exists first.1, (update_player first.2 "Unsold" (sold_price first.2)
                         (team_id first.2)).
      split; [| done]. subst st1. simpl.
      rewrite relabel_lookup, Hfl. simpl. unfold relabel.
      by destruct (decide _) as [_ | []]. }
    unfold follow_redirect. simpl. fold st1.
    destruct (next_player_cases rnd st1)
      as [[Hp' _] | [(_ & Hn & _) | [(_ & Hn & _) |
          (_ & pid & p & Hl & Hst & Hr & ->)]]].
    + done.
    + by destruct (none_holds_not_some _ _ Hn).
    + by destruct (none_holds_not_some _ _ Hn).
    + by exists pid, p.
Qed.

(** *** Reset *)

Lemma reset_player_idem p : reset_player (reset_player p) = reset_player p.
Proof. unfold reset_player. by destruct (is_retained p) eqn:Hr; simpl; rewrite ?Hr. Qed.

Lemma reset_player_retained p : is_retained (reset_player p) = is_retained p.
Proof. unfold reset_player. by destruct (is_retained p) eqn:Hr. Qed.

(** The reset of the Player rows does not touch what the team loop reads. *)
Lemma retained_of_reset tid (ps : gmap Z Player) :
  filter (retained_of tid) (reset_player <$> ps) = filter (retained_of tid) ps.
Proof.
  apply map_eq. intros pid. apply option_eq. intros p.
  rewrite !map_lookup_filter_Some, lookup_fmap.
  unfold retained_of. simpl.
  destruct (ps !! pid) as [q |] eqn:Hq; simpl; [| by split; intros []].
  unfold reset_player.
  destruct (is_retained q) eqn:Hr; [done |].
  split; intros [[= <-] [_ Hret]]; simpl in Hret; congruence.
Qed.

(** Only the retained rows count. *)
Lemma retained_of_retained_only tid (ps : gmap Z Player) :
  filter (retained_of tid) ps
  = filter (retained_of tid) (filter retained_flag ps).
Proof.
  apply map_eq. intros pid. apply option_eq. intros p.
  rewrite !map_lookup_filter_Some.
  unfold retained_of, retained_flag. simpl.
  split; [intros (? & ? & ?) | intros ((? & ?) & ? & ?)]; by repeat split.
Qed.

Lemma reset_teams_lookup ps (ts : gmap Z Team) tid :
  reset_teams ps ts !! tid
  = recompute_team (map_to_list (filter (retained_of tid) ps)) <$> ts !! tid.
Proof.
  unfold reset_teams. rewrite map_lookup_imap.
  by destruct (ts !! tid).
Qed.

Lemma reset_teams_idem ps (ts : gmap Z Team) :
  reset_teams ps (reset_teams ps ts) = reset_teams ps ts.
Proof.
  apply map_eq. intros tid. rewrite !reset_teams_lookup.
  by destruct (ts !! tid).
Qed.

Lemma restart_auction_accepted pw st :
  password_rejected check_password (Some pw) = false →
  restart_auction check_password true (Some pw) st
  = mkOutcome
      (mkState (reset_player <$> players st)
         (reset_teams (reset_player <$> players st) (teams st))
         empty_session)
      [F_reset_done] (Redirect R_auctions).
Proof. intros Hpw. unfold restart_auction. by rewrite Hpw. Qed.

(** C8. A reset that passes the password check is idempotent on the whole
    state; it leaves every non-retained player 'Unsold' with price 0 and
    no team and every retained player as it was; it sets the four
    aggregates of every team from the team's retained players alone
    (count, 15 minus count, summed price, 10000 minus summed price); and
    two states with the same retained rows get the same aggregates. *)
Theorem restart_auction_idempotent pw st :
  password_rejected check_password (Some pw) = false →
  let reset st :=
    new_state (restart_auction check_password true (Some pw) st) in
  reset (reset st) = reset st ∧
  (∀ pid p, players st !! pid = Some p → is_retained p = false →
     ∃ p', players (reset st) !! pid = Some p' ∧
           status p' = "Unsold" ∧ sold_price p' = Some 0 ∧
           team_id p' = None ∧ is_retained p' = false) ∧
  (∀ pid p, players st !! pid = Some p → is_retained p = true →
     players (reset st) !! pid = Some p) ∧
  (∀ tid t, teams st !! tid = Some t →
     ∃ t', teams (reset st) !! tid = Some t' ∧
       let retained := map_to_list (filter (retained_of tid) (players st)) in
       players_taken_count t' = Z.of_nat (length retained) ∧
       slots_remaining t' = 15 - Z.of_nat (length retained) ∧
       purse_spent t' = retained_cost retained ∧
       purse t' = 10000 - retained_cost retained) ∧
  (∀ st2 tid t t2,
     filter retained_flag (players st2) = filter retained_flag (players st) →
     teams (reset st) !! tid = Some t →
     teams (reset st2) !! tid = Some t2 →
     purse t2 = purse t ∧ purse_spent t2 = purse_spent t ∧
     slots_remaining t2 = slots_remaining t ∧
     players_taken_count t2 = players_taken_count t).
Proof.
  intros Hpw reset. subst reset. cbv beta.
  split; [| split; [| split; [| split]]].
  - rewrite !(restart_auction_accepted _ _ Hpw). simpl. f_equal.
    + rewrite <- map_fmap_compose. apply map_fmap_ext.
      intros ? p _. apply reset_player_idem.
    + rewrite <- map_fmap_compose.
      rewrite (map_fmap_ext (reset_player ∘ reset_player) reset_player)
        by (intros ? p _; apply reset_player_idem).
      apply reset_teams_idem.
  - intros pid p Hl Hr.
    rewrite (restart_auction_accepted _ _ Hpw). simpl.
    rewrite lookup_fmap, Hl. simpl.
    eexists. split; [done |]. unfold reset_player. by rewrite Hr.
  - intros pid p Hl Hr.
    rewrite (restart_auction_accepted _ _ Hpw). simpl.
    rewrite lookup_fmap, Hl. simpl.
    unfold reset_player. by rewrite Hr.
  - intros tid t Hl.
    rewrite (restart_auction_accepted _ _ Hpw). simpl.
    rewrite reset_teams_lookup, Hl. simpl.
    eexists. split; [done |]. by rewrite retained_of_reset.
  - intros st2 tid t t2 Hsame.
    rewrite !(restart_auction_accepted _ _ Hpw). simpl.
    rewrite !reset_teams_lookup, !retained_of_reset.
    rewrite (retained_of_retained_only tid (players st2)), Hsame,
      <- retained_of_retained_only.
    destruct (teams st !! tid); [| done].
    destruct (teams st2 !! tid); [| done].
    by intros [= <-] [= <-].
Qed.

(** *** Export *)

Lemma team_players_lookup tid (ps : gmap Z Player) pid p :
  team_players tid ps !! pid = Some p ↔ ps !! pid = Some p ∧ team_id p = Some tid.
Proof.
  unfold team_players. rewrite map_lookup_filter_Some. by unfold on_roster.
Qed.

(** C9. The export of an existing team changes nothing.  When nobody is
    on the roster it sends no file: it flashes that the team has no
    players to export and redirects to the teams page.  Otherwise it sends
    one workbook whose rows are, up to order, the rows of the players on
    the roster, one per player; every row carries the name, the status
    label (Retained, Sold or Unsold/Other), the price (0 when none is
    recorded) and the eleven statistics of its player, in that order. *)
Theorem export_team_excel_rows tid st :
  let o := export_team_excel tid st in
  let roster := team_players tid (players st) in
  new_state o = st ∧
  (teams st !! tid = None → response o = NotFound) ∧
  (∀ team, teams st !! tid = Some team →
     (roster = ∅ →
      response o = Redirect R_teams ∧
      flashes o = [F_nothing_to_export (team_name team)]) ∧
     (roster ≠ ∅ →
      ∃ rows,
        response o = SendFile (team_name team +:+ "_players.xlsx")
                       (team_name team) rows ∧
        flashes o = [] ∧
        rows ≡ₚ (λ kv : Z * Player, export_row kv.2) <$> map_to_list roster ∧
        length rows = size roster)) ∧
  (∀ p : Player,
     export_row p =
       [ ("Player Name", CText (player_name p));
         ("Status", CText (status_label p));
         ("Price (Points)", CInt (default 0 (sold_price p)));
         ("Overall Matches", overall_matches p);
         ("Overall Runs", overall_runs p);
         ("Overall Wickets", overall_wickets p);
         ("Overall SR", overall_sr p);
         ("Overall HS", overall_hs p);
         ("CPL 2024 Team", cpl_2024_team p);
         ("CPL 2024 Innings", cpl_2024_innings p);
         ("CPL 2024 Runs", cpl_2024_runs p);
         ("CPL 2024 Wickets", cpl_2024_wickets p);
         ("CPL 2024 SR", cpl_2024_sr p);
         ("CPL 2024 HS", cpl_2024_hs p) ] ∧
     (is_retained p = true → status_label p = "Retained") ∧
     (is_retained p = false → status p = "Sold" → status_label p = "Sold") ∧
     (is_retained p = false → status p ≠ "Sold" →
      status_label p = "Unsold/Other")).
Proof.
  cbv zeta. split; [apply export_unchanged |].
  unfold export_team_excel.
  split; [by intros -> |]. split.
  - intros team ->.
    pose proof (merge_sort_Permutation roster_order
                  (map_to_list (team_players tid (players st)))) as Hperm.
    split.
    + intros He. rewrite He, map_to_list_empty in Hperm |- *.
      apply Permutation_nil_r in Hperm. by rewrite Hperm.
    + intros Hne.
      destruct ((λ kv : Z * Player, export_row kv.2) <$>
                  merge_sort roster_order
                    (map_to_list (team_players tid (players st))))
        as [| row rows] eqn:Hrows.
      * apply fmap_nil_inv in Hrows. rewrite Hrows in Hperm.
        symmetry in Hperm. apply Permutation_nil_r in Hperm.
        by apply map_to_list_empty_iff in Hperm.
      * simpl. exists (row :: rows). repeat split; try done.
        -- rewrite <- Hrows. by apply fmap_Permutation.
        -- rewrite <- Hrows, length_fmap, <- length_map_to_list.
           by apply Permutation_length.
  - intros p. unfold status_label. split; [done |].
    repeat split.
    + by intros ->.
    + intros -> Hs. by destruct (decide _).
    + intros -> Hs. by destruct (decide _).
Qed.

(** *** The team ledger, sale by sale and recompute by recompute *)

Lemma retained_on_roster tid (ps : gmap Z Player) :
  filter retained_flag (team_players tid ps) = filter (retained_of tid) ps.
Proof.
  apply map_eq. intros pid. apply option_eq. intros p.
  rewrite !map_lookup_filter_Some, team_players_lookup.
  unfold retained_flag, retained_of. simpl.
  split; [intros ((? & ?) & ?) | intros (? & ? & ?)]; by repeat split.
Qed.

(** [sum(...)] over the retained players, written as a plain sum. *)
Lemma retained_cost_sum l :
  retained_cost l
  = foldr Z.add 0 ((λ kv : Z * Player, default 0 (sold_price kv.2)) <$> l).
Proof.
  induction l as [| kv l IH]; [done |].
  unfold retained_cost in *. rewrite fmap_cons. simpl. rewrite <- IH.
  by destruct (sold_price kv.2).
Qed.

(** The four assignments of a recompute, read off the retained rows. *)
Lemma recompute_team_aggregates (ps : gmap Z Player) tid team :
  let retained := filter (retained_of tid) ps in
  let cost :=
    foldr Z.add 0
      ((λ kv : Z * Player, default 0 (sold_price kv.2))
         <$> map_to_list retained) in
  let team' := recompute_team (map_to_list retained) team in
  players_taken_count team' = Z.of_nat (size retained) ∧
  slots_remaining team' = 15 - Z.of_nat (size retained) ∧
  purse_spent team' = cost ∧
  purse team' = 10000 - cost.
Proof.
  cbv zeta. unfold recompute_team. simpl.
  by rewrite retained_cost_sum, length_map_to_list.
Qed.

(** C1. The team ledger.
    (1) Whenever every team satisfies [purse + purse_spent = 10000] and
    [slots_remaining + players_taken_count = 15], every team still does
    after any sequence of requests (advance, next round, sell, pass,
    reset, pause, resume, viewing, export, logout, import followed by its
    recompute); the seeded teams satisfy both, and so does every team
    after an accepted reset or an import-time recompute, whatever the
    tables held before.
    (2) A successful sale rewrites exactly one team row, that of the
    team named in the form: purse minus the price of the form,
    purse_spent plus the same price, slots_remaining minus one,
    players_taken_count plus one.
    (3) A pass and the start of the next round leave the Team table as
    it is.
    (4) An accepted reset and the import-time recompute set the four
    fields of every team from the retained players of that team alone:
    their number, 15 minus their number, the sum of their prices, and
    10000 minus that sum. *)
Theorem team_ledger_invariant :
  (∀ ops st,
     ledger_invariant st →
     ∀ tid team,
       teams (run py_int check_password ops st) !! tid = Some team →
       purse team + purse_spent team = 10000 ∧
       slots_remaining team + players_taken_count team = 15) ∧
  (∀ ps s, ledger_invariant (mkState ps seeded_teams s)) ∧
  (∀ pw st,
     password_rejected check_password (Some pw) = false →
     ledger_invariant
       (new_state (restart_auction check_password true (Some pw) st))) ∧
  (∀ imported st, ledger_invariant (import_then_recalculate imported st)) ∧
  (∀ st player_id form,
     response (mark_sold py_int player_id form st) = Redirect R_next_player →
     ∃ tid price team team',
       form_int py_int (form_team_id form) = Some tid ∧
       form_int py_int (form_sold_price form) = Some price ∧
       teams st !! tid = Some team ∧
       teams (new_state (mark_sold py_int player_id form st))
         = <[tid := team']> (teams st) ∧
       purse team' = purse team - price ∧
       purse_spent team' = purse_spent team + price ∧
       slots_remaining team' = slots_remaining team - 1 ∧
       players_taken_count team' = players_taken_count team + 1) ∧
  (∀ st player_id, teams (new_state (mark_unsold player_id st)) = teams st) ∧
  (∀ st, teams (new_state (start_next_round st)) = teams st) ∧
  (∀ pw st tid team,
     password_rejected check_password (Some pw) = false →
     teams st !! tid = Some team →
     ∃ team',
       teams (new_state (restart_auction check_password true (Some pw) st))
         !! tid = Some team' ∧
       let retained := filter (retained_of tid) (players st) in
       let cost :=
         foldr Z.add 0
           ((λ kv : Z * Player, default 0 (sold_price kv.2))
              <$> map_to_list retained) in
       players_taken_count team' = Z.of_nat (size retained) ∧
       slots_remaining team' = 15 - Z.of_nat (size retained) ∧
       purse_spent team' = cost ∧
       purse team' = 10000 - cost) ∧
  (∀ imported st tid team,
     teams st !! tid = Some team →
     ∃ team',
       teams (import_then_recalculate imported st) !! tid = Some team' ∧
       let retained := filter (retained_of tid) imported in
       let cost :=
         foldr Z.add 0
           ((λ kv : Z * Player, default 0 (sold_price kv.2))
              <$> map_to_list retained) in
       players_taken_count team' = Z.of_nat (size retained) ∧
       slots_remaining team' = 15 - Z.of_nat (size retained) ∧
       purse_spent team' = cost ∧
       purse team' = 10000 - cost).
Proof.
  split; [| split; [| split; [| split; [| split; [| split; [| split;
    [| split]]]]]]].
  - intros ops st Hinv tid team Hl.
    exact (run_ledger ops st Hinv tid team Hl).
  - apply seeded_teams_ledger.
  - apply restart_auction_establishes_ledger.
  - intros imported st. apply recalculate_establishes_ledger.
  - intros st player_id form Hresp.
    destruct (mark_sold_cases st player_id form)
      as [[_ Ho] | [(_ & _ & Ho) | [(? & _ & _ & _ & Ho) | [(? & _ & _ & Ho) |
          [(? & ? & ? & _ & _ & _ & _ & Ho) |
           [(? & ? & ? & ? & _ & _ & _ & _ & _ & Ho) |
            [(? & ? & ? & ? & _ & _ & _ & _ & _ & _ & Ho) |
             (player & tid & team & price & Hacc & Ho)]]]]]]];
      rewrite Ho in Hresp; try discriminate Hresp.
    rewrite Ho. simpl.
    exists tid, price, team, (debit price team).
    destruct Hacc as [(_ & _ & _ & _ & _ & _ & Ht & Hpr & Htm & _) _].
    by repeat split.
  - intros st player_id. apply mark_unsold_teams.
  - apply start_next_round_teams.
  - intros pw st tid team Hpw Htm.
    rewrite (restart_auction_accepted _ _ Hpw). simpl.
    rewrite reset_teams_lookup, Htm, retained_of_reset. simpl.
    eexists. split; [reflexivity |].
    apply recompute_team_aggregates.
  - intros imported st tid team Htm.
    unfold import_then_recalculate, recalculate_initial_team_stats. simpl.
    rewrite map_lookup_imap, Htm, retained_on_roster. simpl.
    eexists. split; [reflexivity |].
    apply recompute_team_aggregates.
Qed.

End Properties.

(** ** The handlers on the example tables *)

(** C1 on an auction with retained players.  Team 1 retains Keeper for
    1000 and Anchor for 1500, so the import-time recompute leaves it
    7500 / 2500 / 13 / 2; it then buys Bidder for 3000, which leaves it
    4500 / 5500 / 12 / 3, balanced; and a reset takes it back to
    7500 / 2500 / 13 / 2. *)
Lemma team_ledger_example :
  let table : gmap Z Player :=
    {[ 1 := imported_player "Keeper" true (Some 1) 1000;
       2 := imported_player "Anchor" true (Some 1) 1500;
       3 := imported_player "Bidder" false None 0 ]} in
  let st0 := mkState ∅ seeded_teams empty_session in
  let form := mkSoldForm (Some "1") (Some "3000") in
  let st1 :=
    run decimal_int seeded_admin_password [OpImport table; OpNextPlayer 0]
      st0 in
  let sale := mark_sold decimal_int 3 form st1 in
  let st3 :=
    new_state
      (restart_auction seeded_admin_password true (Some "admin123")
         (new_state sale)) in
  let sold := mkTeam "Puthiya Sirakukal" "Govindaraj" 4500 5500 12 3 in
  ledger_invariant st0 ∧
  teams
    (run decimal_int seeded_admin_password
       [OpImport table; OpNextPlayer 0; OpMarkSold 3 form; OpNextPlayer 0]
       st0) !! 1 = Some sold ∧
  purse sold + purse_spent sold = 10000 ∧
  slots_remaining sold + players_taken_count sold = 15 ∧
  (∃ team',
     teams (import_then_recalculate table st0) !! 1 = Some team' ∧
     players_taken_count team' = 2 ∧ slots_remaining team' = 13 ∧
     purse_spent team' = 2500 ∧ purse team' = 7500) ∧
  response sale = Redirect R_next_player ∧
  (∃ team',
     teams (new_state sale) = <[1 := team']> (teams st1) ∧
     purse team' = 4500 ∧ purse_spent team' = 5500 ∧
     slots_remaining team' = 12 ∧ players_taken_count team' = 3) ∧
  password_rejected seeded_admin_password (Some "admin123") = false ∧
  (∃ team',
     teams st3 !! 1 = Some team' ∧
     players_taken_count team' = 2 ∧ slots_remaining team' = 13 ∧
     purse_spent team' = 2500 ∧ purse team' = 7500).
Proof.
  intros table st0 form st1 sale st3 sold.
  destruct (team_ledger_invariant decimal_int seeded_admin_password)
    as (Hrun & Hseeded & _ & _ & Hsale & _ & _ & Hreset & Himport).
  assert (ledger_invariant st0) as Hinv by apply Hseeded.
  assert (teams
            (run decimal_int seeded_admin_password
               [OpImport table; OpNextPlayer 0; OpMarkSold 3 form;
                OpNextPlayer 0] st0) !! 1 = Some sold) as Hl
    by (vm_compute; reflexivity).
  assert (response sale = Redirect R_next_player) as Hresp
    by (vm_compute; reflexivity).
  assert (password_rejected seeded_admin_password (Some "admin123") = false)
    as Hpw by (vm_compute; reflexivity).
  split; [exact Hinv |]. split; [exact Hl |].
  split; [exact (proj1 (Hrun _ st0 Hinv 1 sold Hl)) |].
  split; [exact (proj2 (Hrun _ st0 Hinv 1 sold Hl)) |].
  split.
  { destruct (Himport table st0 1 (seed_team "Puthiya Sirakukal" "Govindaraj"))
      as (t & Ht & Hcount & Hslots & Hspent & Hpurse);
      [vm_compute; reflexivity |].
    exists t. split; [exact Ht |].
    rewrite Hpurse, Hspent, Hslots, Hcount.
    repeat split; vm_compute; reflexivity. }
  split; [exact Hresp |].
  split.
  { destruct (Hsale st1 3 form Hresp)
      as (tid & price & team & t & Htid & Hprice & Htm & Hteams & Hpurse &
          Hspent & Hslots & Hcount).
    vm_compute in Htid. injection Htid as <-.
    vm_compute in Hprice. injection Hprice as <-.
    vm_compute in Htm. injection Htm as <-.
    exists t. split; [exact Hteams |].
    rewrite Hpurse, Hspent, Hslots, Hcount.
    repeat split; vm_compute; reflexivity. }
  split; [exact Hpw |].
  destruct (Hreset "admin123" (new_state sale) 1 sold Hpw)
    as (t & Ht & Hcount & Hslots & Hspent & Hpurse);
    [vm_compute; reflexivity |].
  exists t. split; [exact Ht |].
  rewrite Hpurse, Hspent, Hslots, Hcount.
  repeat split; vm_compute; reflexivity.
Defined.

(** The sale of C2 on the specification's example: purse 5000 and 3 slots,
    price 800, give purse 4200 and 2 slots, and P is 'Sold' for 800. *)
Lemma mark_sold_example :
  let o := mark_sold decimal_int 7 (sale_form "800") sale_state in
  sale_accepted decimal_int sale_state 7 (sale_form "800") player_P 2
    team_T 800 ∧
  ∃ team' player',
    teams (new_state o) !! 2 = Some team' ∧
    purse team' = 4200 ∧ slots_remaining team' = 2 ∧
    purse_spent team' = 5800 ∧ players_taken_count team' = 13 ∧
    players (new_state o) !! 7 = Some player' ∧
    status player' = "Sold" ∧ sold_price player' = Some 800 ∧
    team_id player' = Some 2.
Proof.
  intros o.
  assert (sale_accepted decimal_int sale_state 7 (sale_form "800") player_P 2
            team_T 800) as Hacc.
  { repeat split; try (vm_compute; reflexivity). vm_compute. discriminate. }
  split; [exact Hacc |].
  destruct (mark_sold_effect decimal_int sale_state 7 (sale_form "800")
              player_P 2 team_T 800 Hacc)
    as (_ & (team' & Ht & H1 & H2 & H3 & H4)
          & (player' & Hp & H5 & H6 & H7 & _) & _).
  exists team', player'.
  rewrite H1, H2, H3, H4.
  repeat split; first [exact Ht | exact Hp | assumption | reflexivity].
Defined.

(** The refusal of C3 on the same tables: a price of 6000 against a purse
    of 5000 leaves the state as it was and reports the purse. *)
Lemma rejected_sale_example :
  let o := mark_sold decimal_int 7 (sale_form "6000") sale_state in
  sale_must_fail decimal_int sale_state (sale_form "6000") ∧
  new_state o = sale_state ∧
  response o ≠ Redirect R_next_player ∧
  flashes o = [F_not_enough_purse "T" 5000].
Proof.
  intros o.
  assert (sale_must_fail decimal_int sale_state (sale_form "6000")) as Hfail.
  { right. right. exists 2, 6000, team_T.
    repeat split; try (vm_compute; reflexivity).
    left. vm_compute. reflexivity. }
  split; [exact Hfail |].
  destruct (mark_sold_rejected decimal_int sale_state 7 (sale_form "6000")
              Hfail) as (Hst & Hresp & _).
  split; [exact Hst |]. split; [exact Hresp |].
  vm_compute. reflexivity.
Defined.

(** The sale of C10 at a negative price: selling P for -500 succeeds and
    takes the purse from 5000 to 5500 and purse_spent from 5000 to 4500. *)
Lemma negative_price_example :
  let o := mark_sold decimal_int 7 (sale_form "-500") sale_state in
  sale_presented decimal_int sale_state 7 (sale_form "-500") player_P 2
    team_T (-500) ∧
  response o = Redirect R_next_player ∧
  ∃ team',
    teams (new_state o) !! 2 = Some team' ∧
    purse team' = 5500 ∧ purse_spent team' = 4500.
Proof.
  intros o.
  assert (sale_presented decimal_int sale_state 7 (sale_form "-500") player_P
            2 team_T (-500)) as Hpres.
  { repeat split; vm_compute; reflexivity. }
  split; [exact Hpres |].
  destruct (mark_sold_any_price decimal_int sale_state 7 (sale_form "-500")
              player_P 2 team_T (-500) Hpres) as ([_ Hok] & Hst).
  assert (-500 ≤ purse team_T) as Hle by (vm_compute; discriminate).
  split; [exact (Hok Hle) |].
  destruct (Hst Hle) as (_ & team' & Hl & Hpurse & Hspent & _).
  exists team'. rewrite Hpurse, Hspent.
  split; [exact Hl |]. split; reflexivity.
Defined.

(** The second attempt of C6: once P is sold, the same sell request, and a
    pass of P, are turned away as stale. *)
Lemma second_attempt_example :
  let o1 := mark_sold decimal_int 7 (sale_form "800") sale_state in
  response o1 = Redirect R_next_player ∧
  current_player_id (session (new_state o1)) = None ∧
  mark_sold decimal_int 7 (sale_form "800") (new_state o1)
    = mkOutcome (new_state o1) [F_not_current] (Redirect R_auctions) ∧
  mark_unsold 7 (new_state (next_player 0 (new_state o1)))
    = mkOutcome (new_state (next_player 0 (new_state o1))) [F_not_current]
        (Redirect R_auctions).
Proof.
  intros o1.
  assert (response o1 = Redirect R_next_player) as Hresp
    by (vm_compute; reflexivity).
  split; [exact Hresp |].
  destruct (sell_or_pass_at_most_once decimal_int sale_state 7 o1
              (or_introl (ex_intro _ (sale_form "800") eq_refl)) Hresp)
    as (Hcur & _ & Hstale).
  split; [exact Hcur |]. split.
  - exact (proj1 (Hstale _ (or_introl eq_refl) (sale_form "800"))).
  - exact (proj2 (Hstale _ (or_intror (ex_intro _ 0%nat eq_refl))
                    (sale_form "800"))).
Defined.

(** The reset of C8 on the specification's example: with retained players
    costing 1000 and 1500, team 1 is left with purse 7500, purse_spent
    2500, 13 slots and 2 players, whatever the auction had done; a second
    reset changes nothing. *)
Lemma restart_auction_example :
  let reset st :=
    new_state
      (restart_auction seeded_admin_password true (Some "admin123") st) in
  password_rejected seeded_admin_password (Some "admin123") = false ∧
  reset (reset mid_auction_state) = reset mid_auction_state ∧
  ∃ t, teams (reset mid_auction_state) !! 1 = Some t ∧
       purse t = 7500 ∧ purse_spent t = 2500 ∧
       slots_remaining t = 13 ∧ players_taken_count t = 2.
Proof.
  intros reset.
  assert (password_rejected seeded_admin_password (Some "admin123") = false)
    as Hpw by (vm_compute; reflexivity).
  split; [exact Hpw |].
  destruct (restart_auction_idempotent seeded_admin_password "admin123"
              mid_auction_state Hpw) as (Hidem & _ & _ & Hteams & _).
  split; [exact Hidem |].
  destruct (Hteams 1 (mkTeam "Puthiya Sirakukal" "Govindaraj" 4500 5500 12 3))
    as (t & Hl & Hcount & Hslots & Hspent & Hpurse);
    [vm_compute; reflexivity |].
  exists t. split; [exact Hl |].
  rewrite Hpurse, Hspent, Hslots, Hcount.
  repeat split; vm_compute; reflexivity.
Defined.

(** C4 does not hold of the code.  The lone player is passed in round 1
    and in round 2 and the administrator logs out, which drops the round
    counter with the rest of the session; the player holds
    'Round 2 Unsold'.  The next request to [next_player] reads round 1,
    finds nobody under 'Round 1 Unsold', and announces that the auction
    is complete and all non-retained players are processed, where the
    claim has round completion.  The auction page still counts the player
    among those marked unsold in any round and as remaining;
    [start_next_round] refuses, and every further [next_player] ends the
    same way, so the player is never presented again. *)
Theorem parked_player_stranded_after_logout :
  let st :=
    run decimal_int seeded_admin_password two_passes_then_logout
      lone_player_state in
  let o := next_player 0 st in
  let st' := new_state o in
  (status <$> players st !! 1) = Some "Round 2 Unsold" ∧
  (is_retained <$> players st !! 1) = Some false ∧
  round_marked_unsold "Round 2 Unsold" = true ∧
  get_round (session st) = 1 ∧
  claimed_round_complete st ∧
  ¬ claimed_auction_complete st ∧
  ¬ enters_round_complete st o ∧
  enters_auction_complete st o ∧
  flashes o = [F_auction_done 1] ∧
  truthy (auction_complete (session st')) = true ∧
  marked_unsold_count (auctions_counts st') = 1%nat ∧
  remaining_players_count (auctions_counts st') = 1%nat ∧
  start_next_round st'
    = mkOutcome st' [F_round_not_complete] (Redirect R_auctions) ∧
  (∀ rnd, next_player rnd st'
          = mkOutcome st' [F_auction_done 1] (Redirect R_auctions)).
Proof.
  intros st o st'.
  set (parked := update_player (imported_player "Solo" false None 0)
                   "Round 2 Unsold" (Some 0) None).
  assert (players st !! 1 = Some parked) as Hl by (vm_compute; reflexivity).
  assert (none_holds "Unsold" (players st)) as Hnone.
  { change (map_Forall
              (λ (_ : Z) (p : Player),
                 is_retained p = false → status p ≠ "Unsold") (players st)).
    compute_done. }
  split; [by rewrite Hl |].
  split; [by rewrite Hl |].
  split; [vm_compute; reflexivity |].
  split; [vm_compute; reflexivity |].
  split.
  { split; [exact Hnone |]. exists 1, parked.
    split; [exact Hl |]. vm_compute. reflexivity. }
  split.
  { intros [_ Hno]. specialize (Hno 1 parked Hl).
    vm_compute in Hno. discriminate. }
  split.
  { intros [Hf _]. vm_compute in Hf. discriminate. }
  split; [split; vm_compute; reflexivity |].
  do 5 (split; [vm_compute; reflexivity |]).
  intros rnd. vm_compute. reflexivity.
Qed.

(** The other way into auction completion, [start_next_round] when no
    non-retained player holds the marker of the round, does not look at
    plain 'Unsold' either.  Solo is passed in round 1 and the round ends;
    a players file is then imported that marks Solo retained by team 1
    and adds Late for the auction; [start_next_round] declares the
    auction complete with Late 'Unsold' and never presented. *)
Example start_next_round_past_unsold_player :
  let st1 :=
    run decimal_int seeded_admin_password
      [OpNextPlayer 0; OpMarkUnsold 1; OpNextPlayer 0] lone_player_state in
  let file :=
    [ plain_row "Solo" true "Puthiya Sirakukal" (Some 500);
      plain_row "Late" false "" (Some 0) ] in
  let st2 :=
    (import_players_from_csv ascii_strip null_default (Some file) st1).1 in
  let o := start_next_round st2 in
  truthy (round_complete (session st2)) = true ∧
  ((λ p, (status p, is_retained p)) <$> players st2 !! 2)
    = Some ("Unsold", false) ∧
  flashes o = [F_no_players_next_round] ∧
  truthy (auction_complete (session (new_state o))) = true ∧
  currently_unsold_count (auctions_counts (new_state o)) = 1%nat.
Proof. repeat split; vm_compute; reflexivity. Qed.

(** The next round on the example tables: in round completion of round 1,
    the player passed in round 1 goes back to 'Unsold', the round counter
    becomes 2 and the browser is sent to [next_player]. *)
Example start_next_round_example :
  let st :=
    mkState (players mid_auction_state) (teams mid_auction_state)
      (mkSession (Some false) None None (Some true) None (Some true)) in
  let o := start_next_round st in
  response o = Redirect R_next_player ∧
  flashes o = [F_starting_round 2] ∧
  (status <$> players (new_state o) !! 4) = Some "Unsold" ∧
  (status <$> players (new_state o) !! 3) = Some "Sold" ∧
  session (new_state o)
    = mkSession (Some true) None (Some 2) (Some false) None (Some false) ∧
  presented_by 5 (new_state o) = Some 4.
Proof. repeat split; vm_compute; reflexivity. Qed.

(** The export on the example tables: three players are on the roster of
    team 1, the workbook has three rows, retained players first; team 2
    does not exist. *)
Example export_example :
  (match response (export_team_excel 1 mid_auction_state) with
   | SendFile download_name sheet_name rows =>
       download_name = "Puthiya Sirakukal_players.xlsx" ∧
       sheet_name = "Puthiya Sirakukal" ∧
       take 3 <$> rows =
         [ [ ("Player Name", CText "Anchor"); ("Status", CText "Retained");
             ("Price (Points)", CInt 1500) ];
           [ ("Player Name", CText "Keeper"); ("Status", CText "Retained");
             ("Price (Points)", CInt 1000) ];
           [ ("Player Name", CText "Bidder"); ("Status", CText "Sold");
             ("Price (Points)", CInt 3000) ] ]
   | _ => False
   end) ∧
  response (export_team_excel 2 mid_auction_state) = NotFound ∧
  export_team_excel 3 (mkState (players mid_auction_state) seeded_teams
                         empty_session)
    = mkOutcome (mkState (players mid_auction_state) seeded_teams
                   empty_session)
        [F_nothing_to_export "Mighty Cricket Club"] (Redirect R_teams).
Proof. repeat split; vm_compute; reflexivity. Qed.

(** ** Further properties of the handlers *)

Section Coverage.

Variable py_int : string → option Z.
Variable check_password : string → bool.

(** *** What a request does to one row *)

Lemma row_kept_refl ts p : row_kept ts p p.
Proof. by left. Qed.

Lemma relabel_row_kept ts marker p :
  (∃ r, marker = round_unsold r) → row_kept ts p (relabel marker p).
Proof.
  intros [r ->]. unfold relabel.
  destruct (decide _) as [[Hs Hr] |]; [| by left].
  right. by apply row_relabelled with (r := r).
Qed.

Lemma reset_row_kept ts p : row_kept ts p (reset_player p).
Proof.
  unfold reset_player. destruct (is_retained p) eqn:Hr; [by left |].
  right. by apply row_reset.
Qed.

(** Every web request leaves each Player row in place, unchanged or
    changed by one of the four assignments. *)
Lemma step_row op st pid :
  web_request op →
  option_Forall2 (row_kept (teams st)) (players st !! pid)
    (players (step py_int check_password op st) !! pid).
Proof.
  assert (Hsame : option_Forall2 (row_kept (teams st)) (players st !! pid)
                    (players st !! pid)).
  { destruct (players st !! pid); constructor. by left. }
  intros Hweb. destruct op; simpl; try done.
  - by destruct (next_player_tables rnd st) as (-> & _).
  - unfold start_next_round.
    destruct (negb _); [done |].
    destruct (map_to_list _); [done |]. simpl.
    rewrite lookup_fmap.
    destruct (players st !! pid); constructor.
    apply relabel_row_kept. by eexists.
  - destruct (mark_sold_cases py_int st player_id form)
      as [[_ ->] | [(_ & _ & ->) | [(? & _ & _ & _ & ->) | [(? & _ & _ & ->) |
          [(? & ? & ? & _ & _ & _ & _ & ->) |
           [(? & ? & ? & ? & _ & _ & _ & _ & _ & ->) |
            [(? & ? & ? & ? & _ & _ & _ & _ & _ & _ & ->) |
             (p & tid & t & price & Hacc & ->)]]]]]]]; try done.
    destruct Hacc as [(_ & Hl & Hr & Hs & _ & _ & _ & _ & Htm & _) _].
    simpl. destruct (decide (pid = player_id)) as [-> |].
    + rewrite lookup_insert_eq, Hl. constructor. right.
      apply row_sold; [done | done | by rewrite Htm].
    + by rewrite lookup_insert_ne.
  - destruct (mark_unsold_cases st player_id)
      as [[_ ->] | [(_ & _ & ->) | [(? & _ & _ & _ & ->) |
          (p & (_ & Hl & Hn) & ->)]]]; try done.
    simpl. destruct (decide (pid = player_id)) as [-> |].
    + rewrite lookup_insert_eq, Hl. constructor. right.
      unfold not_up_for_auction in Hn.
      apply row_passed.
      * destruct (is_retained p); [| done]. destruct Hn. by left.
      * destruct (decide (status p = "Unsold")); [done |].
        destruct Hn. right. by left.
    + by rewrite lookup_insert_ne.
  - unfold restart_auction. destruct post; [| done].
    destruct (password_rejected _ _); [done |]. simpl.
    rewrite lookup_fmap.
    destruct (players st !! pid); constructor. apply reset_row_kept.
  - unfold pause_auction. by destruct (_ || _).
  - unfold resume_auction. destruct (negb _); [done |].
    destruct post; [| done]. by destruct (password_rejected _ _).
  - unfold auctions. by destruct (_ && is_admin).
  - by rewrite export_unchanged.
Qed.

(** No request adds or removes a Team row or renames a team. *)
Lemma step_team op st tid :
  option_Forall2
    (λ t t', team_name t' = team_name t ∧ captain_name t' = captain_name t)
    (teams st !! tid) (teams (step py_int check_password op st) !! tid).
Proof.
  assert (Hsame : option_Forall2
            (λ t t', team_name t' = team_name t ∧
                     captain_name t' = captain_name t)
            (teams st !! tid) (teams st !! tid)).
  { by destruct (teams st !! tid); constructor. }
  assert (Himap : ∀ f : Z → list (Z * Player),
    option_Forall2
      (λ t t', team_name t' = team_name t ∧ captain_name t' = captain_name t)
      (teams st !! tid)
      (map_imap (λ tid team, Some (recompute_team (f tid) team)) (teams st)
         !! tid)).
  { intros f. rewrite map_lookup_imap.
    by destruct (teams st !! tid); constructor. }
  destruct op; simpl.
  - by rewrite next_player_teams.
  - by rewrite start_next_round_teams.
  - destruct (mark_sold_cases py_int st player_id form)
      as [[_ ->] | [(_ & _ & ->) | [(? & _ & _ & _ & ->) | [(? & _ & _ & ->) |
          [(? & ? & ? & _ & _ & _ & _ & ->) |
           [(? & ? & ? & ? & _ & _ & _ & _ & _ & ->) |
            [(? & ? & ? & ? & _ & _ & _ & _ & _ & _ & ->) |
             (p & tid' & t & price & Hacc & ->)]]]]]]]; try done.
    destruct Hacc as [(_ & _ & _ & _ & _ & _ & _ & _ & Htm & _) _].
    simpl. destruct (decide (tid = tid')) as [-> |].
    + rewrite lookup_insert_eq, Htm. by constructor.
    + by rewrite lookup_insert_ne.
  - by rewrite mark_unsold_teams.
  - unfold restart_auction. destruct post; [| done].
    destruct (password_rejected _ _); [done |]. apply Himap.
  - unfold pause_auction. by destruct (_ || _).
  - unfold resume_auction. destruct (negb _); [done |].
    destruct post; [| done]. by destruct (password_rejected _ _).
  - by rewrite auctions_teams.
  - by rewrite export_unchanged.
  - done.
  - apply Himap.
Qed.

Lemma step_team_is_Some op st tid :
  is_Some (teams (step py_int check_password op st) !! tid)
  ↔ is_Some (teams st !! tid).
Proof.
  destruct (step_team op st tid) as [t t' _ |]; [| done].
  split; intros _; by eexists.
Qed.

Lemma row_change_mono ts ts' p q :
  (∀ tid, is_Some (ts !! tid) → is_Some (ts' !! tid)) →
  row_change ts p q → row_change ts' p q.
Proof.
  intros Hsub Hch.
  destruct Hch as [p price tid Hr Hs Hsome | p r Hr Hs | p r Hr Hs | p Hr].
  - apply row_sold; [done | done | by apply Hsub].
  - by apply row_passed.
  - by apply (row_relabelled _ _ r).
  - by apply row_reset.
Qed.

Lemma row_change_profile ts p q : row_change ts p q → same_profile p q.
Proof. intros Hch. by destruct Hch. Qed.

Lemma row_change_not_retained ts p q :
  row_change ts p q → is_retained p = false.
Proof. intros Hch. by destruct Hch. Qed.

(** A property of rows that the four assignments keep is kept by every
    sequence of web requests. *)
Lemma run_rows (P : gmap Z Team → Player → Prop) ops st :
  (∀ ts ts' p, (∀ tid, is_Some (ts !! tid) ↔ is_Some (ts' !! tid)) →
               P ts p → P ts' p) →
  (∀ ts p q, P ts p → row_change ts p q → P ts q) →
  Forall web_request ops →
  map_Forall (λ _ p, P (teams st) p) (players st) →
  map_Forall (λ _ p, P (teams (run py_int check_password ops st)) p)
    (players (run py_int check_password ops st)).
Proof.
  intros Hmono Hkeep Hweb. revert st.
  induction Hweb as [| op ops Hop Hops IH]; intros st Hinv; [done |].
  simpl. apply IH. intros pid q Hq.
  pose proof (step_row op st pid Hop) as Hrow.
  rewrite Hq in Hrow. inversion Hrow as [p q' Hkept Hp |]; subst.
  symmetry in Hp.
  apply (Hmono (teams st)).
  { intros tid. symmetry. apply step_team_is_Some. }
  destruct Hkept as [-> | Hch]; [by apply (Hinv pid) |].
  eapply Hkeep; [by apply (Hinv pid) | done].
Qed.

Lemma round_unsold_not_plain_sold r : round_unsold r ≠ "Sold".
Proof. unfold round_unsold. simpl. discriminate. Qed.

Lemma same_profile_refl p : same_profile p p.
Proof. by repeat split. Qed.

Lemma same_profile_trans p q r :
  same_profile p q → same_profile q r → same_profile p r.
Proof.
  unfold same_profile.
  intros (?&?&?&?&?&?&?&?&?&?&?&?&?) (?&?&?&?&?&?&?&?&?&?&?&?&?).
  repeat split; congruence.
Qed.

(** X1. No sequence of web requests adds or removes a Player row or
    changes a player's name, retention flag or statistics, and the row of
    a retained player is never changed at all. *)
Theorem web_requests_keep_profiles ops st :
  Forall web_request ops →
  ∀ pid,
    option_Forall2
      (λ p q, same_profile p q ∧ (is_retained p = true → q = p))
      (players st !! pid)
      (players (run py_int check_password ops st) !! pid).
Proof.
  intros Hweb. revert st.
  induction Hweb as [| op ops Hop Hops IH]; intros st pid.
  { simpl. destruct (players st !! pid); constructor.
    split; [apply same_profile_refl | done]. }
  simpl. specialize (IH (step py_int check_password op st) pid).
  pose proof (step_row op st pid Hop) as Hrow.
  destruct Hrow as [p q Hkept |]; [| done].
  inversion IH as [q' r [Hprof Hret] Hq Hr |]; subst.
  constructor.
  destruct Hkept as [-> | Hch]; [done |].
  split.
  - eapply same_profile_trans; [by eapply row_change_profile | done].
  - intros Hp. by rewrite (row_change_not_retained _ _ _ Hch) in Hp.
Qed.

(** X2. No sequence of requests, the import included, adds or removes a
    Team row or changes a team's name or captain. *)
Theorem requests_keep_teams ops st tid :
  option_Forall2
    (λ t t', team_name t' = team_name t ∧ captain_name t' = captain_name t)
    (teams st !! tid) (teams (run py_int check_password ops st) !! tid).
Proof.
  revert st. induction ops as [| op ops IH]; intros st.
  { simpl. by destruct (teams st !! tid); constructor. }
  simpl. specialize (IH (step py_int check_password op st)).
  destruct (step_team op st tid) as [t t' [Hn Hc] |]; [| done].
  inversion IH as [t1 t2 [Hn' Hc'] |]; subst.
  constructor. split; congruence.
Qed.

(** X3. If every player in the auction holds 'Unsold', 'Sold' or a round
    marker 'Round N Unsold', the same is true after any sequence of web
    requests: the handlers write no other status. *)
Theorem statuses_stay_known ops st :
  Forall web_request ops →
  map_Forall (λ _ p, status_known p) (players st) →
  map_Forall (λ _ p, status_known p)
    (players (run py_int check_password ops st)).
Proof.
  intros Hweb Hinv.
  apply (run_rows (λ _ p, status_known p) ops st); try done.
  intros ts p q Hp Hch Hq.
  destruct Hch as [p price tid Hr Hs Hsome | p r Hr Hs | p r Hr Hs | p Hr];
    simpl.
  - right. by left.
  - right. right. by exists r.
  - by left.
  - by left.
Qed.

(** X4. If every sold player in the auction carries a price and the id of
    an existing team, the same is true after any sequence of web
    requests. *)
Theorem sold_players_keep_team ops st :
  Forall web_request ops →
  map_Forall (λ _ p, sold_has_team (teams st) p) (players st) →
  map_Forall
    (λ _ p, sold_has_team (teams (run py_int check_password ops st)) p)
    (players (run py_int check_password ops st)).
Proof.
  intros Hweb Hinv.
  apply (run_rows sold_has_team ops st); try done.
  - intros ts ts' p Hdom Hp Hr Hs.
    destruct (Hp Hr Hs) as (tid & price & ? & ? & ?).
    exists tid, price. repeat split; try done. by apply Hdom.
  - intros ts p q Hp Hch.
    destruct Hch as [p price tid Hr Hs Hsome | p r Hr Hs | p r Hr Hs | p Hr];
      intros Hq Hsold; simpl in *.
    + by exists tid, price.
    + by destruct (round_unsold_not_plain_sold r).
    + done.
    + done.
Qed.

(** *** Team aggregates and rosters *)

Lemma retained_cost_perm l1 l2 :
  l1 ≡ₚ l2 → retained_cost l1 = retained_cost l2.
Proof.
  induction 1 as [| x l1 l2 _ IH | x y l | l1 l2 l3 _ IH1 _ IH2]; simpl.
  - done.
  - by rewrite IH.
  - destruct (sold_price x.2), (sold_price y.2); lia.
  - congruence.
Qed.

Lemma row_change_no_team ts p q :
  unsold_has_no_team p → row_change ts p q → unsold_has_no_team q.
Proof.
  intros Hp Hch.
  destruct Hch as [p price tid Hr Hs Hsome | p r Hr Hs | p r Hr Hs | p Hr];
    intros Hq Hns; simpl in *; try done.
  - apply Hp; [done |]. by rewrite Hs.
  - apply Hp; [done |]. rewrite Hs. apply round_unsold_not_plain_sold.
Qed.

(** A row that is on no roster before and after an assignment leaves every
    roster as it is. *)
Lemma team_players_insert_off tid (ps : gmap Z Player) pid p p' :
  ps !! pid = Some p → team_id p ≠ Some tid → team_id p' ≠ Some tid →
  team_players tid (<[pid := p']> ps) = team_players tid ps.
Proof.
  intros Hl Hp Hp'. unfold team_players.
  apply map_filter_insert_not'; unfold on_roster; simpl; [done |].
  intros y Hy. rewrite Hl in Hy. by injection Hy as <-.
Qed.

Lemma team_players_fmap_off tid (ps : gmap Z Player) f :
  (∀ pid p, ps !! pid = Some p →
            f p = p ∨ (team_id p ≠ Some tid ∧ team_id (f p) ≠ Some tid)) →
  team_players tid (f <$> ps) = team_players tid ps.
Proof.
  intros Hf. apply map_eq. intros pid. apply option_eq. intros q.
  rewrite !team_players_lookup, lookup_fmap.
  destruct (ps !! pid) as [p |] eqn:Hl; simpl; [| by split; intros []].
  destruct (Hf pid p Hl) as [-> | [Hp Hfp]]; [done |].
  split; intros [[= <-] Ht]; done.
Qed.

(** After the reset of the Player rows, a team's roster is its retained
    players. *)
Lemma team_players_after_reset tid (ps : gmap Z Player) :
  team_players tid (reset_player <$> ps)
  = filter (retained_of tid) (reset_player <$> ps).
Proof.
  apply map_eq. intros pid. apply option_eq. intros q.
  rewrite team_players_lookup, map_lookup_filter_Some, lookup_fmap.
  unfold retained_of. simpl.
  destruct (ps !! pid) as [p |]; simpl; [| by split; intros []].
  unfold reset_player. destruct (is_retained p) eqn:Hr.
  - split; [intros [[= <-] ?] | intros [[= <-] [? ?]]]; by repeat split.
  - split; [intros [[= <-] ?] | intros [[= <-] [? ?]]]; done.
Qed.

(** The two conditions under which rosters and aggregates agree. *)
Lemma step_books op st :
  web_request op →
  map_Forall (λ _ p, unsold_has_no_team p) (players st) →
  map_Forall (λ tid t, books_match (players st) tid t) (teams st) →
  map_Forall (λ _ p, unsold_has_no_team p)
    (players (step py_int check_password op st)) ∧
  map_Forall
    (λ tid t, books_match (players (step py_int check_password op st)) tid t)
    (teams (step py_int check_password op st)).
Proof.
  intros Hweb Hno Hbooks. split.
  { intros pid q Hq.
    pose proof (step_row op st pid Hweb) as Hrow.
    rewrite Hq in Hrow. inversion Hrow as [p q' Hkept Hp |]; subst.
    symmetry in Hp.
    destruct Hkept as [-> | Hch]; [by apply (Hno pid) |].
    eapply row_change_no_team; [by apply (Hno pid) | done]. }
  destruct op; simpl; try done.
  - destruct (next_player_tables rnd st) as (-> & -> & _). done.
  - unfold start_next_round.
    destruct (negb _); [done |].
    destruct (map_to_list _); [done |]. simpl.
    intros tid t Ht. unfold books_match, roster_cost.
    rewrite (team_players_fmap_off tid); [by apply (Hbooks tid t Ht) |].
    intros pid0 p0 Hl. unfold relabel.
    destruct (decide _) as [[Hs Hr] |]; [| by left].
    right. simpl.
    assert (team_id p0 = None) as ->; [| done].
    apply (Hno pid0 p0 Hl Hr). rewrite Hs.
    apply round_unsold_not_plain_sold.
  - destruct (mark_sold_cases py_int st player_id form)
      as [[_ ->] | [(_ & _ & ->) | [(? & _ & _ & _ & ->) | [(? & _ & _ & ->) |
          [(? & ? & ? & _ & _ & _ & _ & ->) |
           [(? & ? & ? & ? & _ & _ & _ & _ & _ & ->) |
            [(? & ? & ? & ? & _ & _ & _ & _ & _ & _ & ->) |
             (p & tid & t & price & Hacc & ->)]]]]]]]; try done.
    destruct Hacc as [(_ & Hl & Hr & Hs & _ & _ & _ & _ & Htm & _) _].
    simpl.
    assert (team_id p = None) as Hnone.
    { apply (Hno player_id p Hl Hr). by rewrite Hs. }
    intros tid' t' Ht'.
    destruct (decide (tid' = tid)) as [-> | Hne].
    + rewrite lookup_insert_eq in Ht'. injection Ht' as <-.
      destruct (Hbooks tid t Htm) as (Hc & Hsl & Hsp & Hpu).
      assert (team_players tid (players st) !! player_id = None) as Hoff.
      { destruct (team_players tid (players st) !! player_id) eqn:Hin;
          [| done].
        apply team_players_lookup in Hin as [Hin Hteam]. congruence. }
      unfold books_match, roster_cost, team_players in *.
      rewrite map_filter_insert_True by done.
      rewrite map_size_insert_None by done.
      rewrite (retained_cost_perm _ _ (map_to_list_insert _ _ _ Hoff)).
      simpl. lia.
    + rewrite lookup_insert_ne in Ht' by done.
      unfold books_match, roster_cost.
      rewrite (team_players_insert_off tid' _ _ p); try done.
      * by apply Hbooks.
      * by rewrite Hnone.
      * simpl. congruence.
  - destruct (mark_unsold_cases st player_id)
      as [[_ ->] | [(_ & _ & ->) | [(? & _ & _ & _ & ->) |
          (p & (_ & Hl & Hn) & ->)]]]; try done.
    simpl. intros tid t Ht.
    assert (is_retained p = false ∧ status p = "Unsold") as [Hr Hs].
    { unfold not_up_for_auction in Hn. split.
      - destruct (is_retained p); [| done]. destruct Hn. by left.
      - destruct (decide (status p = "Unsold")); [done |].
        destruct Hn. right. by left. }
    assert (team_id p = None) as Hnone.
    { apply (Hno player_id p Hl Hr). by rewrite Hs. }
    unfold books_match, roster_cost.
    rewrite (team_players_insert_off tid _ _ p); try done.
    + by apply Hbooks.
    + by rewrite Hnone.
    + simpl. by rewrite Hnone.
  - unfold restart_auction. destruct post; [| done].
    destruct (password_rejected _ _); [done |]. simpl.
    intros tid t. rewrite reset_teams_lookup.
    destruct (teams st !! tid) as [t0 |]; [| done]. simpl.
    intros [= <-].
    unfold books_match, roster_cost.
    rewrite team_players_after_reset, <- length_map_to_list.
    by repeat split.
  - unfold pause_auction. by destruct (_ || _).
  - unfold resume_auction. destruct (negb _); [done |].
    destruct post; [| done]. by destruct (password_rejected _ _).
  - unfold auctions. by destruct (_ && is_admin).
  - by rewrite export_unchanged.
Qed.

(** X5. If every team's aggregates agree with its roster (count = roster
    size, slots = 15 - roster size, purse_spent = summed roster price,
    purse = 10000 - that sum) and no unsold player in the auction is on a
    roster, both remain true after any sequence of web requests. *)
Theorem books_keep_matching ops st :
  Forall web_request ops →
  map_Forall (λ _ p, unsold_has_no_team p) (players st) →
  map_Forall (λ tid t, books_match (players st) tid t) (teams st) →
  map_Forall (λ _ p, unsold_has_no_team p)
    (players (run py_int check_password ops st)) ∧
  map_Forall
    (λ tid t, books_match (players (run py_int check_password ops st)) tid t)
    (teams (run py_int check_password ops st)).
Proof.
  intros Hweb. revert st.
  induction Hweb as [| op ops Hop Hops IH]; intros st Hno Hbooks; [done |].
  simpl. destruct (step_books op st Hop Hno Hbooks) as [Hno' Hbooks'].
  by apply IH.
Qed.

(** A reset that passes the password check brings the books and the
    rosters into agreement from any state. *)
Lemma reset_books pw st :
  password_rejected check_password (Some pw) = false →
  let st' := new_state (restart_auction check_password true (Some pw) st) in
  map_Forall (λ _ p, unsold_has_no_team p) (players st') ∧
  map_Forall (λ tid t, books_match (players st') tid t) (teams st').
Proof.
  intros Hpw. cbv zeta. rewrite (restart_auction_accepted _ _ _ Hpw). simpl.
  split.
  - intros pid q. rewrite lookup_fmap.
    destruct (players st !! pid) as [p |]; simpl; [| done].
    intros [= <-] Hr _. unfold reset_player in *.
    destruct (is_retained p) eqn:Hrp; simpl in *; congruence.
  - intros tid t. rewrite reset_teams_lookup.
    destruct (teams st !! tid) as [t0 |]; [| done]. simpl.
    intros [= <-].
    unfold books_match, roster_cost.
    rewrite team_players_after_reset, <- length_map_to_list.
    by repeat split.
Qed.

(** The team rows after a request that does not recompute them: as they
    were, or with one team debited by a sale that passed the slot and
    purse checks. *)
Lemma step_teams_debit op st :
  keeps_aggregates op →
  teams (step py_int check_password op st) = teams st ∨
  ∃ tid t price,
    teams st !! tid = Some t ∧ 0 < slots_remaining t ∧ price ≤ purse t ∧
    teams (step py_int check_password op st)
      = <[tid := debit price t]> (teams st).
Proof.
  intros Hkeep. destruct op; simpl; try done.
  - left. apply next_player_teams.
  - left. apply start_next_round_teams.
  - destruct (mark_sold_cases py_int st player_id form)
      as [[_ ->] | [(_ & _ & ->) | [(? & _ & _ & _ & ->) | [(? & _ & _ & ->) |
          [(? & ? & ? & _ & _ & _ & _ & ->) |
           [(? & ? & ? & ? & _ & _ & _ & _ & _ & ->) |
            [(? & ? & ? & ? & _ & _ & _ & _ & _ & _ & ->) |
             (p & tid & t & price & Hacc & ->)]]]]]]]; try (by left).
    destruct Hacc as [(_ & _ & _ & _ & _ & _ & _ & _ & Htm & Hsl) Hpu].
    right. by exists tid, t, price.
  - left. apply mark_unsold_teams.
  - left. unfold pause_auction. by destruct (_ || _).
  - left. unfold resume_auction. destruct (negb _); [done |].
    destruct post; [| done]. by destruct (password_rejected _ _).
  - left. apply auctions_teams.
  - left. by rewrite export_unchanged.
  - by left.
Qed.

(** X6. Sales never overdraw a team: if every team has a balanced ledger,
    a purse of at least 0 and at least 0 free slots, then after any
    sequence of requests other than a reset or an import every team still
    has, and has spent at most 10000 and taken at most 15 players. *)
Theorem sales_never_overdraw ops st :
  Forall keeps_aggregates ops →
  ledger_invariant st →
  map_Forall (λ _ t, solvent t) (teams st) →
  map_Forall
    (λ _ t, solvent t ∧ purse_spent t ≤ 10000 ∧ players_taken_count t ≤ 15)
    (teams (run py_int check_password ops st)).
Proof.
  intros Hops. revert st.
  induction Hops as [| op ops Hop Hops IH]; intros st Hledger Hsolvent.
  { simpl. intros tid t Ht.
    destruct (Hledger tid t Ht) as [? ?].
    destruct (Hsolvent tid t Ht) as [? ?].
    unfold solvent. lia. }
  simpl. apply IH; [by apply step_ledger |].
  destruct (step_teams_debit op st Hop)
    as [-> | (tid & t & price & Ht & Hsl & Hpu & ->)]; [done |].
  apply map_Forall_insert_2; [| done].
  unfold solvent, debit. simpl. lia.
Qed.

(** *** The pause *)

Lemma state_eta st : mkState (players st) (teams st) (session st) = st.
Proof. by destruct st. Qed.

Lemma paused_session_eta s :
  truthy (auction_paused s) = true →
  mkSession (auction_started s) (current_player_id s) (auction_round s)
    (round_complete s) (auction_complete s) (Some true) = s.
Proof.
  destruct s as [? ? ? ? ? [[] |]]; simpl; intros; by simplify_eq.
Qed.

Lemma step_while_paused op st :
  truthy (auction_paused (session st)) = true →
  ignored_while_paused check_password op →
  step py_int check_password op st = st.
Proof.
  intros Hp Hop. destruct op; simpl in *; try done.
  - by rewrite (next_player_paused _ _ Hp).
  - unfold mark_sold. by rewrite Hp.
  - unfold mark_unsold. by rewrite Hp.
  - unfold pause_auction. destruct (_ || _); [done |]. simpl.
    unfold with_session. rewrite (paused_session_eta _ Hp).
    apply state_eta.
  - unfold resume_auction. rewrite Hp. simpl.
    destruct Hop as [-> | Hrej]; [done |].
    destruct post; [| done]. by rewrite Hrej.
  - apply export_unchanged.
Qed.

(** X7. A paused auction is frozen: any sequence of next-player, sell,
    pass, pause and export requests, and of resume requests that are only
    displayed or give a password that is turned down, leaves the whole
    state (tables and session) exactly as it was. *)
Theorem paused_auction_is_frozen ops st :
  truthy (auction_paused (session st)) = true →
  Forall (ignored_while_paused check_password) ops →
  run py_int check_password ops st = st.
Proof.
  intros Hp Hops.
  induction Hops as [| op ops Hop Hops IH]; [done |].
  simpl. by rewrite (step_while_paused op st Hp Hop).
Qed.

(** X11. Pausing a running auction and resuming it with an accepted
    password gives back the state it had, with the pause flag off; the
    resume then sends the browser to the auction page when a player is
    presented and to [next_player] otherwise. *)
Theorem pause_then_resume pw st :
  truthy (auction_started (session st)) = true →
  truthy (auction_complete (session st)) = false →
  password_rejected check_password (Some pw) = false →
  let paused := pause_auction st in
  let resumed := resume_auction check_password true (Some pw)
                   (new_state paused) in
  truthy (auction_paused (session (new_state paused))) = true ∧
  new_state resumed
    = with_session st
        (mkSession (auction_started (session st))
           (current_player_id (session st)) (auction_round (session st))
           (round_complete (session st)) (auction_complete (session st))
           (Some false)) ∧
  response resumed
    = (if truthy_id (current_player_id (session st))
       then Redirect R_auctions else Redirect R_next_player).
Proof.
  intros Hs Hc Hpw. cbv zeta.
  unfold pause_auction, resume_auction. by rewrite Hs, Hc, Hpw.
Qed.

(** *** The pool of the current round *)

Lemma pool_after_leaving s (ps : gmap Z Player) pid p p' :
  ps !! pid = Some p → status p = s → is_retained p = false →
  status p' ≠ s →
  size (pool s ps) = S (size (pool s (<[pid := p']> ps))).
Proof.
  intros Hl Hs Hr Hs'. unfold pool.
  rewrite map_filter_insert_False by (unfold in_pool; simpl; by intros []).
  rewrite map_filter_delete.
  assert (filter (in_pool s) ps !! pid = Some p) as Hin
    by (by apply pool_lookup).
  rewrite <- (insert_delete_id _ _ _ Hin) at 1.
  rewrite map_size_insert_None by apply lookup_delete_eq.
  done.
Qed.

(** X8. Every successful sell or pass takes exactly one player out of the
    pool of players holding plain 'Unsold'. *)
Theorem sell_or_pass_shrinks_pool st player_id o1 :
  (∃ form, o1 = mark_sold py_int player_id form st) ∨
  o1 = mark_unsold player_id st →
  response o1 = Redirect R_next_player →
  size (pool "Unsold" (players st))
  = S (size (pool "Unsold" (players (new_state o1)))).
Proof.
  intros [[form ->] | ->] Hresp.
  - destruct (mark_sold_cases py_int st player_id form)
      as [[_ Ho] | [(_ & _ & Ho) | [(? & _ & _ & _ & Ho) | [(? & _ & _ & Ho) |
          [(? & ? & ? & _ & _ & _ & _ & Ho) |
           [(? & ? & ? & ? & _ & _ & _ & _ & _ & Ho) |
            [(? & ? & ? & ? & _ & _ & _ & _ & _ & _ & Ho) |
             (p & tid & t & price & Hacc & Ho)]]]]]]];
      rewrite Ho in Hresp |- *; try done.
    destruct Hacc as [(_ & Hl & Hr & Hs & _) _]. simpl.
    by apply (pool_after_leaving _ _ _ p).
  - destruct (mark_unsold_cases st player_id)
      as [[_ Ho] | [(_ & _ & Ho) | [(? & _ & _ & _ & Ho) |
          (p & (_ & Hl & Hn) & Ho)]]];
      rewrite Ho in Hresp |- *; try done.
    simpl. unfold not_up_for_auction in Hn.
    apply (pool_after_leaving _ _ _ p); try done.
    + destruct (decide (status p = "Unsold")); [done |].
      destruct Hn. right. by left.
    + destruct (is_retained p); [| done]. destruct Hn. by left.
Qed.

(** *** Round markers *)

Lemma string_app_nil t : "" +:+ t = t.
Proof. reflexivity. Qed.

Lemma string_app_cons a s t : String a s +:+ t = String a (s +:+ t).
Proof. reflexivity. Qed.

Lemma string_length_app s t :
  String.length (s +:+ t) = (String.length s + String.length t)%nat.
Proof.
  induction s as [| a s IH]; [done |].
  rewrite string_app_cons. simpl. by rewrite IH.
Qed.

Lemma string_app_inv_tail s1 s2 t : s1 +:+ t = s2 +:+ t → s1 = s2.
Proof.
  revert s2. induction s1 as [| a s1 IH]; intros [| b s2] Heq.
  - done.
  - apply (f_equal String.length) in Heq.
    rewrite string_app_nil, string_app_cons in Heq. simpl in Heq.
    rewrite string_length_app in Heq. lia.
  - apply (f_equal String.length) in Heq.
    rewrite string_app_nil, string_app_cons in Heq. simpl in Heq.
    rewrite string_length_app in Heq. lia.
  - rewrite !string_app_cons in Heq.
    injection Heq as -> Heq. f_equal. by apply IH.
Qed.

Lemma substring_after s t n m :
  String.substring (String.length s + n) m (s +:+ t) = String.substring n m t.
Proof.
  induction s as [| a s IH]; [done |].
  rewrite string_app_cons. simpl. apply IH.
Qed.

Lemma like_round_unsold_between x :
  like_round_unsold ("Round " +:+ x +:+ " Unsold") = true.
Proof.
  unfold like_round_unsold.
  assert (String.length ("Round " +:+ x +:+ " Unsold")
          = (6 + (String.length x + 7))%nat) as Hlen.
  { by rewrite !string_length_app. }
  rewrite Hlen.
  replace (6 + (String.length x + 7) - 7)%nat
    with (String.length "Round " + (String.length x + 0))%nat
    by (simpl; lia).
  rewrite bool_decide_eq_true_2 by lia.
  rewrite (substring_after "Round " (x +:+ " Unsold")
             (String.length x + 0) 7).
  rewrite (substring_after x " Unsold" 0 7).
  rewrite !string_app_cons, string_app_nil.
  rewrite andb_true_r. apply andb_true_iff. split.
  - by destruct (x +:+ " Unsold").
  - reflexivity.
Qed.

Lemma round_unsold_inj r1 r2 : round_unsold r1 = round_unsold r2 → r1 = r2.
Proof.
  unfold round_unsold. rewrite !string_app_cons, !string_app_nil.
  intros [= Heq].
  apply string_app_inv_tail in Heq. by apply (inj pretty).
Qed.

Lemma round_unsold_marked r : round_marked_unsold (round_unsold r) = true.
Proof.
  unfold round_marked_unsold, round_unsold.
  by rewrite like_round_unsold_between.
Qed.

(** X9. A player who has just been passed is counted among the players
    marked unsold on the auction page, and belongs to the pool that
    [start_next_round] brings back for the round counted by the session
    and for no other round. *)
Theorem pass_marks_for_next_round st player_id :
  response (mark_unsold player_id st) = Redirect R_next_player →
  ∃ p',
    players (new_state (mark_unsold player_id st)) !! player_id = Some p' ∧
    marked_unsold (player_id, p') ∧
    ∀ r, in_pool (round_unsold r) (player_id, p')
         ↔ r = get_round (session st).
Proof.
  intros Hresp.
  destruct (mark_unsold_cases st player_id)
    as [[_ Ho] | [(_ & _ & Ho) | [(? & _ & _ & _ & Ho) |
        (p & (_ & Hl & Hn) & Ho)]]];
    rewrite Ho in Hresp |- *; try done.
  simpl. eexists. rewrite lookup_insert_eq. split; [done |].
  assert (is_retained p = false) as Hr.
  { unfold not_up_for_auction in Hn.
    destruct (is_retained p); [| done]. destruct Hn. by left. }
  unfold marked_unsold, in_pool. simpl.
  split; [split; [done | apply round_unsold_marked] |].
  intros r. split.
  - intros [Heq _]. symmetry. by apply round_unsold_inj.
  - by intros ->.
Qed.

(** *** The session flags *)

Lemma step_session_coherent op st :
  session_coherent (session st) →
  session_coherent (session (step py_int check_password op st)).
Proof.
  intros Hcoh. pose proof Hcoh as [Hrc Hcur].
  assert (Hpop : session_coherent (pop_current_player (session st))).
  { split; simpl; [| by intros [? [=]]].
    intros Hr. by destruct (Hrc Hr). }
  destruct op; simpl.
  - destruct (next_player_cases rnd st)
      as [[_ ->] | [(_ & _ & _ & ->) | [(_ & _ & _ & ->) |
          (_ & pid & p & _ & _ & _ & ->)]]]; try done;
      split; simpl; try done; try (by intros [? [=]]).
  - unfold start_next_round.
    destruct (truthy (round_complete (session st))) eqn:Hr; simpl; [| done].
    destruct (Hrc eq_refl) as [Hst Hc].
    destruct (map_to_list _); simpl; split; simpl; try done.
    rewrite Hc. by intros [? [=]].
  - destruct (mark_sold_cases py_int st player_id form)
      as [[_ ->] | [(_ & _ & ->) | [(? & _ & _ & _ & ->) | [(? & _ & _ & ->) |
          [(? & ? & ? & _ & _ & _ & _ & ->) |
           [(? & ? & ? & ? & _ & _ & _ & _ & _ & ->) |
            [(? & ? & ? & ? & _ & _ & _ & _ & _ & _ & ->) |
             (p & tid & t & price & Hacc & ->)]]]]]]]; done.
  - destruct (mark_unsold_cases st player_id)
      as [[_ ->] | [(_ & _ & ->) | [(? & _ & _ & _ & ->) |
          (p & _ & ->)]]]; done.
  - unfold restart_auction. destruct post; [| done].
    destruct (password_rejected _ _); [done |]. simpl.
    split; simpl; [done | by intros [? [=]]].
  - unfold pause_auction. by destruct (_ || _).
  - unfold resume_auction. destruct (negb _); [done |].
    destruct post; [| done]. by destruct (password_rejected _ _).
  - unfold auctions.
    destruct (truthy (round_complete (session st))) eqn:Hr.
    + destruct (Hrc eq_refl) as [Hst Hc].
      rewrite Hst. simpl.
      destruct (decide _); [| done].
      destruct (decide _); [| done]. simpl.
      split; simpl; [done |]. rewrite Hc. by intros [? [=]].
    + simpl.
      set (stale_pointer := if _ && _ && _ && _ then _ else false).
      by destruct stale_pointer, is_admin.
  - by rewrite export_unchanged.
  - split; simpl; [done | by intros [? [=]]].
  - done.
Qed.

(** X10. The session flags stay coherent under every sequence of
    requests: in round completion the auction is not running and nobody
    is presented, and whenever a player is presented the auction is
    running and the round is not complete. *)
Theorem session_stays_coherent ops st :
  session_coherent (session st) →
  let s := session (run py_int check_password ops st) in
  (truthy (round_complete s) = true →
   truthy (auction_started s) = false ∧ current_player_id s = None) ∧
  (is_Some (current_player_id s) →
   truthy (auction_started s) = true ∧ truthy (round_complete s) = false).
Proof.
  intros Hc. cbv zeta.
  assert (session_coherent (session (run py_int check_password ops st)))
    as [Hrc Hcur].
  { revert st Hc. induction ops as [| op ops IH]; intros st Hc; [done |].
    simpl. apply IH. by apply step_session_coherent. }
  split; [done |]. intros Hsome. split; [by apply Hcur |].
  destruct (truthy (round_complete _)) eqn:Hr; [| done].
  destruct (Hrc eq_refl) as [_ Hnone]. rewrite Hnone in Hsome.
  by destruct Hsome.
Qed.

(** *** The two recomputes *)

(** X12. The recompute the import ends with and an accepted reset give
    every team the same row: both count and sum the retained players
    whose [team_id] is the team, whatever the auction has done. *)
Theorem recompute_agrees_with_reset pw st :
  password_rejected check_password (Some pw) = false →
  teams (recalculate_initial_team_stats st)
  = teams (new_state (restart_auction check_password true (Some pw) st)).
Proof.
  intros Hpw. rewrite (restart_auction_accepted _ _ _ Hpw). simpl.
  apply map_eq. intros tid.
  rewrite reset_teams_lookup, map_lookup_imap.
  rewrite retained_of_reset, retained_on_roster.
  by destruct (teams st !! tid).
Qed.

(** *** The order of the exported rows *)

Lemma roster_order_total a b : roster_order a b ∨ roster_order b a.
Proof.
  unfold roster_order.
  destruct (is_retained a.2) eqn:Ha, (is_retained b.2) eqn:Hb;
    try (by left; left); try (by right; left);
    destruct (String.leb_total (player_name a.2) (player_name b.2));
    first [by left; right | by right; right].
Qed.

Lemma roster_order_retained_first a b : roster_order a b → retained_first a b.
Proof.
  unfold roster_order, retained_first.
  intros [[Ha Hb] | [Heq _]] Hret; congruence.
Qed.

Lemma strongly_sorted_lookup {A} (R : relation A) l i j x y :
  StronglySorted R l → (i < j)%nat →
  l !! i = Some x → l !! j = Some y → R x y.
Proof.
  intros Hs. revert i j.
  induction Hs as [| a l Hs IH Hall]; intros i j Hlt Hi Hj; [done |].
  destruct j as [| j]; [lia |]. simpl in Hj.
  destruct i as [| i]; simpl in Hi.
  - injection Hi as <-.
    rewrite Forall_forall in Hall. apply Hall.
    by eapply list_elem_of_lookup_2.
  - apply (IH i j); [lia | done | done].
Qed.

Lemma status_label_retained p :
  status_label p = "Retained" ↔ is_retained p = true.
Proof.
  unfold status_label. destruct (is_retained p); [done |].
  by destruct (decide _).
Qed.

(** X13. In an exported workbook the rows of retained players come first:
    no row labelled 'Retained' follows a row with another label. *)
Theorem export_lists_retained_first tid st rows download_name sheet_name :
  response (export_team_excel tid st)
    = SendFile download_name sheet_name rows →
  ∀ i j row_i row_j,
    (i < j)%nat →
    rows !! i = Some row_i → rows !! j = Some row_j →
    row_j !! 1%nat = Some ("Status", CText "Retained") →
    row_i !! 1%nat = Some ("Status", CText "Retained").
Proof.
  unfold export_team_excel.
  destruct (teams st !! tid) as [team |]; [| done].
  set (roster := merge_sort roster_order
                   (map_to_list (team_players tid (players st)))).
  assert (StronglySorted retained_first roster) as Hsorted.
  { apply Sorted_StronglySorted.
    - intros a b c Hab Hbc Hc. apply Hab, Hbc, Hc.
    - rewrite <- (list_fmap_id roster).
      apply (Sorted_fmap id roster_order retained_first).
      + intros a b. apply roster_order_retained_first.
      + apply Sorted_merge_sort. intros a b. apply roster_order_total. }
  destruct ((λ kv : Z * Player, export_row kv.2) <$> roster)
    as [| row rest] eqn:Hrows; [done |].
  simpl. intros [= _ _ <-] i j row_i row_j Hlt Hi Hj.
  rewrite <- Hrows in Hi, Hj.
  rewrite list_lookup_fmap in Hi, Hj.
  destruct (roster !! i) as [a |] eqn:Ha; [| done].
  destruct (roster !! j) as [b |] eqn:Hb; [| done].
  simpl in Hi, Hj. injection Hi as <-. injection Hj as <-.
  simpl. intros [= Hlabel]. apply status_label_retained in Hlabel.
  f_equal. f_equal. f_equal. apply status_label_retained.
  by apply (strongly_sorted_lookup retained_first roster i j a b).
Qed.

(** *** The figures shown *)

Lemma filters_disjoint {A} (P Q : Z * A → Prop)
    `{!∀ x, Decision (P x)} `{!∀ x, Decision (Q x)} (m : gmap Z A) :
  (∀ x, P x → Q x → False) → filter P m ##ₘ filter Q m.
Proof.
  intros Hpq. apply map_disjoint_spec. intros i x y Hx Hy.
  apply map_lookup_filter_Some in Hx as [Hx HP].
  apply map_lookup_filter_Some in Hy as [Hy HQ].
  rewrite Hx in Hy. injection Hy as <-. by apply (Hpq (i, x)).
Qed.

Lemma size_filter_or {A} (P Q : Z * A → Prop)
    `{!∀ x, Decision (P x)} `{!∀ x, Decision (Q x)} (m : gmap Z A) :
  (∀ x, P x → Q x → False) →
  size (filter (λ x, P x ∨ Q x) m)
  = (size (filter P m) + size (filter Q m))%nat.
Proof.
  intros Hpq. rewrite map_filter_or.
  apply map_size_disj_union. by apply filters_disjoint.
Qed.

(** X14. When every player in the auction holds 'Unsold', 'Sold' or a
    round marker, the counts of the auction page add up: the players in
    the auction are the sold ones plus the remaining ones, and the
    remaining ones are those available now plus those marked unsold. *)
Theorem auction_counts_add_up st :
  map_Forall (λ _ p, status_known p) (players st) →
  let c := auctions_counts st in
  total_auction_players c
    = (sold_players_count c + remaining_players_count c)%nat ∧
  remaining_players_count c
    = (currently_unsold_count c + marked_unsold_count c)%nat.
Proof.
  intros Hknown. cbv zeta. unfold auctions_counts. simpl.
  split; [| done].
  unfold pool.
  rewrite <- (size_filter_or (in_pool "Unsold") marked_unsold).
  2: { intros [pid p] [Hs _] [_ Hm]. simpl in *. by rewrite Hs in Hm. }
  rewrite <- (size_filter_or (in_pool "Sold")).
  2: { intros [pid p] [Hs _] [[Hu _] | [_ Hm]]; simpl in *.
       - congruence.
       - by rewrite Hs in Hm. }
  f_equal. apply map_filter_ext. intros pid p Hl.
  unfold not_retained, in_pool, marked_unsold. simpl. split.
  - intros Hr.
    destruct (Hknown pid p Hl Hr) as [Hs | [Hs | [r Hs]]].
    + right. by left.
    + by left.
    + right. right. split; [done |]. rewrite Hs. apply round_unsold_marked.
  - intros [[_ ?] | [[_ ?] | [? _]]]; done.
Qed.

(** X15. The home page and the auction page show the same number of
    players in the auction: all rows minus the retained ones is the
    number of rows that are not retained; and the days to go are never
    negative. *)
Theorem home_agrees_with_auction_page today st :
  home_player_count (home today st)
    = Z.of_nat (total_auction_players (auctions_counts st)) ∧
  0 ≤ home_days_to_go (home today st) ∧
  (739557 ≤ today → home_days_to_go (home today st) = 0).
Proof.
  unfold home, auctions_counts. simpl. split.
  - rewrite <- (map_filter_union_complement retained_flag (players st)) at 1.
    rewrite map_size_disj_union
      by (apply filters_disjoint; intros x HP HQ; by apply HQ).
    assert (filter (λ v, ¬ retained_flag v) (players st)
            = filter not_retained (players st)) as ->.
    { apply map_filter_ext. intros pid p _.
      unfold retained_flag, not_retained. simpl.
      by destruct (is_retained p). }
    lia.
  - split; [by destruct (decide _); lia |].
    intros Hlate. destruct (decide _); lia.
Qed.

End Coverage.

(** ** Access control and user management *)

Section Access.

Variable py_int : string → option Z.
Variable verify : User → string → bool.
Variable set_password : option string → option string.

Lemma role_required_admin_only current_user :
  is_admin_user current_user = false →
  role_required ["Admin"] current_user ≠ Granted.
Proof.
  unfold is_admin_user, role_required.
  destruct current_user as [[uid u] |]; [| done].
  intros Hno. apply bool_decide_eq_false in Hno.
  destruct (decide _) as [_ | Hgranted]; [done |].
  destruct Hno.
  destruct (decide (role u = Some "Super Admin")) as [-> | Hsa];
    [by right |].
  left.
  destruct (decide (role u = Some "Admin")) as [-> | Hadmin]; [done |].
  destruct Hgranted. split; [done |].
  simpl. rewrite list_elem_of_singleton. done.
Qed.

(** A request of a visitor who is neither Admin nor Super Admin leaves
    the two tables as they are. *)
Lemma serve_without_admin current_user op st :
  is_admin_user current_user = false →
  players (serve py_int verify current_user op st) = players st ∧
  teams (serve py_int verify current_user op st) = teams st.
Proof.
  intros Hno. unfold serve.
  pose proof (role_required_admin_only current_user Hno) as Hdenied.
  destruct op; simpl; try done;
    try (by destruct (role_required ["Admin"] current_user)).
  - rewrite Hno. unfold auctions. simpl.
    rewrite andb_false_r. done.
  - destruct (login_required current_user); try done. simpl.
    by rewrite export_unchanged.
  - by destruct (login_required current_user).
Qed.

(** X16. Requests made by visitors who are not logged in, by Captains or
    by users of any role other than Admin and Super Admin never change
    the Player or the Team table, whatever they ask for and in whatever
    order. *)
Theorem only_admins_change_tables requests st :
  Forall (λ r : option (Z * User) * Op, is_admin_user r.1 = false) requests →
  players (serve_all py_int verify requests st) = players st ∧
  teams (serve_all py_int verify requests st) = teams st.
Proof.
  intros Hreqs. revert st.
  induction Hreqs as [| [current_user op] requests Hno _ IH]; intros st;
    [done |].
  simpl. destruct (IH (serve py_int verify current_user op st)) as [-> ->].
  by apply serve_without_admin.
Qed.

(** *** User rows *)

Lemma next_id_fresh {A} (m : gmap Z A) : m !! next_id m = None.
Proof.
  assert (∀ k, is_Some (m !! k) →
               k ≤ map_fold (λ k (_ : A) acc, Z.max k acc) 0 m) as Hmax.
  { apply (map_fold_weak_ind
             (λ r (m : gmap Z A), ∀ k, is_Some (m !! k) → k ≤ r)).
    - intros k. rewrite lookup_empty. by intros [? ?].
    - intros i x m' r _ IH k.
      destruct (decide (k = i)) as [-> | Hne]; [lia |].
      rewrite lookup_insert_ne by done.
      intros Hk. specialize (IH k Hk). lia. }
  unfold next_id.
  destruct (m !! _) eqn:Hl; [| done].
  specialize (Hmax _ (mk_is_Some _ _ Hl)). lia.
Qed.

Lemma head_filter_None {A} (P : Z * A → Prop) `{!∀ x, Decision (P x)}
    (m : gmap Z A) :
  head (map_to_list (filter P m)) = None ↔
  ∀ i x, m !! i = Some x → ¬ P (i, x).
Proof.
  split.
  - intros Hhead i x Hl HP.
    assert ((i, x) ∈ map_to_list (filter P m)) as Hin.
    { apply elem_of_map_to_list. by apply map_lookup_filter_Some. }
    destruct (map_to_list (filter P m)); [| done].
    by apply not_elem_of_nil in Hin.
  - intros Hnone.
    destruct (map_to_list (filter P m)) as [| [i x] l] eqn:Hlist; [done |].
    assert ((i, x) ∈ map_to_list (filter P m)) as Hin
      by (rewrite Hlist; apply list_elem_of_here).
    apply elem_of_map_to_list, map_lookup_filter_Some in Hin as [Hl HP].
    by destruct (Hnone i x Hl).
Qed.

Lemma find_by_username_None name (users : gmap Z User) :
  find_by_username name users = None ↔
  ∀ i u, users !! i = Some u → username u ≠ name.
Proof. unfold find_by_username. by rewrite head_filter_None. Qed.

Lemma find_other_by_username_None name user_id (users : gmap Z User) :
  find_other_by_username name user_id users = None ↔
  ∀ i u, users !! i = Some u → username u = name → i = user_id.
Proof.
  unfold find_other_by_username. rewrite head_filter_None.
  unfold named_other. simpl. split.
  - intros Hnone i u Hl Hn.
    destruct (decide (i = user_id)); [done |].
    by destruct (Hnone i u Hl).
  - intros Hall i u Hl [Hn Hne]. by destruct Hne; apply (Hall i u).
Qed.

Lemma usernames_unique_insert_new users uid u :
  usernames_unique users →
  (∀ i v, users !! i = Some v → username v ≠ username u) →
  usernames_unique (<[uid := u]> users).
Proof.
  intros Huniq Hnew i j a b Hi Hj Heq.
  destruct (decide (i = uid)) as [-> | Hi'],
           (decide (j = uid)) as [-> | Hj']; try done.
  - rewrite lookup_insert_eq in Hi. injection Hi as <-.
    rewrite lookup_insert_ne in Hj by done.
    by destruct (Hnew j b Hj).
  - rewrite lookup_insert_eq in Hj. injection Hj as <-.
    rewrite lookup_insert_ne in Hi by done.
    by destruct (Hnew i a Hi).
  - rewrite lookup_insert_ne in Hi, Hj by done.
    by apply (Huniq i j a b).
Qed.

Lemma usernames_unique_update users uid u :
  usernames_unique users →
  (∀ i v, users !! i = Some v → username v = username u → i = uid) →
  usernames_unique (<[uid := u]> users).
Proof.
  intros Huniq Hown i j a b Hi Hj Heq.
  destruct (decide (i = uid)) as [-> | Hi'],
           (decide (j = uid)) as [-> | Hj']; try done.
  - rewrite lookup_insert_eq in Hi. injection Hi as <-.
    rewrite lookup_insert_ne in Hj by done.
    symmetry. by apply (Hown j b).
  - rewrite lookup_insert_eq in Hj. injection Hj as <-.
    rewrite lookup_insert_ne in Hi by done.
    by apply (Hown i a).
  - rewrite lookup_insert_ne in Hi, Hj by done.
    by apply (Huniq i j a b).
Qed.

Lemma create_user_unique current_user post form users :
  usernames_unique users →
  usernames_unique
    (new_users (create_user py_int set_password current_user post form users)).
Proof.
  intros Huniq. unfold create_user.
  destruct post; [| done].
  destruct (decide _); [done |].
  destruct (find_by_username _ _) eqn:Hfind; [done |].
  destruct (captain_team _ _ _); [| done].
  destruct (set_password _); [| done]. simpl.
  apply usernames_unique_insert_new; [done |]. simpl.
  by apply find_by_username_None.
Qed.

Lemma edit_user_unique user_id post form users :
  usernames_unique users →
  usernames_unique
    (new_users (edit_user py_int set_password user_id post form users)).
Proof.
  intros Huniq. unfold edit_user.
  destruct (users !! user_id) as [user_to_edit |] eqn:Hl; [| done].
  destruct post; [| done].
  destruct (decide _) as [| Hfree]; [done |].
  assert (∀ i v, users !! i = Some v → username v = form_username form →
                 i = user_id) as Hown.
  { destruct (decide (form_username form = username user_to_edit))
      as [Hsame | Hdiff].
    - intros i v Hi Hv. apply (Huniq i user_id v user_to_edit); congruence.
    - apply find_other_by_username_None.
      destruct (find_other_by_username _ _ _) eqn:Hother; [| done].
      destruct Hfree. split; [done | by eexists]. }
  destruct (captain_team _ _ _); [| done].
  destruct (filled _); [destruct (set_password _); [| done] |]; simpl;
    by apply usernames_unique_update.
Qed.

Lemma delete_user_unique current_user user_id users :
  usernames_unique users →
  usernames_unique (new_users (delete_user current_user user_id users)).
Proof.
  intros Huniq. unfold delete_user.
  destruct (decide _); [done |].
  destruct (users !! user_id); [| done]. simpl.
  intros i j a b Hi Hj.
  apply lookup_delete_Some in Hi as [_ Hi].
  apply lookup_delete_Some in Hj as [_ Hj].
  by apply (Huniq i j a b).
Qed.

(** X17. Usernames stay unique: if no two User rows carry the same
    username, none do after any sequence of create, edit and delete
    requests, by any visitor and with any form values. *)
Theorem usernames_stay_unique requests users :
  usernames_unique users →
  usernames_unique (serve_user_ops py_int set_password requests users).
Proof.
  revert users.
  induction requests as [| [actor op] requests IH]; intros users Huniq;
    [done |].
  simpl. apply IH. unfold serve_user_op.
  destruct (load_user actor users) as [current_user |]; [| done].
  destruct (user_route_access op (Some current_user)); try done.
  destruct op.
  - by apply create_user_unique.
  - by apply edit_user_unique.
  - by apply delete_user_unique.
Qed.

Lemma role_required_super_admin_only uid u :
  role u ≠ Some "Super Admin" →
  role_required ["Super Admin"] (Some (uid, u)) = Forbidden.
Proof.
  intros Hsa. unfold role_required.
  destruct (decide _) as [| Hgranted]; [done |].
  destruct Hgranted. split; [done |].
  simpl. by rewrite list_elem_of_singleton.
Qed.

Lemma role_required_admin_granted uid u :
  role u ≠ Some "Super Admin" →
  role_required ["Admin"] (Some (uid, u)) = Granted →
  role u = Some "Admin".
Proof.
  intros Hsa. unfold role_required.
  destruct (decide _) as [| Hgranted]; [done |]. intros _.
  destruct (decide (role u = Some "Admin")); [done |].
  destruct Hgranted. split; [done |].
  simpl. by rewrite list_elem_of_singleton.
Qed.

(** One request by an actor who is not a Super Admin leaves every Admin
    and Super Admin row as it is and adds none. *)
Lemma serve_user_op_no_escalation actor op users :
  (∀ uid u, actor = Some uid → users !! uid = Some u →
            role u ≠ Some "Super Admin") →
  ∀ uid u, privileged u →
    serve_user_op py_int set_password actor op users !! uid = Some u
    ↔ users !! uid = Some u.
Proof.
  intros Hactor uid u Hpriv. unfold serve_user_op, load_user.
  destruct actor as [a |]; simpl; [| done].
  destruct (users !! a) as [cu |] eqn:Hcu; simpl; [| done].
  specialize (Hactor a cu eq_refl Hcu).
  destruct op; unfold user_route_access.
  - destruct (role_required ["Admin"] (Some (a, cu))) eqn:Hacc;
      [reflexivity | reflexivity |].
    apply role_required_admin_granted in Hacc; [| done].
    unfold create_user. destruct post; [| reflexivity]. simpl.
    destruct (decide _) as [| Hrole]; [reflexivity |].
    destruct (find_by_username _ _); [reflexivity |].
    destruct (captain_team _ _ _); [| reflexivity].
    destruct (set_password _); [| reflexivity]. simpl.
    destruct (decide (uid = next_id users)) as [-> | Hne].
    + rewrite lookup_insert_eq, next_id_fresh.
      split; [| done]. intros [= <-].
      destruct Hrole. split; [done |].
      destruct Hpriv as [Hp | Hp]; simpl in Hp; [by right | by left].
    + by rewrite lookup_insert_ne.
  - by rewrite role_required_super_admin_only.
  - by rewrite role_required_super_admin_only.
Qed.

(** X18. Without a Super Admin acting there is no way to gain or lose
    privilege: if none of the acting users is a Super Admin, then after
    any sequence of create, edit and delete requests the Admin and Super
    Admin rows are exactly the ones there were, unchanged. *)
Theorem no_escalation_without_super_admin requests users :
  (∀ r uid u, r ∈ requests → r.1 = Some uid → users !! uid = Some u →
              role u ≠ Some "Super Admin") →
  ∀ uid u, privileged u →
    serve_user_ops py_int set_password requests users !! uid = Some u
    ↔ users !! uid = Some u.
Proof.
  revert users.
  induction requests as [| [actor op] requests IH]; intros users Hactors uid u
    Hpriv; [done |].
  simpl.
  assert (∀ a cu, actor = Some a → users !! a = Some cu →
                  role cu ≠ Some "Super Admin") as Hactor.
  { intros a cu -> Hcu.
    apply (Hactors (Some a, op) a cu); [apply list_elem_of_here | done | done]. }
  rewrite IH; [by apply serve_user_op_no_escalation | | done].
  intros r a cu Hr Ha Hcu Hsa.
  assert (privileged cu) as Hpcu by (by right).
  apply (serve_user_op_no_escalation actor op users Hactor a cu Hpcu) in Hcu.
  apply (Hactors r a cu); [by apply list_elem_of_further | done | done | done].
Qed.

End Access.

(** ** The import *)

Section ImportProperties.

Variable strip : string → string.
Variable column_default : string → Cell.

Lemma find_by_player_name_Some name (ps : gmap Z Player) pid p :
  find_by_player_name name ps = Some (pid, p) →
  ps !! pid = Some p ∧ player_name p = name.
Proof.
  unfold find_by_player_name. intros Hhead.
  apply head_Some_elem_of, elem_of_map_to_list in Hhead.
  by apply map_lookup_filter_Some in Hhead.
Qed.

Lemma teams_map_valid (ts : gmap Z Team) name tid :
  teams_map strip ts name = Some tid → is_Some (ts !! tid).
Proof.
  unfold teams_map.
  destruct (last _) as [[tid' t] |] eqn:Hlast; [| done].
  simpl. intros [= <-].
  apply last_Some_elem_of, list_elem_of_filter in Hlast as [_ Hin].
  apply elem_of_map_to_list in Hin. by eexists.
Qed.

Lemma retention_valid (ts : gmap Z Team) row tid :
  (retention strip ts row).1 = Some tid → is_Some (ts !! tid).
Proof.
  unfold retention. destruct (_ && _); [| done].
  destruct (teams_map strip ts _) as [tid' |] eqn:Hmap; [| done].
  simpl. intros [= <-]. by eapply teams_map_valid.
Qed.

(** The four outcomes of the loop body, with what each one tells. *)
Lemma import_row_result ts row (ps : gmap Z Player) :
  match import_row strip column_default ts row ps with
  | RowSkipped =>
      csv_player_name row = None ∨ csv_player_name row = Some ""
  | RowRaised => raising_row row
  | RowAdded ps' =>
      ∃ name price,
        csv_player_name row = Some name ∧ name ≠ "" ∧
        csv_last_year_price row = Some price ∧
        find_by_player_name name ps = None ∧
        ps' = <[next_id ps :=
                  created_player column_default name row
                    (retention strip ts row).1 (retention strip ts row).2
                    price]> ps
  | RowUpdated ps' =>
      ∃ name price pid p,
        csv_player_name row = Some name ∧ name ≠ "" ∧
        csv_last_year_price row = Some price ∧
        find_by_player_name name ps = Some (pid, p) ∧
        ps !! pid = Some p ∧ player_name p = name ∧
        ps' = <[pid :=
                  updated_player p (retention strip ts row).1
                    (retention strip ts row).2 price]> ps
  end.
Proof.
  unfold import_row.
  destruct (csv_player_name row) as [name |] eqn:Hname; [| by left].
  destruct (decide (name = "")) as [-> | Hne]; [by right |].
  destruct (csv_last_year_price row) as [price |] eqn:Hprice.
  2: { split; [by exists name | done]. }
  destruct (retention strip ts row) as [team_id is_retained].
  destruct (find_by_player_name name ps) as [[pid p] |] eqn:Hfind.
  - destruct (find_by_player_name_Some _ _ _ _ Hfind) as [Hl Hn].
    by exists name, price, pid, p.
  - by exists name, price.
Qed.

Lemma import_turn_keeps ts committed rows acc row :
  row ∈ rows →
  kept_from committed rows (run_players acc) →
  kept_from committed rows
    (run_players (import_turn strip column_default ts committed acc row)).
Proof.
  intros Hrow Hkept. unfold import_turn.
  pose proof (import_row_result ts row (run_players acc)) as Hres.
  destruct (import_row _ _ _ _ _) as [| | ps' | ps']; simpl.
  - done.
  - intros pid p Hp. by exists p.
  - destruct Hres as (name & price & _ & _ & _ & _ & ->).
    intros pid p Hp. destruct (Hkept pid p Hp) as (q & Hq & Hn & Hsame).
    exists q. split; [| done].
    rewrite lookup_insert_ne; [done |].
    intros <-. by rewrite next_id_fresh in Hq.
  - destruct Hres as (name & price & pid' & p' & Hname & _ & _ & _ & Hp'
                      & Hn' & ->).
    intros pid p Hp. destruct (Hkept pid p Hp) as (q & Hq & Hn & Hsame).
    destruct (decide (pid = pid')) as [-> | Hne].
    + rewrite lookup_insert_eq. eexists. split; [done |]. simpl.
      rewrite Hp' in Hq. injection Hq as ->.
      split; [done |]. intros Hnot.
      destruct (Hnot row Hrow). congruence.
    + rewrite lookup_insert_ne by done. by exists q.
Qed.

Lemma import_rows_keep ts committed all rows acc :
  (∀ row, row ∈ rows → row ∈ all) →
  kept_from committed all (run_players acc) →
  kept_from committed all
    (run_players (import_rows strip column_default ts committed rows acc)).
Proof.
  revert acc. induction rows as [| row rows IH]; intros acc Hsub Hkept;
    [done |].
  simpl. apply IH.
  - intros r Hr. apply Hsub. by apply list_elem_of_further.
  - apply import_turn_keeps; [| done]. apply Hsub, list_elem_of_here.
Qed.

(** X19. The import removes no Player row and renames none, and a player
    whose name no row of the file carries comes out of it exactly as it
    went in, whether or not some row raised. *)
Theorem import_keeps_other_players rows st pid p :
  players st !! pid = Some p →
  let st' :=
    (import_players_from_csv strip column_default (Some rows) st).1 in
  (∃ q, players st' !! pid = Some q ∧ player_name q = player_name p) ∧
  (not_named_in rows p → players st' !! pid = Some p).
Proof.
  intros Hp. cbv zeta. simpl.
  destruct (import_rows_keep (teams st) (players st) rows rows
              (mkImportRun (players st) 0 0)) with (pid := pid) (p := p)
    as (q & Hq & Hn & Hsame); try done.
  { intros pid' p' Hp'. by exists p'. }
  split; [by exists q |].
  intros Hnot. by rewrite Hq, (Hsame Hnot).
Qed.

Lemma import_rows_cons ts committed row rows acc :
  import_rows strip column_default ts committed (row :: rows) acc
  = import_rows strip column_default ts committed rows
      (import_turn strip column_default ts committed acc row).
Proof. reflexivity. Qed.

Lemma import_rows_app ts committed rows1 rows2 acc :
  import_rows strip column_default ts committed (rows1 ++ rows2) acc
  = import_rows strip column_default ts committed rows2
      (import_rows strip column_default ts committed rows1 acc).
Proof. unfold import_rows. apply foldl_app. Qed.

(** The counters only add up: a run that starts with counts [n] and [u]
    ends with the players of the run that starts at 0 and with its counts
    raised by [n] and [u]. *)
Lemma import_rows_counts ts committed rows ps n u :
  import_rows strip column_default ts committed rows (mkImportRun ps n u)
  = let r := import_rows strip column_default ts committed rows
               (mkImportRun ps 0 0) in
    mkImportRun (run_players r) (n + new_players_count r)
      (u + updated_players_count r).
Proof.
  cbv zeta. revert ps n u.
  induction rows as [| row rows IH]; intros ps n u.
  { unfold import_rows. simpl. f_equal; lia. }
  rewrite !import_rows_cons. unfold import_turn.
  cbn [run_players new_players_count updated_players_count].
  destruct (import_row _ _ _ _ _) as [| | ps' | ps'].
  - apply IH.
  - apply IH.
  - rewrite (IH ps' (S n) u), (IH ps' 1%nat 0%nat).
    cbn [run_players new_players_count updated_players_count].
    f_equal; lia.
  - rewrite (IH ps' n (S u)), (IH ps' 0%nat 1%nat).
    cbn [run_players new_players_count updated_players_count].
    f_equal; lia.
Qed.

Lemma import_turn_raising ts committed acc row :
  raising_row row →
  import_turn strip column_default ts committed acc row
  = mkImportRun committed (new_players_count acc)
      (updated_players_count acc).
Proof.
  intros [(name & Hname & Hne) Hprice].
  unfold import_turn, import_row. rewrite Hname, Hprice.
  by destruct (decide (name = "")).
Qed.

(** X20. A row whose price does not convert costs all the rows before it:
    the import of [before ++ bad :: after] leaves the tables exactly as
    the import of [after] alone does, while the two counts it prints
    still include the rows of [before]. *)
Theorem import_rollback_drops_earlier_rows before bad after st :
  raising_row bad →
  let import rows :=
    import_players_from_csv strip column_default (Some rows) st in
  (import (before ++ bad :: after)).1 = (import after).1 ∧
  ∃ nb ub na ua,
    (import before).2 = Some (nb, ub) ∧
    (import after).2 = Some (na, ua) ∧
    (import (before ++ bad :: after)).2
      = Some ((nb + na)%nat, (ub + ua)%nat).
Proof.
  intros Hbad. cbv zeta. unfold import_players_from_csv.
  cbn [fst snd].
  rewrite import_rows_app, import_rows_cons.
  rewrite (import_turn_raising _ _ _ _ Hbad).
  set (rb := import_rows strip column_default (teams st) (players st) before
               (mkImportRun (players st) 0 0)).
  rewrite (import_rows_counts (teams st) (players st) after (players st)
             (new_players_count rb) (updated_players_count rb)).
  cbn [run_players new_players_count updated_players_count].
  split; [done |].
  by eexists _, _, _, _.
Qed.

Lemma import_turn_valid ts committed acc row :
  team_references_valid committed ts →
  team_references_valid (run_players acc) ts →
  team_references_valid
    (run_players (import_turn strip column_default ts committed acc row)) ts.
Proof.
  intros Hcom Hacc. unfold import_turn.
  pose proof (import_row_result ts row (run_players acc)) as Hres.
  destruct (import_row _ _ _ _ _) as [| | ps' | ps']; simpl; try done.
  - destruct Hres as (name & price & _ & _ & _ & _ & ->).
    intros pid p tid Hl Ht.
    destruct (decide (pid = next_id (run_players acc))) as [-> | Hne].
    + rewrite lookup_insert_eq in Hl. injection Hl as <-.
      simpl in Ht. by eapply retention_valid.
    + rewrite lookup_insert_ne in Hl by done. by eapply Hacc.
  - destruct Hres as (name & price & pid' & p' & _ & _ & _ & _ & _ & _ & ->).
    intros pid p tid Hl Ht.
    destruct (decide (pid = pid')) as [-> | Hne].
    + rewrite lookup_insert_eq in Hl. injection Hl as <-.
      simpl in Ht. by eapply retention_valid.
    + rewrite lookup_insert_ne in Hl by done. by eapply Hacc.
Qed.

(** X21. If every team id carried by a Player row is the id of a Team row
    before the import, the same holds after it: a row is only ever given
    the id of a team found by its name, and no team is removed. *)
Theorem import_keeps_team_references_valid rows st :
  team_references_valid (players st) (teams st) →
  let st' :=
    (import_players_from_csv strip column_default (Some rows) st).1 in
  team_references_valid (players st') (teams st').
Proof.
  intros Hvalid. cbv zeta. simpl.
  assert (∀ acc,
    team_references_valid (run_players acc) (teams st) →
    team_references_valid
      (run_players
         (import_rows strip column_default (teams st) (players st) rows acc))
      (teams st)) as Hrows.
  { induction rows as [| row rows IH]; intros acc Hacc; [done |].
    rewrite import_rows_cons. apply IH. by apply import_turn_valid. }
  intros pid p tid Hl Ht. rewrite map_lookup_imap.
  destruct (Hrows (mkImportRun (players st) 0 0) Hvalid pid p tid Hl Ht)
    as [t ->].
  by eexists.
Qed.

Lemma import_single_row row st :
  players (import_players_from_csv strip column_default (Some [row]) st).1
  = run_players
      (import_turn strip column_default (teams st) (players st)
         (mkImportRun (players st) 0 0) row).
Proof. reflexivity. Qed.

(** X22. Importing a row that puts a sold player back into the auction
    keeps the status 'Sold' but clears the team and sets the price to 0:
    the player is then sold to no team. *)
Theorem reimport_orphans_sold_player st row name price pid p :
  csv_player_name row = Some name → name ≠ "" →
  csv_last_year_price row = Some price →
  csv_is_retained row = false →
  find_by_player_name name (players st) = Some (pid, p) →
  status p = "Sold" →
  let st' :=
    (import_players_from_csv strip column_default (Some [row]) st).1 in
  ∃ p',
    players st' !! pid = Some p' ∧
    status p' = "Sold" ∧ is_retained p' = false ∧
    team_id p' = None ∧ sold_price p' = Some 0 ∧
    ¬ sold_has_team (teams st') p'.
Proof.
  intros Hname Hne Hprice Hret Hfind Hsold. cbv zeta.
  rewrite import_single_row.
  unfold import_turn, import_row. simpl.
  rewrite Hname, Hprice, Hfind.
  destruct (decide (name = "")); [done |].
  unfold retention. rewrite Hret. simpl.
  eexists. rewrite lookup_insert_eq. split; [done |]. simpl.
  rewrite Hsold. simpl.
  repeat split; try done.
  intros Hhas.
  destruct Hhas as (tid & ? & [=] & _); [done |].
  simpl. by rewrite Hsold.
Qed.

(** X23. A row marked retained that names no team yields a retained
    player without a team: charged at last year's price, counted among
    the retained players of no team, and in the pool of no status, so
    never presented. *)
Theorem retained_without_team_name st row name price :
  csv_player_name row = Some name → name ≠ "" →
  csv_last_year_price row = Some price →
  csv_is_retained row = true →
  csv_retaining_team_name row = "" →
  let st' :=
    (import_players_from_csv strip column_default (Some [row]) st).1 in
  ∃ pid p',
    players st' !! pid = Some p' ∧
    player_name p' = name ∧ is_retained p' = true ∧
    team_id p' = None ∧ sold_price p' = Some price ∧
    (∀ tid, ¬ retained_of tid (pid, p')) ∧
    (∀ s, ¬ in_pool s (pid, p')).
Proof.
  intros Hname Hne Hprice Hret Hteam. cbv zeta.
  rewrite import_single_row.
  unfold import_turn, import_row. simpl.
  rewrite Hname, Hprice.
  destruct (decide (name = "")); [done |].
  unfold retention. rewrite Hret, Hteam. simpl.
  destruct (find_by_player_name name (players st)) as [[pid p] |] eqn:Hfind;
    simpl.
  - destruct (find_by_player_name_Some _ _ _ _ Hfind) as [_ Hn].
    exists pid. eexists. rewrite lookup_insert_eq. split; [done |]. simpl.
    repeat split; try done.
    + by intros tid [[=] _].
    + by intros s [_ [=]].
  - exists (next_id (players st)). eexists.
    rewrite lookup_insert_eq. split; [done |]. simpl.
    repeat split; try done.
    + by intros tid [[=] _].
    + by intros s [_ [=]].
Qed.

End ImportProperties.

(** ** The further properties on the example tables *)

(** X1 on the lone player passed twice: after the seven requests the row
    is still there with the same name, flag and statistics. *)
Lemma keep_profiles_example :
  Forall web_request two_passes_then_logout ∧
  option_Forall2
    (λ p q, same_profile p q ∧ (is_retained p = true → q = p))
    (players lone_player_state !! 1)
    (players
       (run decimal_int seeded_admin_password two_passes_then_logout
          lone_player_state) !! 1).
Proof.
  assert (Forall web_request two_passes_then_logout) as Hweb
    by (repeat constructor).
  split; [exact Hweb |].
  exact (web_requests_keep_profiles decimal_int seeded_admin_password
           two_passes_then_logout lone_player_state Hweb 1).
Defined.

(** X3 on the lone player passed twice. *)
Lemma statuses_known_example :
  Forall web_request two_passes_then_logout ∧
  map_Forall (λ _ p, status_known p) (players lone_player_state) ∧
  map_Forall (λ _ p, status_known p)
    (players
       (run decimal_int seeded_admin_password two_passes_then_logout
          lone_player_state)).
Proof.
  assert (Forall web_request two_passes_then_logout) as Hweb
    by (repeat constructor).
  assert (map_Forall (λ _ p, status_known p) (players lone_player_state))
    as Hknown.
  { apply map_Forall_singleton. intros _. by left. }
  split; [exact Hweb |]. split; [exact Hknown |].
  exact (statuses_stay_known decimal_int seeded_admin_password
           two_passes_then_logout lone_player_state Hweb Hknown).
Defined.

(** X4 in the middle of the auction: Bidder is sold to team 1 for 3000,
    and stays so through an advance and a view of the auction page. *)
Lemma sold_keep_team_example :
  let ops := [OpNextPlayer 0; OpAuctions true] in
  Forall web_request ops ∧
  map_Forall (λ _ p, sold_has_team (teams mid_auction_state) p)
    (players mid_auction_state) ∧
  map_Forall
    (λ _ p,
       sold_has_team
         (teams (run decimal_int seeded_admin_password ops mid_auction_state))
         p)
    (players (run decimal_int seeded_admin_password ops mid_auction_state)).
Proof.
  intros ops.
  assert (Forall web_request ops) as Hweb by (repeat constructor).
  assert (map_Forall (λ _ p, sold_has_team (teams mid_auction_state) p)
            (players mid_auction_state)) as Hsold.
  { unfold mid_auction_state. simpl.
    repeat (apply map_Forall_insert_2;
            [intros Hr Hs;
             first [discriminate Hr | discriminate Hs |
                    (exists 1, 3000; repeat split; by eexists)] |]).
    apply map_Forall_empty. }
  split; [exact Hweb |]. split; [exact Hsold |].
  exact (sold_players_keep_team decimal_int seeded_admin_password ops
           mid_auction_state Hweb Hsold).
Defined.

(** X5 in the middle of the auction: the books of team 1 (3 players,
    5500 spent) agree with its roster of Keeper, Anchor and Bidder, and
    do so after an advance and a view of the auction page. *)
Lemma books_matching_example :
  let ops := [OpNextPlayer 0; OpAuctions true] in
  let st' := run decimal_int seeded_admin_password ops mid_auction_state in
  Forall web_request ops ∧
  map_Forall (λ _ p, unsold_has_no_team p) (players mid_auction_state) ∧
  map_Forall (λ tid t, books_match (players mid_auction_state) tid t)
    (teams mid_auction_state) ∧
  map_Forall (λ _ p, unsold_has_no_team p) (players st') ∧
  map_Forall (λ tid t, books_match (players st') tid t) (teams st').
Proof.
  intros ops st'.
  assert (Forall web_request ops) as Hweb by (repeat constructor).
  assert (map_Forall (λ _ p, unsold_has_no_team p)
            (players mid_auction_state)) as Hno.
  { unfold mid_auction_state. simpl.
    repeat (apply map_Forall_insert_2;
            [intros Hr Hs;
             first [discriminate Hr | (by destruct Hs) | reflexivity] |]).
    apply map_Forall_empty. }
  assert (map_Forall (λ tid t, books_match (players mid_auction_state) tid t)
            (teams mid_auction_state)) as Hbooks.
  { apply map_Forall_singleton. repeat split; vm_compute; reflexivity. }
  split; [exact Hweb |]. split; [exact Hno |]. split; [exact Hbooks |].
  exact (books_keep_matching decimal_int seeded_admin_password ops
           mid_auction_state Hweb Hno Hbooks).
Defined.

(** X6 on the sale of the example: after selling P for 800 team T has a
    purse of at least 0, at most 10000 spent and at most 15 players. *)
Lemma never_overdraw_example :
  let ops := [OpMarkSold 7 (sale_form "800"); OpNextPlayer 0] in
  Forall keeps_aggregates ops ∧
  ledger_invariant sale_state ∧
  map_Forall (λ _ t, solvent t) (teams sale_state) ∧
  map_Forall
    (λ _ t, solvent t ∧ purse_spent t ≤ 10000 ∧ players_taken_count t ≤ 15)
    (teams (run decimal_int seeded_admin_password ops sale_state)).
Proof.
  intros ops.
  assert (Forall keeps_aggregates ops) as Hops by (repeat constructor).
  assert (ledger_invariant sale_state) as Hledger.
  { apply map_Forall_singleton. split; reflexivity. }
  assert (map_Forall (λ _ t, solvent t) (teams sale_state)) as Hsolvent.
  { apply map_Forall_singleton. split; vm_compute; discriminate. }
  split; [exact Hops |]. split; [exact Hledger |]. split; [exact Hsolvent |].
  exact (sales_never_overdraw decimal_int seeded_admin_password ops
           sale_state Hops Hledger Hsolvent).
Defined.

(** X7 on the paused sale: a sell, an advance and a resume with a wrong
    password leave the paused state as it is. *)
Lemma paused_frozen_example :
  let ops :=
    [OpMarkSold 7 (sale_form "800"); OpNextPlayer 3;
     OpResumeAuction true (Some "wrong")] in
  truthy (auction_paused (session paused_sale_state)) = true ∧
  Forall (ignored_while_paused seeded_admin_password) ops ∧
  run decimal_int seeded_admin_password ops paused_sale_state
    = paused_sale_state.
Proof.
  intros ops.
  assert (truthy (auction_paused (session paused_sale_state)) = true) as Hp
    by reflexivity.
  assert (Forall (ignored_while_paused seeded_admin_password) ops) as Hops.
  { apply List.Forall_cons; [exact I |].
    apply List.Forall_cons; [exact I |].
    apply List.Forall_cons; [| apply List.Forall_nil].
    right. vm_compute. reflexivity. }
  split; [exact Hp |]. split; [exact Hops |].
  exact (paused_auction_is_frozen decimal_int seeded_admin_password ops
           paused_sale_state Hp Hops).
Defined.

(** X11 on the sale of the example: pause, then resume with the password
    of the seeded Super Admin. *)
Lemma pause_resume_example :
  let paused := pause_auction sale_state in
  let resumed :=
    resume_auction seeded_admin_password true (Some "admin123")
      (new_state paused) in
  truthy (auction_started (session sale_state)) = true ∧
  truthy (auction_complete (session sale_state)) = false ∧
  password_rejected seeded_admin_password (Some "admin123") = false ∧
  truthy (auction_paused (session (new_state paused))) = true ∧
  new_state resumed
    = with_session sale_state
        (mkSession (Some true) (Some 7) (Some 1) (Some false) (Some false)
           (Some false)) ∧
  response resumed = Redirect R_auctions.
Proof.
  intros paused resumed.
  assert (truthy (auction_started (session sale_state)) = true) as Hs
    by reflexivity.
  assert (truthy (auction_complete (session sale_state)) = false) as Hc
    by reflexivity.
  assert (password_rejected seeded_admin_password (Some "admin123") = false)
    as Hpw by (vm_compute; reflexivity).
  split; [exact Hs |]. split; [exact Hc |]. split; [exact Hpw |].
  exact (pause_then_resume seeded_admin_password "admin123" sale_state
           Hs Hc Hpw).
Defined.

(** X8 on the sale of the example: one player in the pool before the
    sale, none after. *)
Lemma pool_shrinks_example :
  let o1 := mark_sold decimal_int 7 (sale_form "800") sale_state in
  response o1 = Redirect R_next_player ∧
  size (pool "Unsold" (players sale_state))
  = S (size (pool "Unsold" (players (new_state o1)))).
Proof.
  intros o1.
  assert (response o1 = Redirect R_next_player) as Hresp
    by (vm_compute; reflexivity).
  split; [exact Hresp |].
  exact (sell_or_pass_shrinks_pool decimal_int sale_state 7 o1
           (or_introl (ex_intro _ (sale_form "800") eq_refl)) Hresp).
Defined.

(** X9 on the sale of the example: P is passed in round 1. *)
Lemma pass_marks_example :
  response (mark_unsold 7 sale_state) = Redirect R_next_player ∧
  ∃ p',
    players (new_state (mark_unsold 7 sale_state)) !! 7 = Some p' ∧
    marked_unsold (7, p') ∧
    ∀ r, in_pool (round_unsold r) (7, p') ↔ r = 1.
Proof.
  assert (response (mark_unsold 7 sale_state) = Redirect R_next_player)
    as Hresp by (vm_compute; reflexivity).
  split; [exact Hresp |].
  exact (pass_marks_for_next_round sale_state 7 Hresp).
Defined.

(** X10 on the lone player passed twice, starting from a fresh session. *)
Lemma session_coherent_example :
  let s :=
    session
      (run decimal_int seeded_admin_password two_passes_then_logout
         lone_player_state) in
  session_coherent (session lone_player_state) ∧
  (truthy (round_complete s) = true →
   truthy (auction_started s) = false ∧ current_player_id s = None) ∧
  (is_Some (current_player_id s) →
   truthy (auction_started s) = true ∧ truthy (round_complete s) = false).
Proof.
  intros s.
  assert (session_coherent (session lone_player_state)) as Hc.
  { split; simpl; [discriminate | by intros [? [=]]]. }
  split; [exact Hc |].
  exact (session_stays_coherent decimal_int seeded_admin_password
           two_passes_then_logout lone_player_state Hc).
Defined.

(** X12 in the middle of the auction. *)
Lemma recompute_agrees_example :
  password_rejected seeded_admin_password (Some "admin123") = false ∧
  teams (recalculate_initial_team_stats mid_auction_state)
  = teams
      (new_state
         (restart_auction seeded_admin_password true (Some "admin123")
            mid_auction_state)).
Proof.
  assert (password_rejected seeded_admin_password (Some "admin123") = false)
    as Hpw by (vm_compute; reflexivity).
  split; [exact Hpw |].
  exact (recompute_agrees_with_reset seeded_admin_password "admin123"
           mid_auction_state Hpw).
Defined.

(** X13 in the middle of the auction: the workbook of team 1 has Keeper
    in its first row and Anchor in its second, both labelled 'Retained'. *)
Lemma retained_first_example :
  ∃ download_name sheet_name rows row_i row_j,
    response (export_team_excel 1 mid_auction_state)
      = SendFile download_name sheet_name rows ∧
    rows !! 0%nat = Some row_i ∧ rows !! 1%nat = Some row_j ∧
    row_j !! 1%nat = Some ("Status", CText "Retained") ∧
    row_i !! 1%nat = Some ("Status", CText "Retained").
Proof.
  assert (∃ download_name sheet_name row_i row_j rows,
            response (export_team_excel 1 mid_auction_state)
              = SendFile download_name sheet_name (row_i :: row_j :: rows) ∧
            row_j !! 1%nat = Some ("Status", CText "Retained"))
    as (download_name & sheet_name & row_i & row_j & rows & Hresp & Hj).
  { vm_compute. do 5 eexists. split; reflexivity. }
  exists download_name, sheet_name, (row_i :: row_j :: rows), row_i, row_j.
  split; [exact Hresp |]. split; [reflexivity |]. split; [reflexivity |].
  split; [exact Hj |].
  exact (export_lists_retained_first 1 mid_auction_state
           (row_i :: row_j :: rows) download_name sheet_name Hresp
           0%nat 1%nat row_i row_j (Nat.lt_0_succ 0) eq_refl eq_refl Hj).
Defined.

(** X14 in the middle of the auction: two players in the auction, one
    sold and one remaining, who is marked unsold. *)
Lemma counts_add_up_example :
  let c := auctions_counts mid_auction_state in
  map_Forall (λ _ p, status_known p) (players mid_auction_state) ∧
  total_auction_players c
    = (sold_players_count c + remaining_players_count c)%nat ∧
  remaining_players_count c
    = (currently_unsold_count c + marked_unsold_count c)%nat.
Proof.
  intros c.
  assert (map_Forall (λ _ p, status_known p) (players mid_auction_state))
    as Hknown.
  { unfold mid_auction_state. simpl.
    repeat (apply map_Forall_insert_2;
            [intros Hr;
             first [discriminate Hr | (by right; left) |
                    (right; right; exists 1; reflexivity)] |]).
    apply map_Forall_empty. }
  split; [exact Hknown |].
  exact (auction_counts_add_up mid_auction_state Hknown).
Defined.

(** X16 on the sale of the example: a Captain asks to sell P and to
    advance, and a visitor who is not logged in asks for a restart. *)
Lemma only_admins_example :
  let requests :=
    [ (Some (3, captain_user), OpMarkSold 7 (sale_form "800"));
      (None, OpRestartAuction true (Some "admin123"));
      (Some (3, captain_user), OpNextPlayer 0) ] in
  Forall (λ r : option (Z * User) * Op, is_admin_user r.1 = false) requests ∧
  players (serve_all decimal_int tagged_verify requests sale_state)
    = players sale_state ∧
  teams (serve_all decimal_int tagged_verify requests sale_state)
    = teams sale_state.
Proof.
  intros requests.
  assert (Forall (λ r : option (Z * User) * Op, is_admin_user r.1 = false)
            requests) as Hreq.
  { repeat (apply List.Forall_cons; [reflexivity |]). apply List.Forall_nil. }
  split; [exact Hreq |].
  exact (only_admins_change_tables decimal_int tagged_verify requests
           sale_state Hreq).
Defined.

(** X17 on the three example users: the usernames are still distinct
    after the four requests, the Captain's attempt to take the Admin's
    username included. *)
Lemma usernames_unique_example :
  usernames_unique example_users ∧
  usernames_unique
    (serve_user_ops decimal_int tagged_hash example_user_requests
       example_users).
Proof.
  assert (usernames_unique example_users) as Huniq.
  { intros i j u v Hi Hj Huv. unfold example_users in Hi, Hj.
    repeat match goal with
    | H : <[_ := _]> _ !! _ = Some _ |- _ =>
        apply lookup_insert_Some in H as [[<- <-] | [? H]]
    | H : {[_ := _]} !! _ = Some _ |- _ =>
        apply lookup_singleton_Some in H as [<- <-]
    | H : ∅ !! _ = Some _ |- _ => by rewrite lookup_empty in H
    end; first [reflexivity | discriminate Huv]. }
  split; [exact Huniq |].
  exact (usernames_stay_unique decimal_int tagged_hash example_user_requests
           example_users Huniq).
Defined.

(** X18 on the three example users: only the Admin and the Captain act,
    and the Admin's row is the same before and after. *)
Lemma no_escalation_example :
  (∀ r uid u, r ∈ example_user_requests → r.1 = Some uid →
              example_users !! uid = Some u →
              role u ≠ Some "Super Admin") ∧
  privileged admin_user ∧
  (serve_user_ops decimal_int tagged_hash example_user_requests
     example_users !! 2 = Some admin_user
   ↔ example_users !! 2 = Some admin_user).
Proof.
  assert (∀ r uid u, r ∈ example_user_requests → r.1 = Some uid →
                     example_users !! uid = Some u →
                     role u ≠ Some "Super Admin") as Hactors.
  { intros r uid u Hr Huid Hu. unfold example_user_requests in Hr.
    repeat (apply elem_of_cons in Hr as [-> | Hr]);
      [| | | | by apply elem_of_nil in Hr];
      simpl in Huid; injection Huid as <-;
      vm_compute in Hu; injection Hu as <-; discriminate. }
  assert (privileged admin_user) as Hpriv by (by left).
  split; [exact Hactors |]. split; [exact Hpriv |].
  exact (no_escalation_without_super_admin decimal_int tagged_hash
           example_user_requests example_users Hactors 2 admin_user Hpriv).
Defined.

(** X19 on a re-import in the middle of the auction: the file names only
    Bidder, and Keeper comes out as it went in. *)
Lemma import_keeps_example :
  let rows := [plain_row "Bidder" false "" (Some 5)] in
  let p := imported_player "Keeper" true (Some 1) 1000 in
  let st' :=
    (import_players_from_csv ascii_strip null_default (Some rows)
       seeded_mid_auction).1 in
  players seeded_mid_auction !! 1 = Some p ∧
  (∃ q, players st' !! 1 = Some q ∧ player_name q = player_name p) ∧
  (not_named_in rows p → players st' !! 1 = Some p).
Proof.
  intros rows p st'.
  assert (players seeded_mid_auction !! 1 = Some p) as Hl by reflexivity.
  split; [exact Hl |].
  exact (import_keeps_other_players ascii_strip null_default rows
           seeded_mid_auction 1 p Hl).
Defined.

(** X20 on a first import of four rows: Keeper and Bidder come before
    the row whose price does not convert, Loner after it.  Only Loner is
    stored, and the counts say three players were added. *)
Lemma import_rollback_example :
  let st := mkState ∅ seeded_teams empty_session in
  let import rows :=
    import_players_from_csv ascii_strip null_default (Some rows) st in
  raising_row broken_row ∧
  (import ([keeper_row; bidder_row] ++ broken_row :: [teamless_row])).1
    = (import [teamless_row]).1 ∧
  ∃ nb ub na ua,
    (import [keeper_row; bidder_row]).2 = Some (nb, ub) ∧
    (import [teamless_row]).2 = Some (na, ua) ∧
    (import ([keeper_row; bidder_row] ++ broken_row :: [teamless_row])).2
      = Some ((nb + na)%nat, (ub + ua)%nat).
Proof.
  intros st import.
  assert (raising_row broken_row) as Hbad.
  { split; [| reflexivity]. exists "Broken". split; [reflexivity | discriminate]. }
  split; [exact Hbad |].
  exact (import_rollback_drops_earlier_rows ascii_strip null_default
           [keeper_row; bidder_row] broken_row [teamless_row] st Hbad).
Defined.

(** X21 on a re-import in the middle of the auction: Keeper, Anchor and
    Bidder carry the id of team 1 before it. *)
Lemma team_references_example :
  let rows := [keeper_row; plain_row "Bidder" false "" (Some 5)] in
  let st' :=
    (import_players_from_csv ascii_strip null_default (Some rows)
       seeded_mid_auction).1 in
  team_references_valid (players seeded_mid_auction)
    (teams seeded_mid_auction) ∧
  team_references_valid (players st') (teams st').
Proof.
  intros rows st'.
  assert (team_references_valid (players seeded_mid_auction)
            (teams seeded_mid_auction)) as Hvalid.
  { intros pid p tid Hl Ht.
    unfold seeded_mid_auction, mid_auction_state in Hl. simpl in Hl.
    repeat match goal with
    | H : <[_ := _]> _ !! _ = Some _ |- _ =>
        apply lookup_insert_Some in H as [[<- <-] | [? H]]
    | H : {[_ := _]} !! _ = Some _ |- _ =>
        apply lookup_singleton_Some in H as [<- <-]
    | H : ∅ !! _ = Some _ |- _ => by rewrite lookup_empty in H
    end;
      first [discriminate Ht
            | injection Ht as <-; vm_compute; eexists; reflexivity]. }
  split; [exact Hvalid |].
  exact (import_keeps_team_references_valid ascii_strip null_default rows
           seeded_mid_auction Hvalid).
Defined.

(** X22 on a re-import in the middle of the auction: Bidder, sold to
    team 1 for 3000, is named by a row that is not marked retained. *)
Lemma reimport_orphans_example :
  let row := plain_row "Bidder" false "" (Some 5) in
  let p :=
    update_player (imported_player "Bidder" false None 0) "Sold"
      (Some 3000) (Some 1) in
  let st' :=
    (import_players_from_csv ascii_strip null_default (Some [row])
       seeded_mid_auction).1 in
  find_by_player_name "Bidder" (players seeded_mid_auction) = Some (3, p) ∧
  ∃ p',
    players st' !! 3 = Some p' ∧
    status p' = "Sold" ∧ is_retained p' = false ∧
    team_id p' = None ∧ sold_price p' = Some 0 ∧
    ¬ sold_has_team (teams st') p'.
Proof.
  intros row p st'.
  assert (find_by_player_name "Bidder" (players seeded_mid_auction)
          = Some (3, p)) as Hfind by (vm_compute; reflexivity).
  assert ("Bidder" ≠ "") as Hne by discriminate.
  split; [exact Hfind |].
  exact (reimport_orphans_sold_player ascii_strip null_default
           seeded_mid_auction row "Bidder" 5 3 p eq_refl Hne eq_refl eq_refl
           Hfind eq_refl).
Defined.

(** X23 on a first import of the row for Loner. *)
Lemma retained_without_team_example :
  let st := mkState ∅ seeded_teams empty_session in
  let st' :=
    (import_players_from_csv ascii_strip null_default (Some [teamless_row])
       st).1 in
  ∃ pid p',
    players st' !! pid = Some p' ∧
    player_name p' = "Loner" ∧ is_retained p' = true ∧
    team_id p' = None ∧ sold_price p' = Some 400 ∧
    (∀ tid, ¬ retained_of tid (pid, p')) ∧
    (∀ s, ¬ in_pool s (pid, p')).
Proof.
  intros st st'.
  assert ("Loner" ≠ "") as Hne by discriminate.
  exact (retained_without_team_name ascii_strip null_default st teamless_row
           "Loner" 400 eq_refl Hne eq_refl eq_refl eq_refl).
Defined.
